(** * Signal fusion and forecast simulation of the stock prediction server

    A shallow embedding of [src/ml_api_server.py] (class [StockPredictor]
    and the module-level [predictor]) together with the properties that the
    specification states about it.

    Numbers.  The program computes with IEEE doubles (numpy [float64]).
    A finite double is a rational number, and it is embedded as the
    rational it denotes ([Fin q]); the special values NaN and the two
    infinities are kept, because pandas uses NaN as its "undefined"
    marker and every comparison with NaN is false.  Arithmetic on finite
    values is exact rational arithmetic: rounding to 53 bits, overflow and
    the sign of zero are not modelled.  The decision thresholds of the
    fusion step are additionally evaluated in binary64 itself
    ([Binary64] below).

    External libraries.  The functions of [ta], [yfinance],
    [scikit-learn], the numpy generator, [np.sin] and Python's string
    [hash] are not part of this repository; they are taken as the fields
    of interface records, and every theorem holds for all their
    implementations. *)

From Stdlib Require Import ZArith QArith Qabs Qround Qminmax List Lia Lqa Bool.
From Stdlib Require Import Floats.
From stdpp Require Import gmap strings list pretty.

Local Open Scope Z_scope.
Local Open Scope string_scope.
Local Open Scope Q_scope.

(** ** Doubles *)

Module Float64.

Inductive float64 : Type :=
| NaN
| PInf
| NInf
| Fin (q : Q).

Definition Qltb (x y : Q) : bool := negb (Qle_bool y x).

(** [a < b]; false as soon as one side is NaN. *)
Definition ltb (a b : float64) : bool :=
  match a, b with
  | NaN, _ | _, NaN => false
  | PInf, _ => false
  | _, NInf => false
  | NInf, _ => true
  | Fin _, PInf => true
  | Fin x, Fin y => Qltb x y
  end.

(** [a <= b]; false as soon as one side is NaN. *)
Definition leb (a b : float64) : bool :=
  match a, b with
  | NaN, _ | _, NaN => false
  | NInf, _ => true
  | _, PInf => true
  | PInf, _ => false
  | Fin _, NInf => false
  | Fin x, Fin y => Qle_bool x y
  end.

Definition gtb (a b : float64) : bool := ltb b a.
Definition geb (a b : float64) : bool := leb b a.

Definition neg (a : float64) : float64 :=
  match a with
  | NaN => NaN
  | PInf => NInf
  | NInf => PInf
  | Fin x => Fin (- x)
  end.

Definition add (a b : float64) : float64 :=
  match a, b with
  | NaN, _ | _, NaN => NaN
  | PInf, NInf | NInf, PInf => NaN
  | PInf, _ | _, PInf => PInf
  | NInf, _ | _, NInf => NInf
  | Fin x, Fin y => Fin (x + y)
  end.

Definition sub (a b : float64) : float64 := add a (neg b).

(** The infinity whose sign is the sign of [x]; NaN for [x = 0]. *)
Definition signed_inf (positive : bool) (x : Q) : float64 :=
  if Qltb 0 x then (if positive then PInf else NInf)
  else if Qltb x 0 then (if positive then NInf else PInf)
  else NaN.

Definition mul (a b : float64) : float64 :=
  match a, b with
  | NaN, _ | _, NaN => NaN
  | PInf, PInf | NInf, NInf => PInf
  | PInf, NInf | NInf, PInf => NInf
  | PInf, Fin x | Fin x, PInf => signed_inf true x
  | NInf, Fin x | Fin x, NInf => signed_inf false x
  | Fin x, Fin y => Fin (x * y)
  end.

(** numpy division: [x / 0] is an infinity of the sign of [x] (the zero
    is taken as [+0.0]) and [0 / 0] is NaN; no exception is raised. *)
Definition div (a b : float64) : float64 :=
  match a, b with
  | NaN, _ | _, NaN => NaN
  | PInf, PInf | PInf, NInf | NInf, PInf | NInf, NInf => NaN
  | PInf, Fin y => if Qltb y 0 then NInf else PInf
  | NInf, Fin y => if Qltb y 0 then PInf else NInf
  | Fin _, PInf | Fin _, NInf => Fin 0
  | Fin x, Fin y => if Qeq_bool y 0 then signed_inf true x else Fin (x / y)
  end.

(** [pd.isna] *)
Definition isna (a : float64) : bool :=
  match a with NaN => true | _ => false end.

(** Round half to even, the rule of Python's and numpy's [round]. *)
Definition round_half_even (x : Q) : Z :=
  let f := Qfloor x in
  let r := x - inject_Z f in
  if Qltb r (1 # 2) then f
  else if Qltb (1 # 2) r then (f + 1)%Z
  else if Z.even f then f else (f + 1)%Z.

(** [round(x, ndigits)] on a rational: a multiple of [10^-ndigits]. *)
Definition Qround_digits (x : Q) (ndigits : nat) : Q :=
  let scale := Pos.pow 10 (Pos.of_nat ndigits) in
  match ndigits with
  | O => inject_Z (round_half_even x)
  | S _ => round_half_even (x * inject_Z (Zpos scale)) # scale
  end.

(** [round(x, ndigits)] on a double: NaN and the infinities are kept.
    This is Python's [round] on a float.  On a [np.float64] ([predict]
    rounds its prices and confidences so) numpy scales by [10^ndigits],
    rounds to an integer and divides, all in doubles, and can differ
    from it in the last digit where the double is taken for a tie
    (2.675 gives 2.68, not 2.67); the model uses the one function for
    both. *)
Definition round (a : float64) (ndigits : nat) : float64 :=
  match a with
  | Fin x => Fin (Qround_digits x ndigits)
  | other => other
  end.

End Float64.

Import Float64.

(** ** Signal fusion: [StockPredictor.get_enhanced_signal] *)

Module Fusion.

(** The one-row frame [latest_data]: the columns that are present and
    the value each holds in that row (a double, possibly NaN). *)
Abbreviation row := (gmap string float64).

(** [latest_data[col].iloc[0] if col in latest_data else fallback] *)
Definition column_or (latest_data : row) (col : string) (fallback : float64)
  : float64 :=
  match latest_data !! col with
  | Some v => v
  | None => fallback
  end.

Record indicators : Type := {
  rsi : float64;
  macd : float64;
  macd_signal : float64;
  current_price : float64;
  sma_20 : float64;
  sma_50 : float64;
  bb_upper : float64;
  bb_lower : float64
}.

(** Lines 162-170.  [latest_data['Close']] has no fallback: a frame
    without that column raises [KeyError], here [None].  The default
    bands are exact products here; the code rounds them to doubles,
    which shows only for a close among the smallest doubles, where
    [current_price * 0.98] is rounded back to the close. *)
Definition extract_indicators (latest_data : row) : option indicators :=
  let rsi := column_or latest_data "RSI" (Fin 50) in
  let macd := column_or latest_data "MACD" (Fin 0) in
  let macd_signal := column_or latest_data "MACD_Signal" (Fin 0) in
  match latest_data !! "Close" with
  | None => None
  | Some current_price =>
      Some {| rsi := rsi;
              macd := macd;
              macd_signal := macd_signal;
              current_price := current_price;
              sma_20 := column_or latest_data "SMA_20" current_price;
              sma_50 := column_or latest_data "SMA_50" current_price;
              bb_upper := column_or latest_data "BB_Upper"
                            (mul current_price (Fin (102 # 100)));
              bb_lower := column_or latest_data "BB_Lower"
                            (mul current_price (Fin (98 # 100))) |}
  end.

(** Lines 175-181. *)
Definition rsi_score (i : indicators) : Z :=
  if ltb (rsi i) (Fin 30) then 1
  else if gtb (rsi i) (Fin 70) then -1
  else 0.

(** Lines 183-189. *)
Definition macd_score (i : indicators) : Z :=
  if gtb (macd i) (macd_signal i) && gtb (macd i) (Fin 0) then 1
  else if ltb (macd i) (macd_signal i) && ltb (macd i) (Fin 0) then -1
  else 0.

(** Lines 191-197; [a > b > c] is [a > b and b > c]. *)
Definition trend_score (i : indicators) : Z :=
  if gtb (current_price i) (sma_20 i) && gtb (sma_20 i) (sma_50 i) then 1
  else if ltb (current_price i) (sma_20 i) && ltb (sma_20 i) (sma_50 i)
       then -1
  else 0.

(** Lines 199-205. *)
Definition bollinger_score (i : indicators) : Z :=
  if leb (current_price i) (bb_lower i) then 1
  else if geb (current_price i) (bb_upper i) then -1
  else 0.

(** The list [signal_scores] after the four appends. *)
Definition signal_scores (i : indicators) : list Z :=
  [rsi_score i; macd_score i; trend_score i; bollinger_score i].

Definition sum_Z (l : list Z) : Z := fold_right Z.add 0%Z l.

(** [np.mean] of a list of integers. *)
Definition np_mean (l : list Z) : Q :=
  inject_Z (sum_Z l) / inject_Z (Z.of_nat (length l)).

(** [np.max] of a vector; it raises on an empty one. *)
Definition np_max (l : list Q) : option Q :=
  match l with
  | [] => None
  | x :: xs => Some (fold_left Qmax xs x)
  end.

Record decision : Type := {
  final_signal : Z;
  technical_signal : Q;
  combined_signal : Q
}.

(** Lines 207-220. *)
Definition combine (signal_scores : list Z) (prediction : Z) : decision :=
  let ml_signal := prediction in
  let technical_signal := np_mean signal_scores in
  let combined_signal :=
    (6 # 10) * technical_signal + (4 # 10) * inject_Z ml_signal in
  let final_signal :=
    if Qle_bool (1 # 2) combined_signal then 1%Z
    else if Qle_bool combined_signal (- (1 # 2)) then (-1)%Z
    else 0%Z in
  {| final_signal := final_signal;
     technical_signal := technical_signal;
     combined_signal := combined_signal |}.

(** Line 225. *)
Definition agreement (technical_signal : Q) (ml_signal : Z) : Q :=
  if Qle_bool 0 (technical_signal * inject_Z ml_signal) then 1 else 1 # 2.

(** Lines 222-227; [None] when [np.max] raises. *)
Definition fused_confidence (technical_signal : Q) (ml_signal : Z)
    (prediction_proba : list Q) : option Q :=
  match np_max prediction_proba with
  | None => None
  | Some ml_confidence =>
      let technical_strength := Qabs technical_signal in
      Some (ml_confidence * (1 # 2) + technical_strength * (3 # 10)
            + agreement technical_signal ml_signal * (2 # 10))
  end.

(** The dictionary returned as third component. *)
Record details : Type := {
  d_rsi : float64;
  d_macd : float64;
  d_macd_signal : float64;
  d_sma_20 : float64;
  d_sma_50 : float64;
  d_bb_upper : float64;
  d_bb_lower : float64;
  d_ml_signal : Z;
  d_technical_signal : Q;
  d_combined_signal : Q
}.

(** The body of the [try] block, [None] when it raises. *)
Definition enhanced_signal_body (latest_data : row) (prediction : Z)
    (prediction_proba : list Q) : option (Z * Q * option details) :=
  match extract_indicators latest_data with
  | None => None
  | Some i =>
      let d := combine (signal_scores i) prediction in
      match fused_confidence (technical_signal d) prediction
              prediction_proba with
      | None => None
      | Some confidence =>
          Some (final_signal d, confidence,
                Some {| d_rsi := rsi i;
                        d_macd := macd i;
                        d_macd_signal := macd_signal i;
                        d_sma_20 := sma_20 i;
                        d_sma_50 := sma_50 i;
                        d_bb_upper := bb_upper i;
                        d_bb_lower := bb_lower i;
                        d_ml_signal := prediction;
                        d_technical_signal := technical_signal d;
                        d_combined_signal := combined_signal d |})
      end
  end.

(** [get_enhanced_signal]: the [try] block, and on any exception the raw
    classifier output with an empty dictionary (lines 242-244).  The
    handler calls [np.max] itself, so an empty probability vector raises
    out of the function: the result is then [None]. *)
Definition get_enhanced_signal (latest_data : row) (prediction : Z)
    (prediction_proba : list Q) : option (Z * Q * option details) :=
  match enhanced_signal_body latest_data prediction prediction_proba with
  | Some r => Some r
  | None =>
      match np_max prediction_proba with
      | Some m => Some (prediction, m, None)
      | None => None
      end
  end.

End Fusion.

(** ** Data frames *)

Module Frame.

(** A pandas column is a float column (NaN marks an undefined entry) or
    an integer column (the labels written by [np.select]). *)
Inductive column : Type :=
| Floats (values : list float64)
| Ints (values : list Z).

(** A frame: the length of its index and its named columns.  Every
    column of a frame built by the functions below has [nrows] entries. *)
Record frame : Type := {
  nrows : nat;
  columns : gmap string column
}.

Definition as_floats (c : column) : list float64 :=
  match c with
  | Floats v => v
  | Ints v => map (fun z => Fin (inject_Z z)) v
  end.

(** [data[name]] read as numbers; [None] is [KeyError]. *)
Definition get_column (data : frame) (name : string)
  : option (list float64) :=
  as_floats <$> columns data !! name.

(** [data[name] = values] *)
Definition set_column (data : frame) (name : string) (c : column) : frame :=
  {| nrows := nrows data; columns := <[name := c]> (columns data) |}.

(** [name in data.columns] *)
Definition has_column (data : frame) (name : string) : bool :=
  bool_decide (is_Some (columns data !! name)).

(** [data.empty]: no row or no column. *)
Definition empty (data : frame) : bool :=
  Nat.eqb (nrows data) 0 || bool_decide (columns data = ∅).

(** [series.shift(-k)]: entry [i] becomes entry [i + k], the last [k]
    entries become NaN. *)
Definition shift_back (k : nat) (s : list float64) : list float64 :=
  drop k s ++ replicate (Nat.min k (length s)) NaN.

Definition tail_column (c : column) : column :=
  match c with
  | Floats v => Floats (drop (length v - 1) v)
  | Ints v => Ints (drop (length v - 1) v)
  end.

(** [data.tail(1)] *)
Definition tail1 (data : frame) : frame :=
  {| nrows := Nat.min 1 (nrows data);
     columns := tail_column <$> columns data |}.

(** The first row of a frame, column by column: what
    [frame[name].iloc[0]] reads.  A column is dropped when it has no
    first entry, which does not happen in a frame with a row. *)
Definition first_row (data : frame) : gmap string float64 :=
  omap (fun c => head (as_floats c)) (columns data).

(** The rows of a feature matrix: position in the frame it was cut
    from, and the values in column order. *)
Record matrix : Type := {
  names : list string;
  rows : list (nat * list float64)
}.

(** [len(X)] *)
Definition len (X : matrix) : nat := length (rows X).

(** [X.empty] *)
Definition matrix_empty (X : matrix) : bool :=
  Nat.eqb (len X) 0 || Nat.eqb (length (names X)) 0.

Definition cell (data : frame) (name : string) (i : nat) : float64 :=
  match get_column data name with
  | Some v => nth i v NaN
  | None => NaN
  end.

(** [data[names].dropna()]: the rows without a NaN, with their
    positions. *)
Definition select_dropna (data : frame) (names : list string) : matrix :=
  {| names := names;
     rows :=
       filter (fun r => forallb (fun x => negb (isna x)) r.2 = true)
              (map (fun i => (i, map (fun n => cell data n i) names))
                   (seq 0 (nrows data))) |}.

End Frame.

(** ** Technical indicators: [calculate_technical_indicators] *)

Module Indicators.

Import Frame.

Abbreviation series := (list float64).

(** The indicator classes of the [ta] package and the pandas rolling
    mean, each as the function from the input series to the indicator
    series; [None] when the call raises.  A result has one entry per
    input row. *)
Record TaLibrary : Type := {
  rsi : series -> option series;
  macd : series -> option series;
  macd_signal : series -> option series;
  macd_diff : series -> option series;
  bollinger_hband : series -> option series;
  bollinger_lband : series -> option series;
  bollinger_mavg : series -> option series;
  sma_indicator : nat -> series -> option series;
  ema_indicator : nat -> series -> option series;
  rolling_mean : nat -> series -> option series;
  roc : series -> option series;
  stoch : series -> series -> series -> option series
}.

(** One assignment [data[name] = <indicator of data>]. *)
Definition step : Type := string * (frame -> option series).

Definition on_close (f : series -> option series) (data : frame)
  : option series :=
  get_column data "Close" ≫= f.

(** The assignments of lines 39-65, in program order.  The [MACD] and
    [BollingerBands] objects are built once and read three times; here
    the construction is part of each reading, which is the same as long
    as [Close] is not assigned in between (it is not). *)
Definition indicator_steps (ta : TaLibrary) : list step :=
  [ ("RSI", on_close (rsi ta));
    ("MACD", on_close (macd ta));
    ("MACD_Signal", on_close (macd_signal ta));
    ("MACD_Hist", on_close (macd_diff ta));
    ("BB_Upper", on_close (bollinger_hband ta));
    ("BB_Lower", on_close (bollinger_lband ta));
    ("BB_Middle", on_close (bollinger_mavg ta));
    ("SMA_20", on_close (sma_indicator ta 20));
    ("SMA_50", on_close (sma_indicator ta 50));
    ("EMA_12", on_close (ema_indicator ta 12));
    ("EMA_26", on_close (ema_indicator ta 26));
    ("Volume_SMA",
     fun data => get_column data "Volume" ≫= rolling_mean ta 20);
    ("ROC", on_close (roc ta));
    ("Stoch", fun data =>
                high ← get_column data "High";
                low ← get_column data "Low";
                close ← get_column data "Close";
                stoch ta high low close) ].

(** The [try] block: the assignments run in order on the frame, which
    they mutate; the first one that raises ends the block, and the
    handler returns the frame as it is at that point. *)
Fixpoint run_steps (steps : list step) (data : frame) : frame :=
  match steps with
  | [] => data
  | (name, compute) :: rest =>
      match compute data with
      | Some values => run_steps rest (set_column data name (Floats values))
      | None => data
      end
  end.

Definition calculate_technical_indicators (ta : TaLibrary) (data : frame)
  : frame :=
  run_steps (indicator_steps ta) data.

End Indicators.

(** ** The indicator columns a run leaves behind *)

Module IndicatorsSpec.

Import Frame Indicators.

(** The assignments that are carried out: the steps before the first
    one that raises, each with the series it computes from the input
    frame. *)
Fixpoint computed (steps : list step) (data : frame)
  : list (string * series) :=
  match steps with
  | [] => []
  | (name, compute) :: rest =>
      match compute data with
      | Some values => (name, values) :: computed rest data
      | None => []
      end
  end.

(** The names of the steps that raise on the input frame. *)
Definition failing (steps : list step) (data : frame) : list string :=
  map fst (filter (fun s : step => s.2 data = None) steps).

(** The columns an indicator is computed from. *)
Definition inputs : list string := ["Close"; "High"; "Low"; "Volume"].

(** Two frames with the same input columns. *)
Definition same_inputs (d d' : frame) : Prop :=
  Forall (fun n => columns d !! n = columns d' !! n) inputs.

(** The assignment [data[name] = values] of a computed series. *)
Definition assign (d : frame) (nv : string * series) : frame :=
  set_column d nv.1 (Floats nv.2).

End IndicatorsSpec.

(** ** Labels: [generate_labels] *)

Module Labels.

Import Frame.

Definition buy_threshold : float64 := Fin (2 # 100).
Definition sell_threshold : float64 := Fin (- (2 # 100)).

(** [np.select] at one row: the choice of the first condition that
    holds, the default when none does. *)
Fixpoint select_at (conditions : list bool) (choices : list Z)
    (default : Z) : Z :=
  match conditions, choices with
  | c :: cs, x :: xs => if c then x else select_at cs xs default
  | _, _ => default
  end.

(** [np.select(condlist, choicelist, default)] over [n] rows. *)
Definition np_select (condlist : list (list bool)) (choicelist : list Z)
    (default : Z) (n : nat) : list Z :=
  map (fun i => select_at (map (fun c => nth i c false) condlist)
                  choicelist default)
      (seq 0 n).

(** [(future - close) / close], row by row. *)
Definition price_change (future close : list float64) : list float64 :=
  zip_with (fun f c => div (sub f c) c) future close.

(** [generate_labels(data, days_ahead)]; [None] is the [KeyError] of a
    frame without [Close]. *)
Definition generate_labels (data : frame) (days_ahead : nat)
  : option frame :=
  close ← get_column data "Close";
  let future_price := shift_back days_ahead close in
  let data := set_column data "Future_Price" (Floats future_price) in
  let change := price_change future_price close in
  let data := set_column data "Price_Change" (Floats change) in
  let conditions :=
    [ map (fun x => gtb x buy_threshold) change;
      map (fun x => ltb x sell_threshold) change ] in
  let choices := [1%Z; (-1)%Z] in
  Some (set_column data "Signal"
          (Ints (np_select conditions choices 0%Z (length change)))).

(** The label of one row, as [np.select] computes it from that row's
    price change. *)
Definition signal_of (change : float64) : Z :=
  select_at [gtb change buy_threshold; ltb change sell_threshold]
    [1%Z; (-1)%Z] 0%Z.

End Labels.

(** ** Training: [prepare_features] and [train_model] *)

Module Training.

Import Frame Indicators Labels.

(** The canonical feature list of [prepare_features]. *)
Definition feature_columns : list string :=
  [ "Open"; "High"; "Low"; "Close"; "Volume";
    "RSI"; "MACD"; "MACD_Signal"; "MACD_Hist";
    "BB_Upper"; "BB_Lower"; "BB_Middle";
    "SMA_20"; "SMA_50"; "EMA_12"; "EMA_26";
    "Volume_SMA"; "ROC"; "Stoch" ].

Definition prepare_features (data : frame) : matrix * list string :=
  let available_columns :=
    filter (fun col => has_column data col = true) feature_columns in
  let X := select_dropna data available_columns in
  (X, available_columns).

(** *** [sklearn.preprocessing.StandardScaler] *)

(** The parameters of a fitted scaler: the column names it was fitted
    on, and per column the mean and the (population) variance. *)
Record StandardScaler : Type := {
  feature_names_in_ : list string;
  mean_ : list Q;
  var_ : list Q
}.

Definition Qsum (l : list Q) : Q := fold_right Qplus 0 l.

Definition Qmean (l : list Q) : Q := Qsum l / inject_Z (Z.of_nat (length l)).

Definition Qvariance (l : list Q) : Q :=
  let m := Qmean l in
  Qmean (map (fun x => (x - m) * (x - m)) l).

Definition column_values (X : list (list Q)) (j : nat) : list Q :=
  map (fun r => nth j r 0) X.

(** The input check of scikit-learn: an infinite entry raises. *)
Definition finite (x : float64) : option Q :=
  match x with
  | Fin q => Some q
  | _ => None
  end.

Definition finite_rows (X : matrix) : option (list (list Q)) :=
  mapM (fun r => mapM finite r.2) (rows X).

(** [StandardScaler().fit(X)] on the rows [X] with the column names
    [names]; it raises on a matrix without rows or without columns. *)
Definition scaler_fit (names : list string) (X : list (list Q))
  : option StandardScaler :=
  if Nat.eqb (length X) 0 || Nat.eqb (length names) 0 then None
  else
    let js := seq 0 (length names) in
    Some {| feature_names_in_ := names;
            mean_ := map (fun j => Qmean (column_values X j)) js;
            var_ := map (fun j => Qvariance (column_values X j)) js |}.

(** The external numeric and learning functions: [np.sqrt], the index
    partition computed by
    [train_test_split(test_size=0.2, random_state=42, stratify=y)] for
    [n] rows with labels [y] ([None] when it raises, as it does for a
    class with a single member), and the random forest. *)
Record Sklearn : Type := {
  Model : Type;
  np_sqrt : Q -> Q;
  split_indices : nat -> list Z -> option (list nat * list nat);
  forest_fit : list (list Q) -> list Z -> Model;
  forest_score : Model -> list (list Q) -> list Z -> Q;
  forest_predict : Model -> list Q -> Z;
  forest_predict_proba : Model -> list Q -> list Q
}.

Section WithSklearn.

Context (sk : Sklearn).

(** [scale_]: the standard deviation, 1 for a constant column. *)
Definition scale_of (v : Q) : Q :=
  if Qeq_bool v 0 then 1 else np_sqrt sk v.

Definition scale_row (s : StandardScaler) (r : list Q) : list Q :=
  zip_with (fun x ms => (x - ms.1) / scale_of ms.2) r
           (zip (mean_ s) (var_ s)).

(** [scaler.transform(X)]; it raises when the scaler is not fitted,
    when the column names differ from those seen by [fit] (scikit-learn
    1.2 and later), and on an infinite entry. *)
Definition scaler_transform (s : option StandardScaler) (X : matrix)
  : option (list (list Q)) :=
  s ← s;
  if bool_decide (names X = feature_names_in_ s)
  then map (scale_row s) <$> finite_rows X
  else None.

(** [scaler.fit_transform(X)]: the fitted scaler and the scaled
    rows. *)
Definition scaler_fit_transform (X : matrix)
  : option (StandardScaler * list (list Q)) :=
  raw ← finite_rows X;
  s ← scaler_fit (names X) raw;
  Some (s, map (scale_row s) raw).

Definition pick {A : Type} (l : list A) (idx : list nat) : list A :=
  omap (fun i => l !! i) idx.

(** [train_test_split(X_scaled, y, ...)] *)
Definition train_test_split (X : list (list Q)) (y : list Z)
  : option (list (list Q) * list (list Q) * list Z * list Z) :=
  match split_indices sk (length X) y with
  | Some (train, test) =>
      Some (pick X train, pick X test, pick y train, pick y test)
  | None => None
  end.

(** *** The predictor object *)

Record StockPredictor : Type := {
  model : option (Model sk);
  scaler : option StandardScaler;
  is_trained : bool;
  self_feature_columns : option (list string)
}.

(** [StockPredictor()] *)
Definition new_predictor : StockPredictor :=
  {| model := None;
     scaler := None;
     is_trained := false;
     self_feature_columns := None |}.

Inductive error : Type :=
| DownloadFailed            (* "Failed to download stock data" *)
| InsufficientData          (* "Insufficient data for training" *)
| TrainingError             (* "Training error: ..." *)
| RecentDownloadFailed      (* "Failed to download recent stock data" *)
| FeaturePreparationFailed  (* "Failed to prepare features for prediction" *)
| PredictionError.          (* "Prediction error: ..." *)

Record report : Type := {
  train_accuracy : Q;
  test_accuracy : Q;
  data_points : nat
}.

(** [data.loc[X.index, 'Signal']] *)
Definition labels_at (data : frame) (X : matrix) : option (list Z) :=
  match columns data !! "Signal" with
  | Some (Ints v) => Some (map (fun r => nth r.1 v 0%Z) (rows X))
  | _ => None
  end.

Context (ta : TaLibrary).

(** [yfinance]: the history of a symbol for a period and an interval;
    [None] when the download raises ([download_stock_data] turns the
    exception into [None]). *)
Context (history : string -> string -> string -> option frame).

Definition download_stock_data (symbol period interval : string)
  : option frame :=
  history symbol period interval.

(** [train_model(symbol)]: the predictor after the call and what the
    call returns; an exception anywhere in the body is the error
    "Training error".  The attribute assignments are kept where the
    program makes them, so the predictor of a failed call shows how
    far the call came.  ([fit] resets the scaler before it checks its
    input, so a scaler whose fit raised is unfitted.) *)
Definition train_model (self : StockPredictor) (symbol : string)
  : StockPredictor * (report + error) :=
  match download_stock_data symbol "2y" "1d" with
  | None => (self, inr DownloadFailed)
  | Some data =>
  if Frame.empty data then (self, inr DownloadFailed) else
  let data := calculate_technical_indicators ta data in
  match generate_labels data 1 with
  | None => (self, inr TrainingError)
  | Some data =>
  let '(X, available) := prepare_features data in
  let self := {| model := model self;
                 scaler := scaler self;
                 is_trained := is_trained self;
                 self_feature_columns := Some available |} in
  match labels_at data X with
  | None => (self, inr TrainingError)
  | Some y =>
  if Nat.ltb (len X) 50 then (self, inr InsufficientData) else
  match scaler_fit_transform X with
  | None =>
      ({| model := model self;
          scaler := None;
          is_trained := is_trained self;
          self_feature_columns := self_feature_columns self |},
       inr TrainingError)
  | Some (fitted, X_scaled) =>
  let self := {| model := model self;
                 scaler := Some fitted;
                 is_trained := is_trained self;
                 self_feature_columns := self_feature_columns self |} in
  match train_test_split X_scaled y with
  | None => (self, inr TrainingError)
  | Some (X_train, X_test, y_train, y_test) =>
  let m := forest_fit sk X_train y_train in
  ({| model := Some m;
      scaler := scaler self;
      is_trained := true;
      self_feature_columns := self_feature_columns self |},
   inl {| train_accuracy := forest_score sk m X_train y_train;
          test_accuracy := forest_score sk m X_test y_test;
          data_points := len X |})
  end end end end end.

End WithSklearn.

Arguments model {sk} _.
Arguments scaler {sk} _.
Arguments is_trained {sk} _.
Arguments self_feature_columns {sk} _.

End Training.

(** ** Trajectory simulation: lines 288-332 of [predict] *)

Module Forecast.

(** Python's salted string [hash] (fixed for the life of a process),
    [np.sin], and numpy's global generator: [np.random.seed(n)] sets its
    state, [np.random.normal(loc, scale)] draws from it and advances
    it. *)
Record Runtime : Type := {
  py_hash : string -> Z;
  np_sin : Q -> Q;
  generator : Type;
  np_random_seed : Z -> generator;
  np_random_normal : generator -> Q -> Q -> Q * generator
}.

Record point : Type := {
  day : Z;
  predicted_price : float64;
  confidence : Q
}.

(** [max(a, b)]: [b] only when it is greater than [a]. *)
Definition py_max (a b : Q) : Q := if Qltb a b then b else a.

(** Lines 297-305: [(base_trend, volatility)]. *)
Definition trend_and_volatility (enhanced_signal : Z) : Q * Q :=
  if Z.eqb enhanced_signal 1 then (8 # 1000, 15 # 1000)
  else if Z.eqb enhanced_signal (-1) then (- (8 # 1000), 15 # 1000)
  else (1 # 1000, 12 # 1000).

(** Lines 322-323. *)
Definition day_confidence (enhanced_confidence : Q) (day : Z) : Q :=
  let confidence :=
    enhanced_confidence * (1 - inject_Z (day - 1) * (3 # 100)) in
  py_max (45 # 100) confidence.

(** [range(1, days + 1)] *)
Definition day_range (days : Z) : list Z :=
  map Z.of_nat (seq 1 (Z.to_nat days)).

Section WithRuntime.

Context (rt : Runtime).

(** The variables the loop updates. *)
Record loop_state : Type := {
  base_price : float64;
  np_random : generator rt;
  predictions : list point
}.

(** [hash(f"{symbol}_{today}_{day}") % (2**32)]; [today] is
    [datetime.now().strftime('%Y-%m-%d')], which the program reads
    anew in every iteration: the model takes one date for the whole
    call. *)
Definition random_seed (symbol today : string) (day : Z) : Z :=
  (py_hash rt (symbol +:+ "_" +:+ today +:+ "_" +:+ pretty day)
   mod 2 ^ 32)%Z.

(** [np.random.seed(n)]: the state of the global generator is replaced,
    whatever it was. *)
Definition seed (st : loop_state) (n : Z) : loop_state :=
  {| base_price := base_price st;
     np_random := np_random_seed rt n;
     predictions := predictions st |}.

(** One iteration of the loop of lines 307-329. *)
Definition loop_body (symbol today : string) (base_trend volatility : Q)
    (enhanced_confidence : Q) (st : loop_state) (day : Z) : loop_state :=
  let day_factor := np_sin rt (inject_Z day * (1 # 10)) * (3 # 10)
                    + (7 # 10) in
  let trend_component := base_trend * day_factor in
  let st := seed st (random_seed symbol today day) in
  let '(volatility_component, drawn) :=
    np_random_normal rt (np_random st) 0 volatility in
  let total_change := trend_component + volatility_component in
  let base_price := mul (base_price st) (Fin (1 + total_change)) in
  let confidence := day_confidence enhanced_confidence day in
  {| base_price := base_price;
     np_random := drawn;
     predictions :=
       predictions st
       ++ [ {| day := day;
               predicted_price := round base_price 2;
               confidence := Qround_digits confidence 3 |} ] |}.

(** Lines 289-329: the variables when the loop is left.  [np_random0]
    is the state of the global generator when the call starts. *)
Definition simulate (np_random0 : generator rt) (symbol today : string)
    (enhanced_signal : Z) (enhanced_confidence : Q)
    (current_price : float64) (days : Z) : loop_state :=
  let st := {| base_price := current_price;
               np_random := np_random0;
               predictions := [] |} in
  let seed_value := (py_hash rt (symbol +:+ "_" +:+ today) mod 2 ^ 32)%Z in
  let st := seed st seed_value in
  let '(base_trend, volatility) := trend_and_volatility enhanced_signal in
  fold_left (loop_body symbol today base_trend volatility
               enhanced_confidence)
            (day_range days) st.

(** The list [predictions] of the result. *)
Definition forecast (np_random0 : generator rt) (symbol today : string)
    (enhanced_signal : Z) (enhanced_confidence : Q)
    (current_price : float64) (days : Z) : list point :=
  predictions (simulate np_random0 symbol today enhanced_signal
                 enhanced_confidence current_price days).

End WithRuntime.

End Forecast.

(** ** The prediction request: [predict] on the module-level [predictor] *)

Module Server.

Import Frame Indicators Training Forecast.

Record Environment : Type := {
  ta : TaLibrary;
  sk : Sklearn;
  rt : Runtime;
  history : string -> string -> string -> option frame;
  today : string
}.

(** The dictionary [predict] returns (without its [timestamp]). *)
Record result : Type := {
  symbol : string;
  current_price : float64;
  signal : Z;
  signal_confidence : Q;
  forecast_points : list point;
  technical_indicators : gmap string float64
}.

Section WithEnvironment.

Context (env : Environment).

Abbreviation Predictor := (StockPredictor (sk env)).

(** Lines 335-346: the indicator values of the latest row that are
    reported, by key. *)
Definition current_indicators (latest_data : frame)
    (current_price : float64) : gmap string float64 :=
  let row := first_row latest_data in
  let entry (key column : string) : list (string * float64) :=
    match row !! column with
    | Some v => [(key, v)]
    | None => []
    end in
  list_to_map (entry "rsi" "RSI" ++ entry "macd" "MACD"
               ++ entry "macd_signal" "MACD_Signal"
               ++ entry "sma_20" "SMA_20" ++ entry "sma_50" "SMA_50"
               ++ [("current_price", round current_price 2)]).

(** Lines 257-358, entered with a trained predictor; every exception
    of the block is the error "Prediction error". *)
Definition predict_trained (self : Predictor)
    (np_random0 : generator (rt env)) (symbol : string) (days : Z)
  : result + error :=
  match download_stock_data (history env) symbol "6mo" "1d" with
  | None => inr RecentDownloadFailed
  | Some data =>
  if Frame.empty data then inr RecentDownloadFailed else
  let data := calculate_technical_indicators (ta env) data in
  let latest_data := tail1 data in
  let '(X, _) := prepare_features latest_data in
  if matrix_empty X then inr FeaturePreparationFailed else
  let outcome :=
    X_scaled ← scaler_transform (sk env) (scaler self) X;
    m ← model self;
    x ← head X_scaled;
    let prediction := forest_predict (sk env) m x in
    let prediction_proba := forest_predict_proba (sk env) m x in
    fused ← Fusion.get_enhanced_signal (first_row latest_data)
              prediction prediction_proba;
    let '(enhanced_signal, enhanced_confidence, _) := fused in
    current_price ← first_row latest_data !! "Close";
    Some {| symbol := symbol;
            current_price := round current_price 2;
            signal := enhanced_signal;
            signal_confidence := Qround_digits enhanced_confidence 3;
            forecast_points :=
              forecast (rt env) np_random0 symbol (today env)
                enhanced_signal enhanced_confidence current_price days;
            technical_indicators :=
              current_indicators latest_data current_price |} in
  match outcome with
  | Some r => inl r
  | None => inr PredictionError
  end
  end.

(** [predict(symbol, days)]: the predictor after the call and the
    pair the call returns.  A predictor that is not trained is first
    trained on the history of the requested symbol (lines 250-255). *)
Definition predict (self : Predictor) (np_random0 : generator (rt env))
    (symbol : string) (days : Z) : Predictor * (result + error) :=
  if is_trained self
  then (self, predict_trained self np_random0 symbol days)
  else
    match train_model (sk env) (ta env) (history env) self symbol with
    | (self, inr e) => (self, inr e)
    | (self, inl _) =>
        (self, predict_trained self np_random0 symbol days)
    end.

(** [predictor = StockPredictor()]: the single object every request
    of the process is served from. *)
Definition predictor : Predictor := new_predictor (sk env).

(** A request: the state of the global generator when it arrives, the
    symbol and the horizon. *)
Definition request : Type := generator (rt env) * string * Z.

(** The requests of a process, served one after the other from the
    predictor of the process: the predictor after the last request
    and the results, oldest first. *)
Fixpoint serve (self : Predictor) (requests : list request)
  : Predictor * list (result + error) :=
  match requests with
  | [] => (self, [])
  | (np_random0, symbol, days) :: rest =>
      let '(self, r) := predict self np_random0 symbol days in
      let '(self, rs) := serve self rest in
      (self, r :: rs)
  end.

End WithEnvironment.

End Server.

(** ** What the specification says about missing indicators *)

Module FusionSpec.

Import Fusion.




(** How [get_enhanced_signal] reads an indicator: the fallback when the
    column is absent, the stored value (NaN included) when it is
    present. *)
Definition reads (latest_data : row) (col : string) (fallback : float64)
    (x : float64) : Prop :=
  (latest_data !! col = None -> x = fallback)
  /\ (forall v, latest_data !! col = Some v -> x = v).

End FusionSpec.

(** ** Concrete inputs *)

Module Scenario.

Import Fusion.

(** Spec, section 8: RSI 25, MACD 1 above its signal 0.5, price above
    SMA20 above SMA50, price at the lower Bollinger band. *)
Definition bullish_row : row :=
  list_to_map
    [ ("Close", Fin 100); ("RSI", Fin 25);
      ("MACD", Fin 1); ("MACD_Signal", Fin (1 # 2));
      ("SMA_20", Fin 95); ("SMA_50", Fin 90);
      ("BB_Lower", Fin 100); ("BB_Upper", Fin 110) ].

Definition bullish_proba : list Q := [4 # 100; 6 # 100; 9 # 10].

(** A latest row whose MACD is defined while its signal line is still
    NaN (the signal line needs nine more bars than the MACD); the other
    indicators are neutral. *)
Definition warming_up_row : row :=
  list_to_map
    [ ("Close", Fin 100); ("RSI", Fin 50);
      ("MACD", Fin 1); ("MACD_Signal", NaN);
      ("SMA_20", Fin 100); ("SMA_50", Fin 100);
      ("BB_Lower", Fin 98); ("BB_Upper", Fin 102) ].

(** A latest row that carries nothing but the close. *)
Definition bare_row : row := {[ "Close" := Fin 100 ]}.

(** *** A runtime *)

(** A polynomial string hash, a Taylor polynomial for the sine, and a
    linear congruential generator whose draw is spread over
    [loc - scale, loc + scale]. *)
Fixpoint poly_hash (h : Z) (s : string) : Z :=
  match s with
  | EmptyString => h
  | String a rest => poly_hash (h * 31 + Z.of_N (Ascii.N_of_ascii a))%Z rest
  end.

Definition taylor_sin (x : Q) : Q :=
  x - x * x * x / 6 + x * x * x * x * x / 120.

Definition lcg_normal (g : Z) (loc scale : Q) : Q * Z :=
  (loc + scale * inject_Z (g mod 2001 - 1000) / 1000,
   ((g * 1103515245 + 12345) mod 2 ^ 31)%Z).

Definition runtime : Forecast.Runtime :=
  {| Forecast.py_hash := poly_hash 7;
     Forecast.np_sin := taylor_sin;
     Forecast.generator := Z;
     Forecast.np_random_seed := fun n => n;
     Forecast.np_random_normal := lcg_normal |}.

(** *** Indicators without warm-up *)

Import Frame Indicators.

Definition constant (v : Q) (s : series) : option series :=
  Some (map (fun _ => Fin v) s).

Definition shifted (v : Q) (s : series) : option series :=
  Some (map (fun x => add x (Fin v)) s).

Definition flat_indicators : TaLibrary :=
  {| rsi := constant 50;
     macd := constant 0;
     macd_signal := constant 0;
     macd_diff := constant 0;
     bollinger_hband := shifted 2;
     bollinger_lband := shifted (-2);
     bollinger_mavg := shifted 0;
     sma_indicator := fun _ => shifted 0;
     ema_indicator := fun _ => shifted 0;
     rolling_mean := fun _ => shifted 0;
     roc := constant 0;
     stoch := fun _ _ => constant 50 |}.

(** The same library with an RSI that raises. *)
Definition rsi_raises : TaLibrary :=
  {| rsi := fun _ => None;
     macd := constant 0;
     macd_signal := constant 0;
     macd_diff := constant 0;
     bollinger_hband := shifted 2;
     bollinger_lband := shifted (-2);
     bollinger_mavg := shifted 0;
     sma_indicator := fun _ => shifted 0;
     ema_indicator := fun _ => shifted 0;
     rolling_mean := fun _ => shifted 0;
     roc := constant 0;
     stoch := fun _ _ => constant 50 |}.

(** *** Price histories *)

Definition ohlcv (close : list Q) : frame :=
  {| nrows := length close;
     columns :=
       list_to_map
         [ ("Open", Floats (map Fin close));
           ("High", Floats (map (fun c => Fin (c + 1)) close));
           ("Low", Floats (map (fun c => Fin (c - 1)) close));
           ("Close", Floats (map Fin close));
           ("Volume", Ints (map (fun _ => 1000%Z) close)) ] |}.

(** Fifty bars: 101, then 100 throughout. *)
Definition flat_close : list Q := 101 :: replicate 49 100.

(** Fifty bars rising by 10 a day from 200: the daily change is above 2%
    for the first thirty bars and exactly 2% at the thirty-first. *)
Definition rising_close : list Q :=
  map (fun i => 200 + 10 * inject_Z (Z.of_nat i)) (seq 0 50).

Definition three_bars : frame := ohlcv [100; 102; 104].

Definition market (symbol period interval : string) : option frame :=
  if String.eqb symbol "AAPL" then Some (ohlcv flat_close)
  else if String.eqb symbol "MSFT" then Some (ohlcv rising_close)
  else None.

(** *** A classifier *)

Import Training.

Definition count_label (y : list Z) (c : Z) : nat :=
  length (filter (fun l => l = c) y).

(** The most frequent of the labels -1, 0, 1 (the smaller on a tie). *)
Definition majority (y : list Z) : Z :=
  let n := count_label y in
  if Nat.leb (n 0%Z) (n (-1)%Z) && Nat.leb (n 1%Z) (n (-1)%Z) then (-1)%Z
  else if Nat.leb (n 1%Z) (n 0%Z) then 0%Z
  else 1%Z.

Definition frequencies (y : list Z) : list Q :=
  map (fun c => inject_Z (Z.of_nat (count_label y c))
                / inject_Z (Z.of_nat (length y)))
      [(-1)%Z; 0%Z; 1%Z].

(** Square root to six decimals. *)
Definition sqrt6 (x : Q) : Q :=
  Z.sqrt (Qfloor (x * 1000000000000)) # 1000000.

(** A model that remembers its training labels and predicts their
    majority; the partition puts the first [n - ceil(n/5)] rows in the
    training part. *)
Definition majority_classifier : Sklearn :=
  {| Model := list Z;
     np_sqrt := sqrt6;
     split_indices := fun n _ =>
       let n_test := Nat.div (n + 4) 5 in
       Some (seq 0 (n - n_test), seq (n - n_test) n_test);
     forest_fit := fun _ y => y;
     forest_score := fun m _ y =>
       inject_Z (Z.of_nat (count_label y (majority m)))
       / inject_Z (Z.of_nat (length y));
     forest_predict := fun m _ => majority m;
     forest_predict_proba := fun m _ => frequencies m |}.

Definition environment : Server.Environment :=
  {| Server.ta := flat_indicators;
     Server.sk := majority_classifier;
     Server.rt := runtime;
     Server.history := market;
     Server.today := "2024-01-02" |}.

(** *** Runs *)

Import Labels Server.

Definition three_bars_labelled : frame :=
  default three_bars (generate_labels three_bars 1).

(** Training on the flat history: the labelled frame, the usable rows
    and their labels. *)
Definition flat_labelled : frame :=
  default (ohlcv flat_close)
    (generate_labels
       (calculate_technical_indicators flat_indicators (ohlcv flat_close))
       1).

Definition flat_rows : list (list Q) :=
  default [] (finite_rows (prepare_features flat_labelled).1).

Definition flat_labels : list Z :=
  default [] (labels_at flat_labelled (prepare_features flat_labelled).1).

Definition flat_training
  : StockPredictor majority_classifier * (report + error) :=
  train_model majority_classifier flat_indicators market
    (new_predictor majority_classifier) "AAPL".

Definition no_report : report :=
  {| train_accuracy := 0; test_accuracy := 0; data_points := 0 |}.

Definition flat_report : report :=
  match flat_training.2 with
  | inl r => r
  | inr _ => no_report
  end.

(** The first request of a process asks for AAPL. *)
Definition first_request
  : StockPredictor (sk environment) * (result + error) :=
  predict environment (predictor environment) 0%Z "AAPL" 3.

Definition no_result : result :=
  {| symbol := "";
     current_price := NaN;
     signal := 0;
     signal_confidence := 0;
     forecast_points := [];
     technical_indicators := ∅ |}.

Definition first_result : result :=
  match first_request.2 with
  | inl r => r
  | inr _ => no_result
  end.

(** A process whose first request asks for MSFT. *)
Definition msft_first
  : StockPredictor (sk environment) * (result + error) :=
  predict environment (predictor environment) 0%Z "MSFT" 3.

(** A process that is asked for AAPL and then for MSFT. *)
Definition aapl_then_msft
  : StockPredictor (sk environment) * list (result + error) :=
  serve environment (predictor environment)
    [(0%Z, "AAPL", 3%Z); (0%Z, "MSFT", 3%Z)].

(** The library with an RSI that is still undefined on every bar, and
    the environment that uses it. *)
Definition rsi_undefined : TaLibrary :=
  {| rsi := fun s => Some (map (fun _ => NaN) s);
     macd := constant 0;
     macd_signal := constant 0;
     macd_diff := constant 0;
     bollinger_hband := shifted 2;
     bollinger_lband := shifted (-2);
     bollinger_mavg := shifted 0;
     sma_indicator := fun _ => shifted 0;
     ema_indicator := fun _ => shifted 0;
     rolling_mean := fun _ => shifted 0;
     roc := constant 0;
     stoch := fun _ _ => constant 50 |}.

Definition warming_environment : Server.Environment :=
  {| Server.ta := rsi_undefined;
     Server.sk := majority_classifier;
     Server.rt := runtime;
     Server.history := market;
     Server.today := "2024-01-02" |}.

(** A market with three bars of history. *)
Definition young_market (symbol period interval : string) : option frame :=
  Some three_bars.

(** A rational that is a whole number. *)
Definition integral (q : Q) : Prop := exists k : Z, q == inject_Z k.

Definition confidence_of (r : result + error) : option Q :=
  match r with
  | inl r => Some (signal_confidence r)
  | inr _ => None
  end.

End Scenario.

(** ** The fusion thresholds in binary64 *)

Module Binary64.

#[local] Set Warnings "-inexact-float".

Definition of_Z (z : Z) : float :=
  match z with
  | Z0 => 0%float
  | Zpos _ => PrimFloat.of_uint63 (Uint63.of_Z z)
  | Zneg p => (- PrimFloat.of_uint63 (Uint63.of_Z (Zpos p)))%float
  end.

(** Lines 209-220 evaluated in IEEE double arithmetic, with the double
    constants nearest to 0.6, 0.4 and 0.5. *)
Definition final_signal (signal_scores : list Z) (ml_signal : Z) : Z :=
  let technical_signal :=
    (of_Z (Fusion.sum_Z signal_scores)
     / of_Z (Z.of_nat (length signal_scores)))%float in
  let combined_signal :=
    (0.6 * technical_signal + 0.4 * of_Z ml_signal)%float in
  if PrimFloat.leb 0.5%float combined_signal then 1%Z
  else if PrimFloat.leb combined_signal (-0.5)%float then (-1)%Z
  else 0%Z.

(** Line 227 in double arithmetic. *)
Definition confidence (ml_confidence technical_strength agreement : float)
  : float :=
  (ml_confidence * 0.5 + technical_strength * 0.3 + agreement * 0.2)%float.

Definition scores : list Z := [(-1)%Z; 0%Z; 1%Z].

(** Every choice of four sub-scores and a prediction from -1, 0, 1. *)
Definition all_inputs : list (list Z * Z) :=
  s1 ← scores; s2 ← scores; s3 ← scores; s4 ← scores; m ← scores;
  [([s1; s2; s3; s4], m)].

End Binary64.

(** ** Ranges of the fusion step *)

Module FusionRanges.

(** A sub-score, a prediction or a decision: -1, 0 or 1. *)
Definition sub_score (s : Z) : Prop := s = (-1)%Z \/ s = 0%Z \/ s = 1%Z.

(** The indicator columns that [get_enhanced_signal] reads besides the
    close (lines 163-170). *)
Definition indicator_columns : list string :=
  ["RSI"; "MACD"; "MACD_Signal"; "SMA_20"; "SMA_50"; "BB_Upper"; "BB_Lower"].

End FusionRanges.

(** ** The messages of the two phases of a request *)

Module Phases.

Import Training Server.

(** The messages [train_model] returns (lines 112, 125 and 157). *)
Definition training_error (e : error) : bool :=
  match e with
  | DownloadFailed | InsufficientData | TrainingError => true
  | RecentDownloadFailed | FeaturePreparationFailed | PredictionError =>
      false
  end.

(** The messages of the rest of [predict] (lines 260, 271 and 361). *)
Definition prediction_error (e : error) : bool :=
  match e with
  | RecentDownloadFailed | FeaturePreparationFailed | PredictionError =>
      true
  | DownloadFailed | InsufficientData | TrainingError => false
  end.

(** A request that ended with a message of [train_model]. *)
Definition failed_in_training (r : result + error) : bool :=
  match r with
  | inr e => training_error e
  | inl _ => false
  end.

End Phases.

(** ** The HTTP endpoints: [predict_stock], [get_technical_indicators],
    [get_stock_data] *)

Module Endpoints.

Import Frame Indicators Training Forecast Server.

#[local] Set Warnings "-register-all".

(** A JSON value, as [request.get_json()] returns it and as [jsonify]
    writes it. *)
Inductive json : Type :=
| JNull
| JBool (b : bool)
| JInt (n : Z)
| JFloat (x : float64)
| JString (s : string)
| JArray (items : list json)
| JObject (members : gmap string json).

(** What the endpoints take from Python and pandas: [str.upper],
    [int] on a string ([None] when it raises [ValueError]), and the
    index of a downloaded history: the label of row [i] of the history
    of a symbol, period and interval, written by [strftime] in the
    given format. *)
Record Python : Type := {
  str_upper : string -> string;
  int_of_str : string -> option Z;
  index_strftime : string -> string -> string -> nat -> string -> string
}.

(** [int(x)] on a double: the fraction is cut off; NaN and the
    infinities raise. *)
Definition float_int (x : float64) : option Z :=
  match x with
  | Fin q => Some (Z.quot (Qnum q) (Zpos (Qden q)))
  | _ => None
  end.

(** [dict.get(key, fallback)] *)
Definition dict_get (data : gmap string json) (key : string)
    (fallback : json) : json :=
  default fallback (data !! key).

Section WithPython.

Context (py : Python) (env : Environment).

(** [int(v)] on a JSON value; [None] when it raises. *)
Definition py_int (v : json) : option Z :=
  match v with
  | JInt n => Some n
  | JBool b => Some (if b then 1 else 0)%Z
  | JFloat x => float_int x
  | JString s => int_of_str py s
  | JNull | JArray _ | JObject _ => None
  end.

(** The responses of [predict_stock]. *)
Inductive response : Type :=
| Ok (r : result) (model_type : json)  (* 200: the result and its model_type *)
| BadRequest                           (* 400: "Days must be between 1 and 30" *)
| Failed (e : error)                   (* 500: the message of [predict] *)
| ServerError.                         (* 500: "Server error: ..." *)

(** [predict_stock()], lines 371-394: the predictor of the process
    after the call and the response.  [body] is the JSON body of the
    request, [None] when there is none. *)
Definition predict_stock (self : StockPredictor (sk env))
    (np_random0 : generator (rt env)) (body : option json)
  : StockPredictor (sk env) * response :=
  match body with
  | Some (JObject data) =>
      match dict_get data "symbol" (JString "AAPL") with
      | JString s =>
          let symbol := str_upper py s in
          match py_int (dict_get data "days" (JInt 7)) with
          | Some days =>
              let model_type :=
                dict_get data "model_type" (JString "Random Forest") in
              if (days <? 1)%Z || (30 <? days)%Z then (self, BadRequest)
              else
                match predict env self np_random0 symbol days with
                | (self, inr e) => (self, Failed e)
                | (self, inl r) => (self, Ok r model_type)
                end
          | None => (self, ServerError)
          end
      | _ => (self, ServerError)
      end
  | _ => (self, ServerError)
  end.

(** The responses of [get_technical_indicators]. *)
Inductive indicators_response : Type :=
| Indicators (body : gmap string json)  (* 200 *)
| NoHistory                  (* 500: "Failed to download stock data" *)
| IndicatorsError.           (* 500: "Error calculating indicators: ..." *)

(** [round(float(latest[column].iloc[0]), ndigits) if column in
    latest.columns and not pd.isna(latest[column].iloc[0]) else None] *)
Definition optional_round (latest : gmap string float64) (column : string)
    (ndigits : nat) : option float64 :=
  match latest !! column with
  | Some v => if isna v then None else Some (round v ndigits)
  | None => None
  end.

(** [{k: v for k, v in indicators.items() if v is not None}] on a
    dictionary given by its items. *)
Definition remove_none (items : list (string * option json))
  : gmap string json :=
  list_to_map (omap (fun kv => pair kv.1 <$> kv.2) items).

(** [get_technical_indicators(symbol)], lines 398-432, without the
    timestamp. *)
Definition get_technical_indicators (symbol : string)
  : indicators_response :=
  let symbol := str_upper py symbol in
  match download_stock_data (history env) symbol "6mo" "1d" with
  | None => NoHistory
  | Some data =>
  if Frame.empty data then NoHistory else
  let data := calculate_technical_indicators (ta env) data in
  let latest := first_row (tail1 data) in
  match latest !! "Close" with
  | None => IndicatorsError
  | Some close =>
  match latest !! "Volume" ≫= float_int with
  | None => IndicatorsError
  | Some volume =>
      let indicators :=
        [ ("symbol", Some (JString symbol));
          ("current_price", Some (JFloat (round close 2)));
          ("rsi", JFloat <$> optional_round latest "RSI" 2);
          ("macd", JFloat <$> optional_round latest "MACD" 4);
          ("macd_signal", JFloat <$> optional_round latest "MACD_Signal" 4);
          ("sma_20", JFloat <$> optional_round latest "SMA_20" 2);
          ("sma_50", JFloat <$> optional_round latest "SMA_50" 2);
          ("bb_upper", JFloat <$> optional_round latest "BB_Upper" 2);
          ("bb_lower", JFloat <$> optional_round latest "BB_Lower" 2);
          ("volume", Some (JInt volume)) ] in
      Indicators (remove_none indicators)
  end end end.

(** One entry of the list [stock_data]. *)
Record bar : Type := {
  bar_date : string;
  bar_open : float64;
  bar_high : float64;
  bar_low : float64;
  bar_close : float64;
  bar_volume : Z;
  bar_rsi : option float64;
  bar_macd : option float64;
  bar_sma_20 : option float64;
  bar_sma_50 : option float64
}.

(** The double nearest to an integer, ties to even: what an int64
    becomes when pandas or [float] converts it to float64.  An integer
    below 2^53 in size is kept. *)
Definition int_to_double (z : Z) : Z :=
  let a := Z.abs z in
  if (a <? 2 ^ 53)%Z then z
  else
    let e := (Z.log2 a - 52)%Z in
    (Z.sgn z * round_half_even (inject_Z a / inject_Z (2 ^ e)) * 2 ^ e)%Z.

Definition is_float_column (c : column) : bool :=
  match c with
  | Floats _ => true
  | Ints _ => false
  end.

(** The dtype of the rows that [data.iterrows()] yields: float64 as soon
    as one column of the frame is a float column, and the integer
    columns are converted with it. *)
Definition float_rows (data : frame) : bool :=
  existsb is_float_column (map snd (map_to_list (columns data))).

(** [float(row[name])]; [None] is [KeyError].  An integer has become a
    double, in [iterrows] or in [float]. *)
Definition row_value (data : frame) (name : string) (i : nat)
  : option float64 :=
  c ← columns data !! name;
  match c with
  | Floats v => v !! i
  | Ints v => (fun z => Fin (inject_Z (int_to_double z))) <$> v !! i
  end.

(** [int(row[name])]; [None] when it raises.  The whole part of a
    float; an integer as it is when the rows are integer rows, and as
    the double it was converted to when they are float rows. *)
Definition row_int (data : frame) (name : string) (i : nat) : option Z :=
  c ← columns data !! name;
  match c with
  | Floats v => v !! i ≫= float_int
  | Ints v =>
      (fun z => if float_rows data then int_to_double z else z) <$> v !! i
  end.

(** The number [float(row[name])], NaN where there is none. *)
Definition row_number (data : frame) (name : string) (i : nat) : float64 :=
  default NaN (row_value data name i).

(** [round(float(row[name]), ndigits) if name in row and not
    pd.isna(row[name]) else None]: the value, or null. *)
Definition optional_value (data : frame) (name : string) (i : nat)
    (ndigits : nat) : option float64 :=
  match row_value data name i with
  | Some v => if isna v then None else Some (round v ndigits)
  | None => None
  end.

(** The optional entries of the response of [get_technical_indicators]:
    key, column and number of digits. *)
Definition optional_entries : list (string * string * nat) :=
  [ ("rsi", "RSI", 2%nat); ("macd", "MACD", 4%nat);
    ("macd_signal", "MACD_Signal", 4%nat);
    ("sma_20", "SMA_20", 2%nat); ("sma_50", "SMA_50", 2%nat);
    ("bb_upper", "BB_Upper", 2%nat); ("bb_lower", "BB_Lower", 2%nat) ].

(** The format of the date, by interval (lines 451-454). *)
Definition date_format (interval : string) : string :=
  if bool_decide (interval ∈ ["1m"; "5m"; "15m"; "30m"; "1h"])
  then "%Y-%m-%d %H:%M:%S"
  else "%Y-%m-%d".

(** The body of the loop over [data.iterrows()], lines 449-467;
    [None] when it raises. *)
Definition stock_bar (symbol period interval : string) (data : frame)
    (i : nat) : option bar :=
  let date_str :=
    index_strftime py symbol period interval i (date_format interval) in
  open ← row_value data "Open" i;
  high ← row_value data "High" i;
  low ← row_value data "Low" i;
  close ← row_value data "Close" i;
  volume ← row_int data "Volume" i;
  Some {| bar_date := date_str;
          bar_open := round open 2;
          bar_high := round high 2;
          bar_low := round low 2;
          bar_close := round close 2;
          bar_volume := volume;
          bar_rsi := optional_value data "RSI" i 2;
          bar_macd := optional_value data "MACD" i 4;
          bar_sma_20 := optional_value data "SMA_20" i 2;
          bar_sma_50 := optional_value data "SMA_50" i 2 |}.

(** The responses of [get_stock_data]. *)
Inductive stock_data_response : Type :=
| StockData (symbol period interval : string) (data : list bar)  (* 200 *)
| NoStockData                (* 500: "Failed to download stock data" *)
| StockDataError.            (* 500: "Error fetching stock data: ..." *)

(** [get_stock_data(symbol)], lines 435-481, without the timestamp;
    [period] and [interval] are the query arguments, [None] when
    absent. *)
Definition get_stock_data (symbol : string) (period interval : option string)
  : stock_data_response :=
  let period := default "1y" period in
  let interval := default "1d" interval in
  match download_stock_data (history env) symbol period interval with
  | None => NoStockData
  | Some data =>
  if Frame.empty data then NoStockData else
  let data := calculate_technical_indicators (ta env) data in
  match mapM (stock_bar symbol period interval data) (seq 0 (nrows data)) with
  | Some stock_data => StockData symbol period interval stock_data
  | None => StockDataError
  end
  end.

End WithPython.

End Endpoints.

(** ** More concrete runs *)

Module Runs.

Import Frame Indicators Labels Training Forecast Server Scenario.
Import Endpoints.

(** Training a new predictor on three bars of history. *)
Definition young_training
  : StockPredictor majority_classifier * (report + error) :=
  train_model majority_classifier flat_indicators young_market
    (new_predictor majority_classifier) "AAPL".

(** A process that is asked for a symbol without history, then for
    AAPL, then for MSFT. *)
Definition unknown_then_aapl
  : StockPredictor (sk environment) * list (result + error) :=
  serve environment (predictor environment)
    [(0%Z, "NONE", 3%Z); (0%Z, "AAPL", 3%Z); (0%Z, "MSFT", 5%Z)].

(** A first request for a symbol without history. *)
Definition unknown_first
  : StockPredictor (sk environment) * (result + error) :=
  predict environment (predictor environment) 0%Z "NONE" 3.

(** Stand-ins for [str.upper] and [int] on plain ASCII text, and an
    index that numbers the rows. *)
Definition ascii_upper (c : Ascii.ascii) : Ascii.ascii :=
  let n := Ascii.nat_of_ascii c in
  if Nat.leb 97 n && Nat.leb n 122 then Ascii.ascii_of_nat (n - 32) else c.

Fixpoint upper (s : string) : string :=
  match s with
  | EmptyString => EmptyString
  | String c rest => String (ascii_upper c) (upper rest)
  end.

Fixpoint digits (acc : Z) (s : string) : option Z :=
  match s with
  | EmptyString => Some acc
  | String c rest =>
      let n := Z.of_nat (Ascii.nat_of_ascii c) in
      if (48 <=? n)%Z && (n <=? 57)%Z
      then digits (acc * 10 + (n - 48))%Z rest
      else None
  end.

Definition decimal (s : string) : option Z :=
  match s with
  | EmptyString => None
  | _ => digits 0 s
  end.

Definition ascii_python : Python :=
  {| str_upper := upper;
     int_of_str := decimal;
     index_strftime := fun _ _ _ i _ => pretty i |}.

(** The first request of a process: [{"symbol": "aapl", "days": 3}]. *)
Definition aapl_body : json :=
  JObject (<["symbol" := JString "aapl"]> (<["days" := JInt 3]> ∅)).

Definition aapl_response
  : StockPredictor (sk environment) * response :=
  predict_stock ascii_python environment (predictor environment) 0%Z
    (Some aapl_body).

(** The predictor after that request. *)
Definition aapl_predictor : StockPredictor (sk environment) :=
  fst aapl_response.

Definition aapl_result : result :=
  match snd aapl_response with
  | Ok r _ => r
  | _ => no_result
  end.

(** The indicators and the bars of AAPL. *)
Definition aapl_indicators : gmap string json :=
  match get_technical_indicators ascii_python environment "aapl" with
  | Indicators body => body
  | _ => ∅
  end.

Definition aapl_bars : list bar :=
  match get_stock_data ascii_python environment "AAPL" None None with
  | StockData _ _ _ bars => bars
  | _ => []
  end.

(** Two rows of a close and a volume, and their scaling. *)
Definition two_rows : matrix :=
  {| names := ["Close"; "Volume"];
     rows := [ (0%nat, [Fin 1; Fin 10]); (1%nat, [Fin 3; Fin 10]) ] |}.

Definition unfitted : StandardScaler :=
  {| feature_names_in_ := []; mean_ := []; var_ := [] |}.

Definition two_rows_scaled : StandardScaler * list (list Q) :=
  default (unfitted, []) (scaler_fit_transform majority_classifier two_rows).

End Runs.

(** ** The forecast, day by day *)

Module ForecastSpec.

Import Forecast.

(** The runtime of another process of the same program.  Python salts
    the [hash] of a string per process (unless PYTHONHASHSEED is set),
    so [hash] is another function there; numpy is the same. *)
Definition with_hash (rt : Runtime) (hash : string -> Z) : Runtime :=
  {| py_hash := hash;
     np_sin := np_sin rt;
     generator := generator rt;
     np_random_seed := np_random_seed rt;
     np_random_normal := np_random_normal rt |}.

Section WithRuntime.

Context (rt : Runtime).

(** [total_change] of a day: the trend of the day plus the draw made
    right after seeding with the seed of that day. *)
Definition total_change (symbol today : string) (base_trend volatility : Q)
    (day : Z) : Q :=
  base_trend * (np_sin rt (inject_Z day * (1 # 10)) * (3 # 10) + (7 # 10))
  + fst (np_random_normal rt
           (np_random_seed rt (random_seed rt symbol today day))
           0 volatility).

(** The price after [n] days: each day's price from the price of the day
    before and that day's change. *)
Fixpoint price_after (symbol today : string) (base_trend volatility : Q)
    (current_price : float64) (n : nat) : float64 :=
  match n with
  | O => current_price
  | S k =>
      mul (price_after symbol today base_trend volatility current_price k)
          (Fin (1 + total_change symbol today base_trend volatility
                      (Z.of_nat (S k))))
  end.

(** The forecast point of a day, from the symbol, the date, the fused
    signal, the base confidence, the starting price and the day, and
    from nothing else. *)
Definition point_of_day (symbol today : string) (enhanced_signal : Z)
    (enhanced_confidence : Q) (current_price : float64) (day : Z) : point :=
  let tv := trend_and_volatility enhanced_signal in
  {| day := day;
     predicted_price :=
       round (price_after symbol today tv.1 tv.2 current_price
                (Z.to_nat day)) 2;
     confidence := Qround_digits (day_confidence enhanced_confidence day) 3 |}.

End WithRuntime.

End ForecastSpec.

(** ** Two processes *)

Module Processes.

Import Forecast ForecastSpec Scenario.

(** The runtime of [Scenario] in a process whose hash salt is [salt]. *)
Definition salted (salt : Z) : Runtime := with_hash runtime (poly_hash salt).

End Processes.

(** * Properties *)

(** A closed decidable proposition, by evaluation. *)
Ltac decide_closed :=
  apply (bool_decide_eq_true_1 _); vm_compute; reflexivity.

(** ** Order and rounding *)

Section NumberFacts.

Lemma Qltb_lt (x y : Q) : Qltb x y = true <-> x < y.
Proof.
  unfold Qltb. rewrite negb_true_iff, <- not_true_iff_false, Qle_bool_iff.
  split; [apply Qnot_le_lt | apply Qlt_not_le].
Qed.

Lemma Qle_bool_false (x y : Q) : Qle_bool x y = false <-> y < x.
Proof.
  rewrite <- not_true_iff_false, Qle_bool_iff.
  split; [apply Qnot_le_lt | apply Qlt_not_le].
Qed.

Lemma Qltb_ge (x y : Q) : Qltb x y = false <-> y <= x.
Proof.
  unfold Qltb. rewrite negb_false_iff. apply Qle_bool_iff.
Qed.




Lemma round_half_even_zero (z : Q) : z == 0 -> round_half_even z = 0%Z.
Proof.
  intros Hz. unfold round_half_even.
  assert (Hf : Qfloor z = 0%Z) by now rewrite Hz.
  rewrite Hf.
  assert (Hr : Qltb (z - inject_Z 0) (1 # 2) = true).
  { apply Qltb_lt. rewrite Hz. reflexivity. }
  now rewrite Hr.
Qed.

(** Zero rounded to cents. *)
Lemma round_zero_cents (q : Q) : q == 0 -> round (Fin q) 2 = Fin (0 # 100).
Proof.
  intros Hq. unfold round, Qround_digits.
  rewrite round_half_even_zero; [reflexivity|].
  rewrite Hq. reflexivity.
Qed.

End NumberFacts.

(** ** Signal fusion *)

Section FusionFacts.

Import Fusion FusionSpec Scenario.



Lemma fold_Qmax_upper (xs : list Q) (x : Q) :
  x <= fold_left Qmax xs x
  /\ (forall y, In y xs -> y <= fold_left Qmax xs x)
  /\ In (fold_left Qmax xs x) (x :: xs).
Proof.
  revert x. induction xs as [|a xs IH]; intros x; simpl.
  - split; [apply Qle_refl|]. split; [intros y []|now left].
  - destruct (IH (Qmax x a)) as (Hx & Hall & Hin).
    split; [eapply Qle_trans; [apply Q.le_max_l|exact Hx]|].
    split.
    + intros y [->|Hy]; [|now apply Hall].
      eapply Qle_trans; [apply Q.le_max_r|exact Hx].
    + destruct Hin as [Hin|Hin]; [|now right; right].
      rewrite <- Hin.
      destruct (Q.max_spec_le x a) as [[_ E]|[_ E]].
      * unfold Qmax, GenericMinMax.gmax in *.
        destruct (x ?= a); auto.
      * unfold Qmax, GenericMinMax.gmax in *.
        destruct (x ?= a); auto.
Qed.

(** [np.max] returns an entry of the vector that no entry exceeds. *)
Lemma np_max_spec (p0 : Q) (ps : list Q) :
  exists mx, np_max (p0 :: ps) = Some mx
             /\ In mx (p0 :: ps)
             /\ forall x, In x (p0 :: ps) -> x <= mx.
Proof.
  exists (fold_left Qmax ps p0).
  destruct (fold_Qmax_upper ps p0) as (Hx & Hall & Hin).
  split; [reflexivity|]. split; [exact Hin|].
  intros x [->|Hx']; [exact Hx|now apply Hall].
Qed.

Lemma agreement_spec (t : Q) (m : Z) :
  (0 <= t * inject_Z m -> agreement t m = 1)
  /\ (t * inject_Z m < 0 -> agreement t m = 1 # 2).
Proof.
  unfold agreement.
  destruct (Qle_bool 0 (t * inject_Z m)) eqn:E.
  - apply Qle_bool_iff in E. split; [reflexivity|]. intros H. exfalso. lra.
  - apply Qle_bool_false in E. split; [|reflexivity]. intros H. exfalso. lra.
Qed.

(** C3.  For every non-empty probability vector, technical signal [t]
    and classifier prediction [m], the fused confidence is
    0.5 * max(p) + 0.3 * |t| + 0.2 * b, where max(p) is the largest
    entry of the vector and the agreement bonus b is 1 when t * m >= 0
    and 0.5 otherwise.  On the scenario of the specification (all four
    sub-scores 1, prediction 1 with probability 0.9) the technical
    signal is 1, the decision is Buy and the confidence is 0.95. *)
Theorem C3_fused_confidence :
  (forall (t : Q) (m : Z) (p0 : Q) (ps : list Q),
      exists mx b c,
        fused_confidence t m (p0 :: ps) = Some c
        /\ In mx (p0 :: ps)
        /\ (forall x, In x (p0 :: ps) -> x <= mx)
        /\ (0 <= t * inject_Z m -> b = 1)
        /\ (t * inject_Z m < 0 -> b = 1 # 2)
        /\ c == (1 # 2) * mx + (3 # 10) * Qabs t + (2 # 10) * b)
  /\ (exists c d,
        get_enhanced_signal bullish_row 1 bullish_proba
        = Some (1%Z, c, Some d)
        /\ d_technical_signal d == 1
        /\ d_combined_signal d == 1
        /\ c == 95 # 100).
Proof.
  split.
  - intros t m p0 ps.
    destruct (np_max_spec p0 ps) as (mx & Hmx & Hin & Hall).
    exists mx, (agreement t m).
    unfold fused_confidence. rewrite Hmx.
    eexists. split; [reflexivity|].
    destruct (agreement_spec t m) as [Hge Hlt].
    repeat split; auto. ring.
  - vm_compute. do 2 eexists. repeat split; reflexivity.
Qed.

Lemma column_or_reads (r : row) (col : string) (fallback : float64) :
  reads r col fallback (column_or r col fallback).
Proof.
  unfold reads, column_or.
  destruct (r !! col) as [v|]; split; intros; congruence.
Qed.

(** With [Close] present and a non-empty probability vector the [try]
    block of [get_enhanced_signal] runs to its end. *)
Lemma get_enhanced_signal_body (r : row) (price : float64) (m : Z)
    (p0 : Q) (ps : list Q) :
  r !! "Close" = Some price ->
  exists i conf,
    extract_indicators r = Some i
    /\ fused_confidence (technical_signal (combine (signal_scores i) m)) m
         (p0 :: ps) = Some conf
    /\ get_enhanced_signal r m (p0 :: ps)
       = Some (final_signal (combine (signal_scores i) m), conf,
               Some {| d_rsi := rsi i;
                       d_macd := macd i;
                       d_macd_signal := macd_signal i;
                       d_sma_20 := sma_20 i;
                       d_sma_50 := sma_50 i;
                       d_bb_upper := bb_upper i;
                       d_bb_lower := bb_lower i;
                       d_ml_signal := m;
                       d_technical_signal :=
                         technical_signal (combine (signal_scores i) m);
                       d_combined_signal :=
                         combined_signal (combine (signal_scores i) m) |}).
Proof.
  intros HClose.
  unfold get_enhanced_signal, enhanced_signal_body, extract_indicators.
  rewrite HClose.
  eexists. eexists. split; [reflexivity|].
  split; reflexivity.
Qed.

(** What fusion does where a column is absent.  When the latest row has
    a close and the probability vector is not empty, fusion does not
    fail and does not fall back: it returns a decision, a confidence and
    the breakdown.
    Each indicator whose column is absent from the row is replaced by
    its neutral default (RSI 50, MACD and MACD signal 0, SMA20 and SMA50
    the current price, the upper and lower band 1.02 and 0.98 times the
    current price); an indicator whose column is present is used with
    the value the row holds, NaN included.  The decision is the one
    computed from the sub-scores of these values. *)
Theorem absent_columns_get_defaults (r : row) (price : float64) (m : Z)
    (p0 : Q) (ps : list Q) :
  r !! "Close" = Some price ->
  exists i conf d,
    get_enhanced_signal r m (p0 :: ps)
    = Some (final_signal (combine (signal_scores i) m), conf, Some d)
    /\ current_price i = price
    /\ reads r "RSI" (Fin 50) (rsi i)
    /\ reads r "MACD" (Fin 0) (macd i)
    /\ reads r "MACD_Signal" (Fin 0) (macd_signal i)
    /\ reads r "SMA_20" price (sma_20 i)
    /\ reads r "SMA_50" price (sma_50 i)
    /\ reads r "BB_Upper" (mul price (Fin (102 # 100))) (bb_upper i)
    /\ reads r "BB_Lower" (mul price (Fin (98 # 100))) (bb_lower i)
    /\ d_rsi d = rsi i /\ d_macd d = macd i
    /\ d_macd_signal d = macd_signal i
    /\ d_sma_20 d = sma_20 i /\ d_sma_50 d = sma_50 i
    /\ d_bb_upper d = bb_upper i /\ d_bb_lower d = bb_lower i.
Proof.
  intros HClose.
  destruct (get_enhanced_signal_body r price m p0 ps HClose)
    as (i & conf & Hi & _ & Hres).
  exists i, conf. eexists. split; [exact Hres|].
  unfold extract_indicators in Hi. rewrite HClose in Hi.
  injection Hi as <-. cbn.
  repeat split; try apply column_or_reads.
Qed.

(** The theorem at a row that carries only the close: every indicator
    takes its default. *)
Lemma absent_columns_get_defaults_example :
  exists i conf d,
    get_enhanced_signal bare_row 0 [1 # 3; 1 # 3; 1 # 3]
    = Some (final_signal (combine (signal_scores i) 0), conf, Some d)
    /\ current_price i = Fin 100
    /\ reads bare_row "RSI" (Fin 50) (rsi i)
    /\ reads bare_row "MACD" (Fin 0) (macd i)
    /\ reads bare_row "MACD_Signal" (Fin 0) (macd_signal i)
    /\ reads bare_row "SMA_20" (Fin 100) (sma_20 i)
    /\ reads bare_row "SMA_50" (Fin 100) (sma_50 i)
    /\ reads bare_row "BB_Upper" (mul (Fin 100) (Fin (102 # 100)))
         (bb_upper i)
    /\ reads bare_row "BB_Lower" (mul (Fin 100) (Fin (98 # 100)))
         (bb_lower i)
    /\ d_rsi d = rsi i /\ d_macd d = macd i
    /\ d_macd_signal d = macd_signal i
    /\ d_sma_20 d = sma_20 i /\ d_sma_50 d = sma_50 i
    /\ d_bb_upper d = bb_upper i /\ d_bb_lower d = bb_lower i.
Proof.
  apply (absent_columns_get_defaults bare_row (Fin 100) 0
           (1 # 3) [1 # 3; 1 # 3]).
  reflexivity.
Defined.


End FusionFacts.

(** ** Signal fusion in double arithmetic *)

Section Binary64Facts.

#[local] Set Warnings "-inexact-float".

(** In double arithmetic the fusion step takes the same decision as in
    exact arithmetic, for every choice of four sub-scores and a
    prediction from -1, 0, 1: no combined signal comes close enough to
    a threshold for rounding to matter. *)
Lemma binary64_decisions_agree :
  Forall (fun '(signal_scores, ml_signal) =>
            Binary64.final_signal signal_scores ml_signal
            = Fusion.final_signal (Fusion.combine signal_scores ml_signal))
         Binary64.all_inputs.
Proof.
  assert (H : forallb
                (fun '(signal_scores, ml_signal) =>
                   Z.eqb (Binary64.final_signal signal_scores ml_signal)
                     (Fusion.final_signal
                        (Fusion.combine signal_scores ml_signal)))
                Binary64.all_inputs = true)
    by (vm_compute; reflexivity).
  rewrite forallb_forall in H.
  apply Forall_forall. intros [s m] Hin. apply list_elem_of_In in Hin.
  apply H in Hin. now apply Z.eqb_eq.
Qed.

(** The confidence of the specification's scenario in double
    arithmetic is the double nearest to 0.95. *)
Lemma binary64_confidence_example :
  PrimFloat.eqb (Binary64.confidence 0.9 1 1) 0.95 = true.
Proof. vm_compute. reflexivity. Qed.

End Binary64Facts.

(** ** Labels *)

Section LabelFacts.

Import Frame Labels Scenario.

Lemma nth_map_lookup {A B : Type} (f : A -> B) (l : list A) (i : nat)
    (x : A) (d : B) :
  l !! i = Some x -> nth i (map f l) d = f x.
Proof.
  revert i. induction l as [|a l IH]; intros [|i] H; simpl in *;
    try discriminate.
  - now injection H as ->.
  - now apply IH.
Qed.

Lemma np_select_lookup (change : list float64) (i : nat) (c : float64) :
  change !! i = Some c ->
  np_select [ map (fun x => gtb x buy_threshold) change;
              map (fun x => ltb x sell_threshold) change ]
    [1%Z; (-1)%Z] 0%Z (length change) !! i
  = Some (signal_of c).
Proof.
  intros Hc. unfold np_select.
  rewrite list_lookup_fmap.
  assert (Hi : (i < length change)%nat) by (eapply lookup_lt_Some; eauto).
  rewrite lookup_seq_lt by exact Hi. simpl.
  unfold signal_of.
  now rewrite !(nth_map_lookup _ _ _ c) by exact Hc.
Qed.

(** The label of a row from its price change. *)
Lemma signal_of_spec (c : float64) :
  match c with
  | Fin x =>
      (signal_of c = 1%Z <-> 2 # 100 < x)
      /\ (signal_of c = (-1)%Z <-> x < - (2 # 100))
      /\ (signal_of c = 0%Z <-> - (2 # 100) <= x /\ x <= 2 # 100)
  | PInf => signal_of c = 1%Z
  | NInf => signal_of c = (-1)%Z
  | NaN => signal_of c = 0%Z
  end.
Proof.
  destruct c as [| | |x]; try reflexivity.
  unfold signal_of, select_at, gtb, ltb, buy_threshold, sell_threshold.
  destruct (Qltb (2 # 100) x) eqn:Hbuy.
  - apply Qltb_lt in Hbuy.
    repeat split; try discriminate; try tauto.
    all: try (intros; exfalso; lra); try (intros [? ?]; exfalso; lra).
  - assert (Hle : x <= 2 # 100).
    { apply Qnot_lt_le. intros H. apply Qltb_lt in H. congruence. }
    destruct (Qltb x (- (2 # 100))) eqn:Hsell.
    + apply Qltb_lt in Hsell.
      repeat split; try discriminate; try tauto.
      all: try (intros; exfalso; lra); try (intros [? ?]; exfalso; lra).
    + assert (Hge : - (2 # 100) <= x).
      { apply Qnot_lt_le. intros H. apply Qltb_lt in H. congruence. }
      repeat split; try discriminate; try tauto.
      all: try (intros; exfalso; lra).
Qed.

(** C5.  [generate_labels] writes the price changes (future close minus
    close, over close) and the labels as columns of equal length, and in
    every row whose price change is defined the label is 1 exactly when
    the change is greater than 0.02, -1 exactly when it is less than
    -0.02, and 0 exactly when it lies between the two, bounds included: a
    change of exactly 0.02 or exactly -0.02 is labelled 0.  (An infinite
    change, which a close of 0 gives, is labelled by its sign, and a row
    whose change is undefined is labelled 0.) *)
Theorem C5_label_thresholds (data labelled : frame) (days_ahead : nat) :
  generate_labels data days_ahead = Some labelled ->
  exists close change signal,
    get_column data "Close" = Some close
    /\ change = price_change (shift_back days_ahead close) close
    /\ columns labelled !! "Price_Change" = Some (Floats change)
    /\ columns labelled !! "Signal" = Some (Ints signal)
    /\ length signal = length change
    /\ (forall i x s,
           change !! i = Some (Fin x) -> signal !! i = Some s ->
           (s = 1%Z <-> 2 # 100 < x)
           /\ (s = (-1)%Z <-> x < - (2 # 100))
           /\ (s = 0%Z <-> - (2 # 100) <= x /\ x <= 2 # 100)
           /\ (x == 2 # 100 -> s = 0%Z)
           /\ (x == - (2 # 100) -> s = 0%Z))
    /\ (forall i s, signal !! i = Some s ->
           (change !! i = Some PInf -> s = 1%Z)
           /\ (change !! i = Some NInf -> s = (-1)%Z)
           /\ (change !! i = Some NaN -> s = 0%Z)).
Proof.
  unfold generate_labels. intros H.
  destruct (get_column data "Close") as [close|]; [|discriminate].
  cbn in H. injection H as <-.
  set (change := price_change (shift_back days_ahead close) close).
  eexists close, change, _. cbn [columns set_column].
  split; [reflexivity|]. split; [reflexivity|].
  split.
  { rewrite lookup_insert_ne by discriminate.
    now rewrite lookup_insert_eq. }
  split; [now rewrite lookup_insert_eq|].
  split.
  { unfold np_select. now rewrite length_map, length_seq. }
  split.
  - intros i x s Hc Hs.
    assert (E : Some s = Some (signal_of (Fin x)))
      by (rewrite <- Hs; exact (np_select_lookup _ _ _ Hc)).
    injection E as ->.
    pose proof (signal_of_spec (Fin x)) as (H1 & H2 & H3).
    repeat split; try tauto.
    + intros E. apply H3. lra.
    + intros E. apply H3. lra.
  - intros i s Hs.
    repeat split; intros Hc;
      match type of Hc with
      | _ = Some ?c =>
          assert (E : Some s = Some (signal_of c))
            by (rewrite <- Hs; exact (np_select_lookup _ _ _ Hc))
      end;
      injection E as ->; reflexivity.
Qed.

(** The labels of three bars closing at 100, 102 and 104: a change of
    exactly 2% and one just below are both Hold. *)
Lemma C5_label_thresholds_witness :
  exists close change signal,
    get_column three_bars "Close" = Some close
    /\ change = price_change (shift_back 1 close) close
    /\ columns three_bars_labelled !! "Price_Change" = Some (Floats change)
    /\ columns three_bars_labelled !! "Signal" = Some (Ints signal)
    /\ length signal = length change
    /\ (forall i x s,
           change !! i = Some (Fin x) -> signal !! i = Some s ->
           (s = 1%Z <-> 2 # 100 < x)
           /\ (s = (-1)%Z <-> x < - (2 # 100))
           /\ (s = 0%Z <-> - (2 # 100) <= x /\ x <= 2 # 100)
           /\ (x == 2 # 100 -> s = 0%Z)
           /\ (x == - (2 # 100) -> s = 0%Z))
    /\ (forall i s, signal !! i = Some s ->
           (change !! i = Some PInf -> s = 1%Z)
           /\ (change !! i = Some NInf -> s = (-1)%Z)
           /\ (change !! i = Some NaN -> s = 0%Z)).
Proof.
  apply (C5_label_thresholds three_bars three_bars_labelled 1).
  vm_compute. reflexivity.
Defined.

End LabelFacts.

(** ** Technical indicators *)

Section IndicatorFacts.

Import Frame Indicators IndicatorsSpec Scenario.

Lemma same_inputs_refl (d : frame) : same_inputs d d.
Proof. unfold same_inputs. now apply Forall_forall. Qed.

Lemma same_inputs_set (d d' : frame) (n : string) (c : column) :
  n ∉ inputs -> same_inputs d d' -> same_inputs d (set_column d' n c).
Proof.
  unfold same_inputs. rewrite !Forall_forall. intros Hn H x Hx.
  cbn. rewrite lookup_insert_ne; [now apply H|].
  intros ->. contradiction.
Qed.

Lemma get_column_same (d d' : frame) (n : string) :
  n ∈ inputs -> same_inputs d d' -> get_column d n = get_column d' n.
Proof.
  unfold same_inputs, get_column. rewrite Forall_forall.
  intros Hn H. now rewrite (H n Hn).
Qed.

(** Every indicator is computed from the input columns only. *)
Lemma steps_read_inputs (ta : TaLibrary) :
  Forall (fun s : step =>
            forall d d', same_inputs d d' -> s.2 d = s.2 d')
         (indicator_steps ta).
Proof.
  unfold indicator_steps, on_close.
  repeat constructor; cbn; intros d d' H.
  all: rewrite ?(get_column_same d d' "Close"),
         ?(get_column_same d d' "High"),
         ?(get_column_same d d' "Low"),
         ?(get_column_same d d' "Volume");
    auto; unfold inputs; decide_closed.
Qed.

Lemma step_names_not_inputs (ta : TaLibrary) :
  Forall (fun s : step => s.1 ∉ inputs) (indicator_steps ta).
Proof.
  unfold indicator_steps, inputs.
  repeat constructor; cbn; decide_closed.
Qed.

(** The [try] block carries out the assignments of [computed], in
    order. *)
Lemma run_steps_computed (steps : list step) (data0 data : frame) :
  Forall (fun s : step =>
            forall d d', same_inputs d d' -> s.2 d = s.2 d') steps ->
  Forall (fun s : step => s.1 ∉ inputs) steps ->
  same_inputs data0 data ->
  run_steps steps data = fold_left assign (computed steps data0) data.
Proof.
  intros Hread Hnames. revert data.
  induction steps as [|[n f] steps IH]; intros data Hsame; [reflexivity|].
  inversion Hread as [|? ? Hf Hread']; subst.
  inversion Hnames as [|? ? Hn Hnames']; subst.
  cbn [run_steps computed]. cbn in Hf, Hn.
  rewrite <- (Hf data0 data Hsame).
  destruct (f data0) as [v|]; [|reflexivity].
  cbn [fold_left]. apply IH; auto.
  now apply same_inputs_set.
Qed.

Lemma fold_assign_nrows (l : list (string * series)) (d : frame) :
  nrows (fold_left assign l d) = nrows d.
Proof.
  revert d. induction l as [|a l IH]; intros d; cbn; [|rewrite IH]; auto.
Qed.

Lemma fold_assign_other (l : list (string * series)) (d : frame)
    (n : string) :
  n ∉ map fst l ->
  columns (fold_left assign l d) !! n = columns d !! n.
Proof.
  revert d. induction l as [|[m v] l IH]; intros d Hn; [reflexivity|].
  cbn [map fst] in Hn. apply not_elem_of_cons in Hn as [Hne Hn].
  cbn [fold_left]. rewrite IH by exact Hn.
  cbn. apply lookup_insert_ne. congruence.
Qed.

Lemma fold_assign_member (l : list (string * series)) (d : frame)
    (n : string) (v : series) :
  NoDup (map fst l) -> (n, v) ∈ l ->
  columns (fold_left assign l d) !! n = Some (Floats v).
Proof.
  revert d. induction l as [|[m w] l IH]; intros d Hnd Hin.
  - set_solver.
  - cbn [map fst] in Hnd. apply NoDup_cons in Hnd as [Hm Hnd].
    cbn [fold_left].
    apply elem_of_cons in Hin as [Heq|Hin].
    + injection Heq as -> ->.
      rewrite fold_assign_other by exact Hm.
      cbn. apply lookup_insert_eq.
    + now apply IH.
Qed.

Lemma computed_prefix (steps : list step) (data : frame) :
  map fst (computed steps data)
  = take (length (computed steps data)) (map fst steps)
  /\ (forall n v, (n, v) ∈ computed steps data ->
        exists f, (n, f) ∈ steps /\ f data = Some v)
  /\ ((length (computed steps data) < length steps)%nat ->
      exists n f, steps !! length (computed steps data) = Some (n, f)
                  /\ f data = None).
Proof.
  induction steps as [|[n f] steps (IH1 & IH2 & IH3)]; cbn [computed].
  - split; [reflexivity|]. split; [set_solver|]. cbn. lia.
  - destruct (f data) as [v|] eqn:Hf.
    + cbn [length map take fst]. split; [now rewrite <- IH1|].
      split.
      * intros m w Hin. apply elem_of_cons in Hin as [Heq|Hin].
        -- injection Heq as -> ->. exists f. split; [set_solver|exact Hf].
        -- destruct (IH2 m w Hin) as (f' & Hin' & Hf').
           exists f'. split; [set_solver|exact Hf'].
      * intros Hlt. apply IH3. cbn in Hlt. lia.
    + split; [reflexivity|]. split; [set_solver|].
      intros _. now exists n, f.
Qed.

Lemma step_names_nodup (ta : TaLibrary) :
  NoDup (map fst (indicator_steps ta)).
Proof.
  unfold indicator_steps. cbn [map fst].
  repeat (apply NoDup_cons; split; [decide_closed|]).
  apply NoDup_nil_2.
Qed.

(** C7, as the code has it.  [calculate_technical_indicators] never
    raises and keeps the rows of its input.  The indicators are computed
    in program order inside one [try] block: those before the first one
    that raises get their column, each holding the series the library
    computes from the input; the one that raises and every indicator
    after it get none (such a column is left as it was in the input,
    hence absent when the input is a frame of bars).  When none raises,
    all fourteen columns are computed. *)
Theorem C7_first_failure_ends_the_block (ta : TaLibrary) (data : frame) :
  let steps := indicator_steps ta in
  let done := computed steps data in
  let result := calculate_technical_indicators ta data in
  nrows result = nrows data
  /\ map fst done = take (length done) (map fst steps)
  /\ (forall n v, (n, v) ∈ done ->
        columns result !! n = Some (Floats v)
        /\ exists f, (n, f) ∈ steps /\ f data = Some v)
  /\ (forall n, n ∈ drop (length done) (map fst steps) ->
        columns result !! n = columns data !! n)
  /\ (forall n, n ∉ map fst steps ->
        columns result !! n = columns data !! n)
  /\ ((length done < length steps)%nat ->
      exists n f, steps !! length done = Some (n, f) /\ f data = None)
  /\ (failing steps data = [] -> length done = length steps).
Proof.
  intros steps done result.
  assert (Hrun : result = fold_left assign done data).
  { unfold result, done, steps, calculate_technical_indicators.
    apply run_steps_computed;
      [apply steps_read_inputs|apply step_names_not_inputs
      |apply same_inputs_refl]. }
  destruct (computed_prefix steps data) as (Hpre & Hsrc & Hfail).
  fold done in Hpre, Hsrc, Hfail.
  pose proof (step_names_nodup ta) as Hnd. fold steps in Hnd.
  assert (Hnd' : NoDup (map fst done)).
  { rewrite Hpre. rewrite <- (take_drop (length done) (map fst steps)) in Hnd.
    now apply NoDup_app in Hnd as [? _]. }
  rewrite Hrun.
  split; [apply fold_assign_nrows|].
  split; [exact Hpre|].
  split.
  { intros n v Hin. split; [now apply fold_assign_member|now apply Hsrc]. }
  split.
  { intros n Hin. apply fold_assign_other. rewrite Hpre.
    rewrite <- (take_drop (length done) (map fst steps)) in Hnd.
    apply NoDup_app in Hnd as (_ & Hdisj & _).
    intros Hin'. exact (Hdisj n Hin' Hin). }
  split.
  { intros n Hn. apply fold_assign_other. rewrite Hpre.
    intros Hin. apply Hn. exact (subseteq_take _ _ _ Hin). }
  split; [exact Hfail|].
  intros Hnone.
  destruct (Nat.lt_ge_cases (length done) (length steps)) as [Hlt|Hge].
  - destruct (Hfail Hlt) as (n & f & Hlk & Hf).
    exfalso. unfold failing in Hnone. apply map_eq_nil in Hnone.
    assert (Hin : (n, f) ∈ filter (fun s : step => s.2 data = None) steps).
    { apply list_elem_of_filter. split; [exact Hf|].
      eapply list_elem_of_lookup_2; eauto. }
    rewrite Hnone in Hin. set_solver.
  - apply Nat.le_antisymm; [|exact Hge].
    assert (Hle : (length (map fst done) <= length (map fst steps))%nat)
      by (rewrite Hpre, length_take; lia).
    now rewrite !length_map in Hle.
Qed.

(** C7 fails as stated.  With a library whose RSI raises and whose
    other indicators all succeed on the three bars, RSI is the only
    indicator that fails on the input, and yet no indicator column is
    computed at all: the frame comes back as it went in, without MACD,
    the bands, the averages, ROC or the stochastic oscillator. *)
Lemma C7_one_failure_drops_later_columns :
  failing (indicator_steps rsi_raises) three_bars = ["RSI"]
  /\ calculate_technical_indicators rsi_raises three_bars = three_bars
  /\ columns (calculate_technical_indicators rsi_raises three_bars)
       !! "MACD" = None
  /\ columns (calculate_technical_indicators flat_indicators three_bars)
       !! "MACD" = Some (Floats [Fin 0; Fin 0; Fin 0]).
Proof. repeat split; vm_compute; reflexivity. Qed.

End IndicatorFacts.

(** ** Training *)

Section TrainingFacts.

Import Frame Indicators Labels Training.

Context (sk : Sklearn) (ta : TaLibrary).
Context (history : string -> string -> string -> option frame).

(** What a successful [train_model] has computed, step by step, and the
    predictor it leaves. *)
Lemma train_model_success (self self' : StockPredictor sk)
    (symbol : string) (rep : report) :
  train_model sk ta history self symbol = (self', inl rep) ->
  exists data labelled X y raw fitted train test,
    history symbol "2y" "1d" = Some data
    /\ generate_labels (calculate_technical_indicators ta data) 1
       = Some labelled
    /\ X = (prepare_features labelled).1
    /\ labels_at labelled X = Some y
    /\ (50 <= len X)%nat
    /\ finite_rows X = Some raw
    /\ scaler_fit (names X) raw = Some fitted
    /\ split_indices sk (length raw) y = Some (train, test)
    /\ data_points rep = len X
    /\ self' = {| model :=
                    Some (forest_fit sk
                            (pick (map (scale_row sk fitted) raw) train)
                            (pick y train));
                  scaler := Some fitted;
                  is_trained := true;
                  self_feature_columns := Some (names X) |}.
Proof.
  unfold train_model, download_stock_data, prepare_features.
  destruct (history symbol "2y" "1d") as [data|]; [|discriminate].
  destruct (Frame.empty data); [discriminate|].
  destruct (generate_labels _ 1) as [labelled|] eqn:Hlab; [|discriminate].
  set (X := select_dropna labelled _).
  destruct (labels_at labelled X) as [y|] eqn:Hy; [|discriminate].
  destruct (Nat.ltb (len X) 50) eqn:Hlen; [discriminate|].
  apply Nat.ltb_ge in Hlen.
  unfold scaler_fit_transform.
  destruct (finite_rows X) as [raw|] eqn:Hraw; [|discriminate].
  cbn [mbind option_bind].
  destruct (scaler_fit (names X) raw) as [fitted|] eqn:Hfit;
    [|discriminate].
  cbn [mbind option_bind].
  unfold train_test_split. rewrite length_map.
  destruct (split_indices sk (length raw) y) as [[train test]|] eqn:Hsplit;
    [|discriminate].
  cbv beta iota zeta. intros H. injection H as <- <-.
  exists data, labelled, X, y, raw, fitted, train, test.
  repeat split; auto.
Qed.

Lemma scaler_fit_parameters (names : list string) (raw : list (list Q))
    (s : StandardScaler) :
  scaler_fit names raw = Some s ->
  feature_names_in_ s = names
  /\ forall j, (j < length names)%nat ->
       mean_ s !! j = Some (Qmean (column_values raw j))
       /\ var_ s !! j = Some (Qvariance (column_values raw j)).
Proof.
  unfold scaler_fit.
  destruct (_ || _); [discriminate|].
  intros H. injection H as <-. cbn. split; [reflexivity|].
  intros j Hj.
  change (@map nat Q) with (@fmap list _ nat Q).
  rewrite !list_lookup_fmap, !lookup_seq_lt by exact Hj.
  now split.
Qed.

(** C6, as the code has it.  When training succeeds there are at least
    50 usable rows, and the scaler is fitted on all of them, before the
    split: its per-feature mean and variance are those of the whole
    matrix of usable rows, the rows that the split then puts in the
    held-out test part included.  The classifier is fitted on the
    training part of the rows so scaled. *)
Theorem C6_scaler_fitted_on_all_rows (self self' : StockPredictor sk)
    (symbol : string) (rep : report) :
  train_model sk ta history self symbol = (self', inl rep) ->
  exists data labelled y raw s train test,
    history symbol "2y" "1d" = Some data
    /\ generate_labels (calculate_technical_indicators ta data) 1
       = Some labelled
    /\ labels_at labelled (prepare_features labelled).1 = Some y
    /\ finite_rows (prepare_features labelled).1 = Some raw
    /\ (50 <= length raw)%nat
    /\ data_points rep = length raw
    /\ scaler self' = Some s
    /\ feature_names_in_ s = (prepare_features labelled).2
    /\ (forall j, (j < length (feature_names_in_ s))%nat ->
          mean_ s !! j = Some (Qmean (column_values raw j))
          /\ var_ s !! j = Some (Qvariance (column_values raw j)))
    /\ split_indices sk (length raw) y = Some (train, test)
    /\ model self'
       = Some (forest_fit sk (pick (map (scale_row sk s) raw) train)
                 (pick y train)).
Proof.
  intros H.
  destruct (train_model_success _ _ _ _ H)
    as (data & labelled & X & y & raw & fitted & train & test
        & Hdata & Hlab & -> & Hy & Hlen & Hraw & Hfit & Hsplit & Hpts & ->).
  destruct (scaler_fit_parameters _ _ _ Hfit) as [Hnames Hpar].
  pose proof (length_mapM _ _ _ Hraw) as Hl. unfold len in *.
  exists data, labelled, y, raw, fitted, train, test.
  cbn [scaler model].
  repeat split; auto; try lia.
  all: try (rewrite Hnames in *; now apply Hpar).
Qed.

(** The frame [generate_labels] returns has its labels. *)
Lemma generated_labels_exist (data labelled : frame) (days_ahead : nat)
    (X : matrix) :
  generate_labels data days_ahead = Some labelled ->
  exists y, labels_at labelled X = Some y.
Proof.
  unfold generate_labels, labels_at. intros H.
  destruct (get_column data "Close") as [close|]; [|discriminate].
  cbn [mbind option_bind] in H. injection H as <-.
  cbn [columns set_column]. rewrite lookup_insert_eq. eauto.
Qed.

(** Feature selection keeps no row with an undefined value. *)
Theorem selected_rows_are_complete (data : frame) :
  Forall (fun r : nat * list float64 => Forall (fun x => x <> NaN) r.2)
         (rows (prepare_features data).1).
Proof.
  unfold prepare_features, select_dropna. cbn [fst rows].
  apply Forall_forall. intros r Hr.
  apply list_elem_of_filter in Hr as [Hall _].
  rewrite forallb_forall in Hall.
  apply Forall_forall. intros x Hx ->.
  apply list_elem_of_In in Hx. specialize (Hall NaN Hx). discriminate.
Qed.

End TrainingFacts.

(** ** Training on the flat history *)

Section TrainingRuns.

Import Frame Indicators Labels Training Scenario.

(** Training on the flat history succeeds. *)
Lemma C6_scaler_fitted_on_all_rows_witness :
  exists data labelled y raw s train test,
    market "AAPL" "2y" "1d" = Some data
    /\ generate_labels (calculate_technical_indicators flat_indicators data)
         1 = Some labelled
    /\ labels_at labelled (prepare_features labelled).1 = Some y
    /\ finite_rows (prepare_features labelled).1 = Some raw
    /\ (50 <= length raw)%nat
    /\ data_points flat_report = length raw
    /\ scaler flat_training.1 = Some s
    /\ feature_names_in_ s = (prepare_features labelled).2
    /\ (forall j, (j < length (feature_names_in_ s))%nat ->
          mean_ s !! j = Some (Qmean (column_values raw j))
          /\ var_ s !! j = Some (Qvariance (column_values raw j)))
    /\ split_indices majority_classifier (length raw) y = Some (train, test)
    /\ model flat_training.1
       = Some (forest_fit majority_classifier
                 (pick (map (scale_row majority_classifier s) raw) train)
                 (pick y train)).
Proof.
  apply (C6_scaler_fitted_on_all_rows majority_classifier flat_indicators
           market (new_predictor majority_classifier) flat_training.1
           "AAPL" flat_report).
  vm_compute. reflexivity.
Defined.

(** C6 fails as stated.  Training on the fifty usable rows of the flat
    history succeeds; the partition puts rows 0 to 39 in the training
    part and rows 40 to 49 in the test part.  The scaler of the trained
    predictor is the scaler fitted on all fifty rows: its mean for
    [Close] (feature 3) is 5001/50, whereas the mean of [Close] over the
    training part is 4001/40. *)
Lemma C6_scaler_sees_the_test_rows :
  (exists rep, flat_training.2 = inl rep)
  /\ length flat_rows = 50%nat
  /\ split_indices majority_classifier (length flat_rows) flat_labels
     = Some (seq 0 40, seq 40 10)
  /\ scaler flat_training.1 = scaler_fit feature_columns flat_rows
  /\ (s ← scaler flat_training.1; mean_ s !! 3%nat) = Some (5001 # 50)
  /\ (s ← scaler_fit feature_columns (pick flat_rows (seq 0 40));
      mean_ s !! 3%nat) = Some (4001 # 40)
  /\ ~ 5001 # 50 == 4001 # 40.
Proof.
  split; [eexists; vm_compute; reflexivity|].
  split; [vm_compute; reflexivity|].
  split; [vm_compute; reflexivity|].
  split; [vm_compute; reflexivity|].
  split; [vm_compute; reflexivity|].
  split; [vm_compute; reflexivity|].
  vm_compute. discriminate.
Qed.

Lemma Qsum_integral (l : list Q) : Forall integral l -> integral (Qsum l).
Proof.
  induction 1 as [|x l [k Hk] _ [K HK]]; [now exists 0%Z|].
  exists (k + K)%Z. cbn [Qsum fold_right].
  fold (Qsum l). rewrite Hk, HK, inject_Z_plus. reflexivity.
Qed.

Lemma pick_subset {A : Type} (l : list A) (idx : list nat) (P : A -> Prop) :
  Forall P l -> Forall P (pick l idx).
Proof.
  intros Hl. unfold pick. apply Forall_forall. intros x Hx.
  apply list_elem_of_omap in Hx as (i & _ & Hi).
  rewrite Forall_forall in Hl. apply Hl.
  eapply list_elem_of_lookup_2; eauto.
Qed.

(** Every close of the flat history is a whole number. *)
Lemma flat_closes_integral :
  Forall (fun r : list Q => integral (nth 3 r 0)) flat_rows.
Proof.
  assert (H : forallb (fun r : list Q =>
                         Z.eqb (Qnum (nth 3 r 0) mod Zpos (Qden (nth 3 r 0)))
                           0)
                flat_rows = true) by (vm_compute; reflexivity).
  rewrite forallb_forall in H.
  apply Forall_forall. intros r Hr. apply list_elem_of_In in Hr.
  apply H in Hr. apply Z.eqb_eq in Hr.
  destruct (nth 3 r 0) as [n d]. cbn [Qnum Qden] in *.
  exists (n / Zpos d)%Z.
  unfold Qeq. cbn [Qnum Qden inject_Z].
  apply Z.div_exact in Hr; lia.
Qed.

(** The defect C6 points at does not hinge on the partition: whichever
    forty rows of the flat history form the training part, the mean of
    [Close] over them is not the scaler's mean of [Close]. *)
Lemma training_part_mean_differs (train : list nat) (s t : StandardScaler)
    (a b : Q) :
  length (pick flat_rows train) = 40%nat ->
  scaler_fit feature_columns flat_rows = Some s ->
  scaler_fit feature_columns (pick flat_rows train) = Some t ->
  mean_ s !! 3%nat = Some a ->
  mean_ t !! 3%nat = Some b ->
  ~ a == b.
Proof.
  intros Hlen Hs Ht Ha Hb.
  assert (Ea : a = 5001 # 50).
  { assert (E : (s' ← scaler_fit feature_columns flat_rows; mean_ s' !! 3%nat)
                = Some (5001 # 50)) by (vm_compute; reflexivity).
    rewrite Hs in E. cbn [mbind option_bind] in E. congruence. }
  destruct (scaler_fit_parameters _ _ _ Ht) as [_ Hpar].
  destruct (Hpar 3%nat) as [Hmean _]; [cbn; lia|].
  rewrite Hmean in Hb. injection Hb as <-.
  destruct (Qsum_integral (column_values (pick flat_rows train) 3))
    as [K HK].
  { unfold column_values. apply Forall_forall. intros x Hx.
    apply list_elem_of_In, in_map_iff in Hx as (r & <- & Hr).
    pose proof (pick_subset flat_rows train _ flat_closes_integral) as Hall.
    rewrite Forall_forall in Hall. apply Hall. now apply list_elem_of_In. }
  unfold Qmean, column_values. rewrite length_map, Hlen.
  unfold column_values in HK. rewrite HK, Ea.
  change (Z.of_nat 40) with 40%Z.
  unfold Qeq, Qdiv, Qmult, Qinv. cbn. lia.
Qed.

(** Training on fewer than 50 usable rows fails with "Insufficient data
    for training" and leaves the predictor untrained: model, scaler and
    the trained flag are as before the call. *)
Theorem too_few_rows_is_insufficient_data (sk : Sklearn) (ta : TaLibrary)
    (history : string -> string -> string -> option frame)
    (self : StockPredictor sk) (symbol : string) (data labelled : frame) :
  history symbol "2y" "1d" = Some data ->
  Frame.empty data = false ->
  generate_labels (calculate_technical_indicators ta data) 1
  = Some labelled ->
  (len (prepare_features labelled).1 < 50)%nat ->
  exists self',
    train_model sk ta history self symbol = (self', inr InsufficientData)
    /\ is_trained self' = is_trained self
    /\ model self' = model self
    /\ scaler self' = scaler self.
Proof.
  intros Hdata Hempty Hlab Hlen.
  unfold train_model, download_stock_data. rewrite Hdata, Hempty, Hlab.
  destruct (generated_labels_exist _ _ _ (prepare_features labelled).1 Hlab)
    as [y Hy].
  unfold prepare_features in *. cbn [fst] in Hy, Hlen. rewrite Hy.
  apply Nat.ltb_lt in Hlen. rewrite Hlen.
  eexists. split; [reflexivity|]. cbn. auto.
Qed.

(** Three bars of history are not enough. *)
Lemma too_few_rows_is_insufficient_data_witness :
  exists self',
    train_model majority_classifier flat_indicators young_market
      (new_predictor majority_classifier) "AAPL"
    = (self', inr InsufficientData)
    /\ is_trained self' = false
    /\ model self' = None
    /\ scaler self' = None.
Proof.
  apply (too_few_rows_is_insufficient_data majority_classifier
           flat_indicators young_market
           (new_predictor majority_classifier) "AAPL" three_bars
           (default three_bars
              (generate_labels
                 (calculate_technical_indicators flat_indicators three_bars)
                 1))).
  - reflexivity.
  - vm_compute. reflexivity.
  - vm_compute. reflexivity.
  - vm_compute. lia.
Defined.

End TrainingRuns.

(** ** Prediction requests *)

Section ServerFacts.

Import Frame Indicators Training Forecast Server.

Context (env : Environment).

(** A trained predictor is not touched by a request. *)
Lemma predict_when_trained (self : StockPredictor (sk env))
    (g : generator (rt env)) (symbol : string) (days : Z) :
  is_trained self = true ->
  predict env self g symbol days
  = (self, predict_trained env self g symbol days).
Proof. unfold predict. now intros ->. Qed.

Lemma serve_when_trained (self : StockPredictor (sk env))
    (requests : list (request env)) :
  is_trained self = true ->
  serve env self requests
  = (self,
     map (fun q : request env =>
            predict_trained env self q.1.1 q.1.2 q.2) requests).
Proof.
  intros Htrained.
  induction requests as [|[[g symbol] days] rest IH]; [reflexivity|].
  cbn [serve]. rewrite (predict_when_trained _ _ _ _ Htrained), IH.
  reflexivity.
Qed.

(** C4, as the code has it.  The process has one predictor and one
    model, not one per symbol.  When the first request of a process
    succeeds, its symbol is the one the model was trained on (the
    training ran inside that request, on that symbol's two-year
    history); every later request, whatever its symbol, leaves the
    predictor as it is and is answered from that same model and
    scaler. *)
Theorem C4_one_model_for_every_symbol (g0 : generator (rt env))
    (symbol0 : string) (days0 : Z) (trained : StockPredictor (sk env))
    (r0 : result) (later : list (request env)) :
  predict env (predictor env) g0 symbol0 days0 = (trained, inl r0) ->
  (exists rep,
      train_model (sk env) (ta env) (history env) (predictor env) symbol0
      = (trained, inl rep))
  /\ is_trained trained = true
  /\ predict_trained env trained g0 symbol0 days0 = inl r0
  /\ serve env trained later
     = (trained,
        map (fun q : request env =>
               predict_trained env trained q.1.1 q.1.2 q.2) later).
Proof.
  unfold predict. cbn [predictor new_predictor is_trained].
  destruct (train_model _ _ _ _ symbol0) as [self [rep|e]] eqn:Htrain;
    [|discriminate].
  intros H. injection H as -> Hr0.
  destruct (train_model_success _ _ _ _ _ _ _ Htrain)
    as (? & ? & ? & ? & ? & ? & ? & ? & _ & _ & _ & _ & _ & _ & _ & _ & _
        & Hself).
  assert (Htrained : is_trained trained = true) by now rewrite Hself.
  split; [now exists rep|]. split; [exact Htrained|]. split; [exact Hr0|].
  now apply serve_when_trained.
Qed.

Lemma first_row_cell (latest : frame) (col : string) (v : float64) :
  first_row latest !! col = Some v ->
  has_column latest col = true /\ cell latest col 0 = v.
Proof.
  unfold first_row, has_column, cell, get_column.
  rewrite lookup_omap.
  destruct (columns latest !! col) as [c|]; [|discriminate].
  cbn. intros H. split; [reflexivity|].
  destruct (as_floats c) as [|x xs]; [discriminate|].
  cbn in *. congruence.
Qed.

(** An undefined value in the latest row does not reach the fusion step
    of a request: a latest row with a NaN in one of the feature columns
    is dropped by [prepare_features], and the request ends with the
    error "Failed to prepare features for prediction". *)
Lemma undefined_latest_value_is_rejected (self : StockPredictor (sk env))
    (g : generator (rt env)) (symbol : string) (days : Z) (data : frame)
    (col : string) :
  history env symbol "6mo" "1d" = Some data ->
  Frame.empty data = false ->
  col ∈ feature_columns ->
  first_row (tail1 (calculate_technical_indicators (ta env) data)) !! col
  = Some NaN ->
  predict_trained env self g symbol days = inr FeaturePreparationFailed.
Proof.
  intros Hdata Hempty Hcol Hnan.
  unfold predict_trained, download_stock_data. rewrite Hdata, Hempty.
  set (latest := tail1 (calculate_technical_indicators (ta env) data)) in *.
  destruct (first_row_cell latest col NaN Hnan) as [Hhas Hcell].
  unfold prepare_features.
  set (available := filter _ feature_columns).
  assert (Hav : col ∈ available)
    by (apply list_elem_of_filter; split; [exact Hhas|exact Hcol]).
  assert (Hrows : rows (select_dropna latest available) = []).
  { unfold select_dropna. cbn [rows].
    assert (Hn : (nrows latest <= 1)%nat)
      by (unfold latest, tail1; cbn [nrows]; lia).
    destruct (nrows latest) as [|[|n]]; [reflexivity| |lia].
    cbn [seq map]. rewrite filter_cons_False; [reflexivity|].
    cbn [snd]. intros Hall. rewrite forallb_forall in Hall.
    assert (Hin : In NaN (map (fun n => cell latest n 0) available)).
    { apply in_map_iff. exists col. split; [exact Hcell|].
      now apply list_elem_of_In. }
    specialize (Hall NaN Hin). discriminate. }
  unfold matrix_empty, len. rewrite Hrows. reflexivity.
Qed.

End ServerFacts.

(** ** A process asked for two symbols *)

Section ServerRuns.

Import Frame Indicators Training Forecast Server Scenario.

(** The first request of a process asks for AAPL and succeeds. *)
Lemma C4_one_model_for_every_symbol_witness :
  (exists rep,
      train_model (sk environment) (ta environment) (history environment)
        (predictor environment) "AAPL"
      = (first_request.1, inl rep))
  /\ is_trained first_request.1 = true
  /\ predict_trained environment first_request.1 0%Z "AAPL" 3
     = inl first_result
  /\ serve environment first_request.1 [(1%Z, "MSFT", 5%Z)]
     = (first_request.1,
        map (fun q : request environment =>
               predict_trained environment first_request.1 q.1.1 q.1.2 q.2)
            [(1%Z, "MSFT", 5%Z)]).
Proof.
  apply (C4_one_model_for_every_symbol environment 0%Z "AAPL" 3
           first_request.1 first_result [(1%Z, "MSFT", 5%Z)]).
  vm_compute. reflexivity.
Defined.

(** C4 fails as stated.  A process is asked for AAPL and then for MSFT.
    Its model after both requests is the one trained on AAPL's history
    (forty Hold labels); MSFT's history would have trained another
    model (thirty Buy and ten Hold labels), as it does in a process
    whose first request is for MSFT.  The MSFT request is answered from
    the AAPL model: its signal confidence is 0.700, against 0.575 from
    the model trained on MSFT. *)
Lemma C4_model_of_another_symbol_is_reused :
  model aapl_then_msft.1 = model first_request.1
  /\ model first_request.1 = Some (replicate 40 0%Z)
  /\ model msft_first.1 = Some (replicate 30 1%Z ++ replicate 10 0%Z)%list
  /\ aapl_then_msft.2 !! 1%nat
     = Some (predict_trained environment first_request.1 0%Z "MSFT" 3)
  /\ (aapl_then_msft.2 !! 1%nat ≫= confidence_of) = Some (700 # 1000)
  /\ confidence_of msft_first.2 = Some (575 # 1000).
Proof.
  split; [vm_compute; reflexivity|].
  split; [vm_compute; reflexivity|].
  split; [vm_compute; reflexivity|].
  split; [vm_compute; reflexivity|].
  split; vm_compute; reflexivity.
Qed.

(** With an RSI that is undefined on the latest bar the request is
    rejected before the fusion step. *)
Lemma undefined_latest_value_is_rejected_witness :
  predict_trained warming_environment (new_predictor majority_classifier)
    0%Z "AAPL" 3
  = inr FeaturePreparationFailed.
Proof.
  apply (undefined_latest_value_is_rejected warming_environment
           (new_predictor majority_classifier) 0%Z "AAPL" 3
           (ohlcv flat_close) "RSI").
  - reflexivity.
  - vm_compute. reflexivity.
  - decide_closed.
  - vm_compute. reflexivity.
Defined.

End ServerRuns.

(** ** The forecast loop *)

Section ForecastFacts.

Import Forecast.

Context (rt : Runtime).

Implicit Types (symbol today : string) (days day : Z)
  (st : loop_state rt).

(** An iteration reads the price and the list of points it is entered
    with, and nothing of the generator state: it seeds before it
    draws. *)
Lemma loop_body_reseeds symbol today trend vol conf st (g : generator rt)
    day :
  loop_body rt symbol today trend vol conf
    {| base_price := base_price rt st;
       np_random := g;
       predictions := predictions rt st |} day
  = loop_body rt symbol today trend vol conf st day.
Proof. reflexivity. Qed.

Lemma loop_body_predictions symbol today trend vol conf st day :
  exists p,
    predictions rt (loop_body rt symbol today trend vol conf st day)
    = (predictions rt st ++ [p])%list
    /\ Forecast.day p = day
    /\ confidence p = Qround_digits (day_confidence conf day) 3.
Proof.
  unfold loop_body.
  destruct (np_random_normal rt _ 0 vol) as [v g].
  eexists. cbn. split; [reflexivity|]. split; reflexivity.
Qed.

(** The loop appends one point per day, in order, to the list it is
    entered with. *)
Lemma loop_appends symbol today trend vol conf (l : list Z) st :
  exists ps,
    predictions rt
      (fold_left (loop_body rt symbol today trend vol conf) l st)
    = (predictions rt st ++ ps)%list
    /\ map Forecast.day ps = l
    /\ map confidence ps
       = map (fun d => Qround_digits (day_confidence conf d) 3) l.
Proof.
  revert st. induction l as [|d l IH]; intros st; simpl.
  - exists []. now rewrite app_nil_r.
  - destruct (IH (loop_body rt symbol today trend vol conf st d))
      as (ps & Hps & Hday & Hconf).
    destruct (loop_body_predictions symbol today trend vol conf st d)
      as (p & Hp & Hpd & Hpc).
    exists (p :: ps). rewrite Hps, Hp, <- app_assoc.
    split; [reflexivity|].
    split; [now rewrite <- Hday, <- Hpd|].
    change (map confidence (p :: ps))
      with (confidence p :: map confidence ps).
    now rewrite Hpc, Hconf.
Qed.

Lemma forecast_days_confidences (g : generator rt) symbol today
    (signal : Z) (conf : Q) (price : float64) days :
  map Forecast.day (forecast rt g symbol today signal conf price days)
  = day_range days
  /\ map confidence (forecast rt g symbol today signal conf price days)
     = map (fun d => Qround_digits (day_confidence conf d) 3)
         (day_range days).
Proof.
  unfold forecast, simulate, seed. cbn [base_price predictions].
  destruct (trend_and_volatility signal) as [trend vol].
  destruct (loop_appends symbol today trend vol conf (day_range days)
              {| base_price := price;
                 np_random := np_random_seed rt
                   (py_hash rt (symbol +:+ "_" +:+ today) mod 2 ^ 32)%Z;
                 predictions := [] |})
    as (ps & -> & Hd & Hc).
  now split.
Qed.

(** The forecast has exactly as many points as the horizon asks for. *)
Lemma forecast_length (g : generator rt) symbol today (signal : Z)
    (conf : Q) (price : float64) days :
  length (forecast rt g symbol today signal conf price days)
  = Z.to_nat days.
Proof.
  destruct (forecast_days_confidences g symbol today signal conf price
              days) as [Hd _].
  apply (f_equal (@length Z)) in Hd.
  rewrite length_map in Hd. rewrite Hd.
  unfold day_range. now rewrite length_map, length_seq.
Qed.

End ForecastFacts.

(** ** Confidence decay *)

Section ConfidenceDecayFacts.

Import Forecast.

Context (rt : Runtime).









End ConfidenceDecayFacts.

(** ** Determinism of the forecast *)

Section DeterminismFacts.

Import Forecast.

Context (rt : Runtime).

Lemma day_range_bounds (days d : Z) :
  In d (day_range days) -> (1 <= d <= days)%Z.
Proof.
  unfold day_range. rewrite in_map_iff. intros (k & <- & Hk).
  apply in_seq in Hk. lia.
Qed.

(** From a starting price of zero every point is priced zero: the date
    and the draws do not show. *)
Lemma zero_price_loop (symbol today : string) (trend vol conf : Q)
    (l : list Z) (st : loop_state rt) (q : Q) :
  base_price rt st = Fin q -> q == 0 ->
  exists ps,
    predictions rt
      (fold_left (loop_body rt symbol today trend vol conf) l st)
    = (predictions rt st ++ ps)%list
    /\ map predicted_price ps = map (fun _ => Fin (0 # 100)) l.
Proof.
  revert st q. induction l as [|d l IH]; intros st q Hst Hq.
  - exists []. now rewrite app_nil_r.
  - cbn [fold_left].
    set (st' := loop_body rt symbol today trend vol conf st d).
    assert (Hst' : exists q' p,
               base_price rt st' = Fin q' /\ q' == 0
               /\ predictions rt st' = (predictions rt st ++ [p])%list
               /\ predicted_price p = Fin (0 # 100)).
    { unfold st', loop_body, seed. cbn [np_random base_price predictions].
      destruct (np_random_normal rt _ 0 vol) as [v h].
      cbn [base_price predictions]. rewrite Hst. cbn [mul].
      eexists _, _. split; [reflexivity|].
      assert (E : q * (1 + (trend
                            * (np_sin rt (inject_Z d * (1 # 10)) * (3 # 10)
                               + (7 # 10)) + v)) == 0)
        by (rewrite Hq; ring).
      split; [exact E|]. split; [reflexivity|].
      cbn [predicted_price]. now apply round_zero_cents. }
    destruct Hst' as (q' & p & Hb & Hq' & Hp & Hpp).
    destruct (IH st' q' Hb Hq') as (ps & Hps & Hprices).
    exists (p :: ps). rewrite Hps, Hp, <- app_assoc.
    split; [reflexivity|].
    change (map predicted_price (p :: ps))
      with (predicted_price p :: map predicted_price ps).
    now rewrite Hpp, Hprices.
Qed.

Lemma zero_price_forecast (g : generator rt) (symbol today : string)
    (signal : Z) (conf : Q) (days : Z) :
  map predicted_price
    (forecast rt g symbol today signal conf (Fin 0) days)
  = map (fun _ => Fin (0 # 100)) (day_range days).
Proof.
  unfold forecast, simulate, seed. cbn [base_price predictions].
  destruct (trend_and_volatility signal) as [trend vol].
  destruct (zero_price_loop symbol today trend vol conf (day_range days)
              {| base_price := Fin 0;
                 np_random :=
                   np_random_seed rt
                     (py_hash rt (symbol +:+ "_" +:+ today) mod 2 ^ 32)%Z;
                 predictions := [] |} 0 eq_refl (Qeq_refl 0))
    as (ps & -> & Hps).
  exact Hps.
Qed.

End DeterminismFacts.

(** ** Forecasts of the scenario runtime *)

Section ForecastRuns.

Import Forecast Scenario.



End ForecastRuns.

(** ** The decision table of signal fusion *)

Section FusionTableFacts.

Import Fusion FusionRanges Scenario.

Lemma rsi_score_range (i : indicators) : sub_score (rsi_score i).
Proof.
  unfold sub_score, rsi_score.
  destruct (ltb _ _); [auto|]. destruct (gtb _ _); auto.
Qed.

Lemma macd_score_range (i : indicators) : sub_score (macd_score i).
Proof.
  unfold sub_score, macd_score.
  destruct (_ && _); [auto|]. destruct (_ && _); auto.
Qed.

Lemma trend_score_range (i : indicators) : sub_score (trend_score i).
Proof.
  unfold sub_score, trend_score.
  destruct (_ && _); [auto|]. destruct (_ && _); auto.
Qed.

Lemma bollinger_score_range (i : indicators) : sub_score (bollinger_score i).
Proof.
  unfold sub_score, bollinger_score.
  destruct (leb _ _); [auto|]. destruct (geb _ _); auto.
Qed.

(** The four sub-scores add up to a whole number between -4 and 4. *)
Lemma signal_scores_sum (i : indicators) :
  (-4 <= sum_Z (signal_scores i) <= 4)%Z.
Proof.
  unfold signal_scores, sum_Z. cbn [fold_right].
  pose proof (rsi_score_range i) as H1.
  pose proof (macd_score_range i) as H2.
  pose proof (trend_score_range i) as H3.
  pose proof (bollinger_score_range i) as H4.
  unfold sub_score in *. lia.
Qed.

(** The combined signal of four sub-scores with sum [k], in twentieths. *)
Lemma combined_signal_twentieths (l : list Z) (m : Z) :
  length l = 4%nat ->
  combined_signal (combine l m) == inject_Z (3 * sum_Z l + 8 * m) / 20.
Proof.
  intros Hl. unfold combine, np_mean. cbn [combined_signal]. rewrite Hl.
  change (inject_Z (Z.of_nat 4)) with (4 # 1).
  rewrite inject_Z_plus, !inject_Z_mult.
  change (inject_Z 3) with (3 # 1). change (inject_Z 8) with (8 # 1).
  field.
Qed.

Lemma technical_signal_quarters (l : list Z) (m : Z) :
  length l = 4%nat ->
  technical_signal (combine l m) == inject_Z (sum_Z l) / 4.
Proof.
  intros Hl. unfold combine, np_mean. cbn [technical_signal]. now rewrite Hl.
Qed.

(** The decision of four sub-scores with sum [k] and prediction [m]:
    Buy exactly when 3k + 8m >= 10, Sell exactly when 3k + 8m <= -10. *)
Lemma final_signal_integers (l : list Z) (m : Z) :
  length l = 4%nat ->
  (final_signal (combine l m) = 1%Z <-> (10 <= 3 * sum_Z l + 8 * m)%Z)
  /\ (final_signal (combine l m) = (-1)%Z
      <-> (3 * sum_Z l + 8 * m <= -10)%Z)
  /\ (final_signal (combine l m) = 0%Z
      <-> (-10 < 3 * sum_Z l + 8 * m < 10)%Z).
Proof.
  intros Hl.
  pose proof (combined_signal_twentieths l m Hl) as Hc.
  set (z := (3 * sum_Z l + 8 * m)%Z) in *.
  assert (Hf : final_signal (combine l m)
               = if Qle_bool (1 # 2) (combined_signal (combine l m)) then 1%Z
                 else if Qle_bool (combined_signal (combine l m)) (- (1 # 2))
                      then (-1)%Z else 0%Z) by reflexivity.
  rewrite Hf. clear Hf.
  assert (Hbuy : Qle_bool (1 # 2) (combined_signal (combine l m)) = true
                 <-> (10 <= z)%Z).
  { rewrite Qle_bool_iff, Hc.
    unfold Qle, Qdiv, Qmult, Qinv, inject_Z. cbn. lia. }
  assert (Hsell : Qle_bool (combined_signal (combine l m)) (- (1 # 2)) = true
                  <-> (z <= -10)%Z).
  { rewrite Qle_bool_iff, Hc.
    unfold Qle, Qdiv, Qmult, Qinv, inject_Z. cbn. lia. }
  destruct (Qle_bool (1 # 2) _) eqn:E1.
  - assert (10 <= z)%Z by now apply Hbuy.
    repeat split; intros; try discriminate; try lia.
  - assert (~ (10 <= z)%Z) by (rewrite <- Hbuy; discriminate).
    destruct (Qle_bool _ (- (1 # 2))) eqn:E2.
    + assert (z <= -10)%Z by now apply Hsell.
      repeat split; intros; try discriminate; try lia.
    + assert (~ (z <= -10)%Z) by (rewrite <- Hsell; discriminate).
      repeat split; intros; try discriminate; try lia.
Qed.

(** With a close in the latest row and a prediction of -1, 0 or 1, the
    decision follows from the prediction [m] and the sum [k] of the four
    sub-scores: Buy exactly when [m = 1] and [k >= 1], or [m = 0] and all
    four sub-scores are 1; Sell exactly when [m = -1] and [k <= -1], or
    [m = 0] and all four are -1.  The technical rules never overrule a
    classifier that votes the other way. *)
Theorem fusion_decision_table (r : row) (price : float64) (m : Z)
    (p0 : Q) (ps : list Q) :
  r !! "Close" = Some price ->
  sub_score m ->
  exists i conf d,
    extract_indicators r = Some i
    /\ get_enhanced_signal r m (p0 :: ps)
       = Some (final_signal (combine (signal_scores i) m), conf, Some d)
    /\ (-4 <= sum_Z (signal_scores i) <= 4)%Z
    /\ (final_signal (combine (signal_scores i) m) = 1%Z
        <-> (m = 1%Z /\ (1 <= sum_Z (signal_scores i))%Z)
            \/ (m = 0%Z /\ sum_Z (signal_scores i) = 4%Z))
    /\ (final_signal (combine (signal_scores i) m) = (-1)%Z
        <-> (m = (-1)%Z /\ (sum_Z (signal_scores i) <= -1)%Z)
            \/ (m = 0%Z /\ sum_Z (signal_scores i) = (-4)%Z))
    /\ (final_signal (combine (signal_scores i) m) = 1%Z -> (0 <= m)%Z)
    /\ (final_signal (combine (signal_scores i) m) = (-1)%Z -> (m <= 0)%Z).
Proof.
  intros HClose Hm.
  destruct (get_enhanced_signal_body r price m p0 ps HClose)
    as (i & conf & Hi & _ & Hres).
  exists i, conf. eexists. split; [exact Hi|]. split; [exact Hres|].
  pose proof (signal_scores_sum i) as Hk.
  destruct (final_signal_integers (signal_scores i) m eq_refl)
    as (Hbuy & Hsell & _).
  unfold sub_score in Hm.
  split; [exact Hk|]. rewrite Hbuy, Hsell.
  repeat split; intros; lia.
Qed.

(** Neutral indicators and a Buy prediction with probability 0.7. *)
Lemma fusion_decision_table_witness :
  exists i conf d,
    extract_indicators warming_up_row = Some i
    /\ get_enhanced_signal warming_up_row 1 [1 # 10; 2 # 10; 7 # 10]
       = Some (final_signal (combine (signal_scores i) 1), conf, Some d)
    /\ (-4 <= sum_Z (signal_scores i) <= 4)%Z
    /\ (final_signal (combine (signal_scores i) 1) = 1%Z
        <-> (1%Z = 1%Z /\ (1 <= sum_Z (signal_scores i))%Z)
            \/ (1%Z = 0%Z /\ sum_Z (signal_scores i) = 4%Z))
    /\ (final_signal (combine (signal_scores i) 1) = (-1)%Z
        <-> (1%Z = (-1)%Z /\ (sum_Z (signal_scores i) <= -1)%Z)
            \/ (1%Z = 0%Z /\ sum_Z (signal_scores i) = (-4)%Z))
    /\ (final_signal (combine (signal_scores i) 1) = 1%Z -> (0 <= 1)%Z)
    /\ (final_signal (combine (signal_scores i) 1) = (-1)%Z -> (1 <= 0)%Z).
Proof.
  apply (fusion_decision_table warming_up_row (Fin 100) 1 (1 # 10)
           [2 # 10; 7 # 10]).
  - reflexivity.
  - right. right. reflexivity.
Defined.

Lemma fused_confidence_value (t : Q) (m : Z) (p : list Q) (c : Q) :
  fused_confidence t m p = Some c ->
  exists mx,
    np_max p = Some mx
    /\ c = mx * (1 # 2) + Qabs t * (3 # 10) + agreement t m * (2 # 10).
Proof.
  unfold fused_confidence. destruct (np_max p) as [mx|]; [|discriminate].
  intros H. exists mx. split; [reflexivity|]. congruence.
Qed.

Lemma agreement_values (t : Q) (m : Z) :
  agreement t m = 1 \/ agreement t m = 1 # 2.
Proof. unfold agreement. destruct (Qle_bool _ _); auto. Qed.

(** The ranges of a fused signal.  With a close in the latest row, a
    prediction of -1, 0 or 1 and probabilities between 0 and 1, the
    decision is -1, 0 or 1, the technical and the combined signal lie
    between -1 and 1, and the confidence lies between 0.1 and 1. *)
Theorem fusion_result_ranges (r : row) (price : float64) (m : Z)
    (p0 : Q) (ps : list Q) :
  r !! "Close" = Some price ->
  sub_score m ->
  Forall (fun p => 0 <= p /\ p <= 1) (p0 :: ps) ->
  exists f conf d,
    get_enhanced_signal r m (p0 :: ps) = Some (f, conf, Some d)
    /\ sub_score f
    /\ d_ml_signal d = m
    /\ (- (1) <= d_technical_signal d /\ d_technical_signal d <= 1)
    /\ (- (1) <= d_combined_signal d /\ d_combined_signal d <= 1)
    /\ (1 # 10 <= conf /\ conf <= 1).
Proof.
  intros HClose Hm Hp.
  destruct (get_enhanced_signal_body r price m p0 ps HClose)
    as (i & conf & Hi & Hconf & Hres).
  eexists _, conf, _. split; [exact Hres|].
  pose proof (signal_scores_sum i) as Hk.
  pose proof (technical_signal_quarters (signal_scores i) m eq_refl) as Ht.
  pose proof (combined_signal_twentieths (signal_scores i) m eq_refl) as Hc.
  destruct (final_signal_integers (signal_scores i) m eq_refl)
    as (Hbuy & Hsell & Hhold).
  set (k := sum_Z (signal_scores i)) in *.
  set (d := combine (signal_scores i) m) in *.
  cbn [d_ml_signal d_technical_signal d_combined_signal].
  assert (Hkq : - (4) <= inject_Z k /\ inject_Z k <= 4).
  { change (- (4)) with (inject_Z (-4)). change 4 with (inject_Z 4).
    rewrite <- !Zle_Qle. lia. }
  assert (Hmq : - (1) <= inject_Z m /\ inject_Z m <= 1).
  { change (- (1)) with (inject_Z (-1)). change 1 with (inject_Z 1).
    rewrite <- !Zle_Qle. unfold sub_score in Hm. lia. }
  assert (Htr : - (1) <= technical_signal d /\ technical_signal d <= 1).
  { rewrite Ht. unfold Qdiv. change (/ 4) with (1 # 4). split; lra. }
  split.
  { unfold sub_score.
    destruct (Z.le_gt_cases 10 (3 * k + 8 * m)) as [H|H];
      [right; right; now apply Hbuy|].
    destruct (Z.le_gt_cases (3 * k + 8 * m) (-10)) as [H'|H'];
      [left; now apply Hsell|].
    right; left. apply Hhold. lia. }
  split; [reflexivity|]. split; [exact Htr|].
  split.
  { rewrite Hc, inject_Z_plus, !inject_Z_mult.
    change (inject_Z 3) with 3. change (inject_Z 8) with 8.
    unfold Qdiv. change (/ 20) with (1 # 20). split; lra. }
  destruct (fused_confidence_value _ _ _ _ Hconf) as (mx & Hmx & ->).
  destruct (np_max_spec p0 ps) as (mx' & Hmx' & Hin & _).
  assert (mx' = mx) by congruence. subst mx'.
  rewrite Forall_forall in Hp.
  assert (Hmxr : 0 <= mx /\ mx <= 1).
  { apply Hp. now apply list_elem_of_In. }
  assert (Habs : 0 <= Qabs (technical_signal d) /\ Qabs (technical_signal d) <= 1).
  { split; [apply Qabs_nonneg|]. apply Qabs_Qle_condition. exact Htr. }
  destruct (agreement_values (technical_signal d) m) as [-> | ->];
    split; lra.
Qed.

(** The scenario of the specification. *)
Lemma fusion_result_ranges_witness :
  exists f conf d,
    get_enhanced_signal bullish_row 1 bullish_proba = Some (f, conf, Some d)
    /\ sub_score f
    /\ d_ml_signal d = 1%Z
    /\ (- (1) <= d_technical_signal d /\ d_technical_signal d <= 1)
    /\ (- (1) <= d_combined_signal d /\ d_combined_signal d <= 1)
    /\ (1 # 10 <= conf /\ conf <= 1).
Proof.
  apply (fusion_result_ranges bullish_row (Fin 100) 1 (4 # 100)
           [6 # 100; 9 # 10]).
  - reflexivity.
  - right. right. reflexivity.
  - repeat constructor; vm_compute; discriminate.
Defined.

(** The fallback of the fusion step.  For a non-empty probability
    vector the breakdown is empty exactly when the latest row has no
    close, and the result is then the raw prediction with the largest
    probability.  With an empty probability vector the function raises,
    whatever the row. *)
Theorem fusion_falls_back_without_close (r : row) (m : Z) (p0 : Q)
    (ps : list Q) :
  exists mx,
    np_max (p0 :: ps) = Some mx
    /\ (r !! "Close" = None ->
        get_enhanced_signal r m (p0 :: ps) = Some (m, mx, None))
    /\ (forall f c,
          get_enhanced_signal r m (p0 :: ps) = Some (f, c, None) ->
          r !! "Close" = None)
    /\ get_enhanced_signal r m [] = None.
Proof.
  destruct (np_max_spec p0 ps) as (mx & Hmx & _).
  exists mx. split; [exact Hmx|]. split; [|split].
  - intros HClose.
    unfold get_enhanced_signal, enhanced_signal_body, extract_indicators.
    now rewrite HClose, Hmx.
  - intros f c Hres.
    destruct (r !! "Close") as [price|] eqn:HClose; [|reflexivity].
    destruct (get_enhanced_signal_body r price m p0 ps HClose)
      as (i & conf & _ & _ & Hbody).
    rewrite Hbody in Hres. discriminate.
  - unfold get_enhanced_signal, enhanced_signal_body, fused_confidence.
    destruct (extract_indicators r); reflexivity.
Qed.

(** The indicator columns that [get_enhanced_signal] reads. *)
Lemma column_or_absent (r : row) (col : string) (fallback : float64) :
  r !! col = None -> column_or r col fallback = fallback.
Proof. unfold column_or. now intros ->. Qed.

(** Without indicators there is no signal.  When the latest row has a
    close of at least one cent and none of the seven indicator columns,
    every sub-score is 0 and the decision is Hold for every prediction
    of -1, 0 or 1; the confidence is half the largest probability plus
    0.2.  (The bound keeps the close away from the smallest doubles,
    where the product of the close and 0.98 is rounded back to the
    close and the lower band is touched.) *)
Theorem no_indicators_means_hold (r : row) (price : Q) (m : Z) (p0 : Q)
    (ps : list Q) :
  r !! "Close" = Some (Fin price) ->
  1 # 100 <= price ->
  Forall (fun col => r !! col = None) indicator_columns ->
  sub_score m ->
  exists mx conf d,
    np_max (p0 :: ps) = Some mx
    /\ get_enhanced_signal r m (p0 :: ps) = Some (0%Z, conf, Some d)
    /\ d_technical_signal d == 0
    /\ conf == mx * (1 # 2) + (2 # 10).
Proof.
  intros HClose Hcent Hcols Hm.
  assert (Hprice : 0 < price) by lra.
  destruct (get_enhanced_signal_body r (Fin price) m p0 ps HClose)
    as (i & conf & Hi & Hconf & Hres).
  unfold indicator_columns in Hcols.
  repeat match goal with
         | H : Forall _ (_ :: _) |- _ =>
             apply Forall_cons in H; destruct H as [? H]
         end.
  unfold extract_indicators in Hi. rewrite HClose in Hi.
  rewrite !column_or_absent in Hi by assumption.
  injection Hi as <-.
  assert (Hscores : signal_scores
            {| rsi := Fin 50; macd := Fin 0; macd_signal := Fin 0;
               current_price := Fin price;
               sma_20 := Fin price; sma_50 := Fin price;
               bb_upper := Fin (price * (102 # 100));
               bb_lower := Fin (price * (98 # 100)) |}
          = [0%Z; 0%Z; 0%Z; 0%Z]).
  { unfold signal_scores, rsi_score, macd_score, trend_score,
      bollinger_score, gtb, geb, ltb, leb. cbn.
    assert (E1 : Qltb price price = false)
      by (apply Qltb_ge; apply Qle_refl).
    assert (E2 : Qle_bool price (price * (98 # 100)) = false)
      by (apply Qle_bool_false; lra).
    assert (E3 : Qle_bool (price * (102 # 100)) price = false)
      by (apply Qle_bool_false; lra).
    now rewrite E1, E2, E3. }
  rewrite Hscores in *.
  destruct (np_max_spec p0 ps) as (mx & Hmx & _).
  exists mx, conf. eexists. split; [exact Hmx|].
  assert (Hf : final_signal (combine [0%Z; 0%Z; 0%Z; 0%Z] m) = 0%Z).
  { apply (final_signal_integers [0%Z; 0%Z; 0%Z; 0%Z] m eq_refl).
    unfold sub_score in Hm. cbn. lia. }
  rewrite Hf in Hres. split; [exact Hres|].
  cbn [d_technical_signal].
  assert (Ht : technical_signal (combine [0%Z; 0%Z; 0%Z; 0%Z] m) == 0)
    by reflexivity.
  split; [exact Ht|].
  destruct (fused_confidence_value _ _ _ _ Hconf) as (mx' & Hmx' & ->).
  assert (mx' = mx) by congruence. subst mx'.
  set (t := technical_signal (combine [0%Z; 0%Z; 0%Z; 0%Z] m)) in *.
  assert (Ha : agreement t m = 1).
  { unfold agreement.
    assert (E : Qle_bool 0 (t * inject_Z m) = true)
      by (apply Qle_bool_iff; rewrite Ht; lra).
    now rewrite E. }
  rewrite Ha, Ht. change (Qabs 0) with 0. ring.
Qed.

(** A latest row that carries nothing but a close of 100. *)
Lemma no_indicators_means_hold_witness :
  exists mx conf d,
    np_max [1 # 3; 1 # 3; 1 # 3] = Some mx
    /\ get_enhanced_signal bare_row 1 [1 # 3; 1 # 3; 1 # 3]
       = Some (0%Z, conf, Some d)
    /\ d_technical_signal d == 0
    /\ conf == mx * (1 # 2) + (2 # 10).
Proof.
  apply (no_indicators_means_hold bare_row 100 1 (1 # 3) [1 # 3; 1 # 3]).
  - reflexivity.
  - discriminate.
  - repeat constructor.
  - right. right. reflexivity.
Defined.

End FusionTableFacts.

(** ** Labels and feature rows of one frame *)

Section LabelRowFacts.

Import Frame Labels Training Scenario.

Lemma shift_back_length (k : nat) (s : list float64) :
  length (shift_back k s) = length s.
Proof. unfold shift_back. rewrite length_app, length_drop, length_replicate. lia. Qed.

Lemma shift_back_lookup (k : nat) (s : list float64) (i : nat) :
  ((i + k < length s)%nat -> shift_back k s !! i = s !! (k + i)%nat)
  /\ ((length s - k <= i < length s)%nat -> shift_back k s !! i = Some NaN).
Proof.
  unfold shift_back. split; intros Hi.
  - rewrite lookup_app_l by (rewrite length_drop; lia).
    apply lookup_drop.
  - rewrite lookup_app_r by (rewrite length_drop; lia).
    rewrite length_drop. apply lookup_replicate_2. lia.
Qed.

Lemma price_change_length (future close : list float64) :
  length future = length close ->
  length (price_change future close) = length close.
Proof. intros H. unfold price_change. rewrite length_zip_with. lia. Qed.

Lemma price_change_undefined (future close : list float64) (i : nat) :
  future !! i = Some NaN -> (i < length close)%nat ->
  price_change future close !! i = Some NaN.
Proof.
  intros Hf Hi. unfold price_change. rewrite lookup_zip_with, Hf.
  destruct (lookup_lt_is_Some_2 close i Hi) as [c ->]. reflexivity.
Qed.

(** What [generate_labels] writes and what it leaves. *)
Lemma generate_labels_columns (data labelled : frame) (k : nat) :
  generate_labels data k = Some labelled ->
  exists close,
    get_column data "Close" = Some close
    /\ nrows labelled = nrows data
    /\ columns labelled
       = <["Signal" :=
             Ints (np_select
                     [ map (fun x => gtb x buy_threshold)
                         (price_change (shift_back k close) close);
                       map (fun x => ltb x sell_threshold)
                         (price_change (shift_back k close) close) ]
                     [1%Z; (-1)%Z] 0%Z
                     (length (price_change (shift_back k close) close)))]>
           (<["Price_Change" :=
                Floats (price_change (shift_back k close) close)]>
              (<["Future_Price" := Floats (shift_back k close)]>
                 (columns data))).
Proof.
  unfold generate_labels. intros H.
  destruct (get_column data "Close") as [close|]; [|discriminate].
  cbn [mbind option_bind] in H. injection H as <-.
  exists close. repeat split.
Qed.

(** The rows whose future close is not known.  [generate_labels] keeps
    the rows of the frame and every column but the three it writes.  The
    future price of row [i] is the close of row [i + days_ahead]; in the
    last [days_ahead] rows there is none: future price and price change
    are undefined there, and the label is 0 (Hold). *)
Theorem labels_of_unknown_future (data labelled : frame) (days_ahead : nat) :
  generate_labels data days_ahead = Some labelled ->
  exists close future change signal,
    get_column data "Close" = Some close
    /\ nrows labelled = nrows data
    /\ (forall col, col <> "Future_Price" -> col <> "Price_Change" ->
          col <> "Signal" -> columns labelled !! col = columns data !! col)
    /\ columns labelled !! "Future_Price" = Some (Floats future)
    /\ columns labelled !! "Price_Change" = Some (Floats change)
    /\ columns labelled !! "Signal" = Some (Ints signal)
    /\ length future = length close
    /\ length change = length close
    /\ length signal = length close
    /\ (forall i, (i + days_ahead < length close)%nat ->
          future !! i = close !! (days_ahead + i)%nat)
    /\ (forall i, (length close - days_ahead <= i < length close)%nat ->
          future !! i = Some NaN
          /\ change !! i = Some NaN
          /\ signal !! i = Some 0%Z).
Proof.
  intros H.
  destruct (generate_labels_columns _ _ _ H) as (close & Hclose & Hn & Hcols).
  set (future := shift_back days_ahead close) in *.
  set (change := price_change future close) in *.
  pose proof (shift_back_length days_ahead close) as Hlf. fold future in Hlf.
  pose proof (price_change_length future close Hlf) as Hlc. fold change in Hlc.
  eexists close, future, change, _.
  split; [exact Hclose|]. split; [exact Hn|]. rewrite Hcols.
  split.
  { intros col H1 H2 H3. now rewrite !lookup_insert_ne by congruence. }
  split.
  { rewrite !lookup_insert_ne by discriminate. apply lookup_insert_eq. }
  split.
  { rewrite lookup_insert_ne by discriminate. apply lookup_insert_eq. }
  split; [apply lookup_insert_eq|].
  split; [exact Hlf|]. split; [exact Hlc|].
  split.
  { unfold np_select. now rewrite length_map, length_seq. }
  split.
  { intros i Hi. now apply shift_back_lookup. }
  intros i Hi.
  assert (Hf : future !! i = Some NaN) by now apply shift_back_lookup.
  assert (Hc : change !! i = Some NaN)
    by (apply price_change_undefined; [exact Hf|lia]).
  split; [exact Hf|]. split; [exact Hc|].
  exact (np_select_lookup change i NaN Hc).
Qed.

(** Three bars, labelled one day ahead. *)
Lemma labels_of_unknown_future_witness :
  exists close future change signal,
    get_column three_bars "Close" = Some close
    /\ nrows three_bars_labelled = nrows three_bars
    /\ (forall col, col <> "Future_Price" -> col <> "Price_Change" ->
          col <> "Signal" ->
          columns three_bars_labelled !! col = columns three_bars !! col)
    /\ columns three_bars_labelled !! "Future_Price" = Some (Floats future)
    /\ columns three_bars_labelled !! "Price_Change" = Some (Floats change)
    /\ columns three_bars_labelled !! "Signal" = Some (Ints signal)
    /\ length future = length close
    /\ length change = length close
    /\ length signal = length close
    /\ (forall i, (i + 1 < length close)%nat ->
          future !! i = close !! (1 + i)%nat)
    /\ (forall i, (length close - 1 <= i < length close)%nat ->
          future !! i = Some NaN
          /\ change !! i = Some NaN
          /\ signal !! i = Some 0%Z).
Proof.
  apply (labels_of_unknown_future three_bars three_bars_labelled 1).
  vm_compute. reflexivity.
Defined.

(** The labels of the last rows, for the proofs below. *)
Lemma last_labels_are_hold (data labelled : frame) (k : nat) :
  generate_labels data k = Some labelled ->
  exists close signal,
    get_column data "Close" = Some close
    /\ nrows labelled = nrows data
    /\ (forall col, col <> "Future_Price" -> col <> "Price_Change" ->
          col <> "Signal" -> columns labelled !! col = columns data !! col)
    /\ columns labelled !! "Signal" = Some (Ints signal)
    /\ (forall i, (length close - k <= i < length close)%nat ->
          signal !! i = Some 0%Z)
    /\ length signal = length close.
Proof.
  intros H.
  destruct (generate_labels_columns _ _ _ H) as (close & Hclose & Hn & Hcols).
  set (future := shift_back k close) in *.
  set (change := price_change future close) in *.
  pose proof (shift_back_length k close) as Hlf. fold future in Hlf.
  pose proof (price_change_length future close Hlf) as Hlc. fold change in Hlc.
  eexists close, _. split; [exact Hclose|]. split; [exact Hn|].
  rewrite Hcols. split.
  { intros col H1 H2 H3. now rewrite !lookup_insert_ne by congruence. }
  split; [apply lookup_insert_eq|]. split.
  - intros i Hi.
    assert (Hf : future !! i = Some NaN) by now apply shift_back_lookup.
    assert (Hc : change !! i = Some NaN)
      by (apply price_change_undefined; [exact Hf|lia]).
    exact (np_select_lookup change i NaN Hc).
  - unfold np_select. now rewrite length_map, length_seq.
Qed.

Lemma filter_ext_in {A : Type} (P Q : A -> Prop)
    `{!forall x, Decision (P x)} `{!forall x, Decision (Q x)} (l : list A) :
  (forall x, x ∈ l -> P x <-> Q x) -> filter P l = filter Q l.
Proof.
  induction l as [|a l IH]; intros Hext; [reflexivity|].
  rewrite !filter_cons.
  assert (Ha : P a <-> Q a) by (apply Hext; left).
  rewrite IH by (intros x Hx; apply Hext; now right).
  destruct (decide (P a)), (decide (Q a)); tauto.
Qed.

(** Two frames with the same rows and the same feature columns give the
    same feature matrix. *)
Lemma prepare_features_ext (d d' : frame) :
  nrows d = nrows d' ->
  (forall col, col ∈ feature_columns -> columns d !! col = columns d' !! col) ->
  prepare_features d = prepare_features d'.
Proof.
  intros Hn Hcols. unfold prepare_features.
  assert (Hav : filter (fun col => has_column d col = true) feature_columns
                = filter (fun col => has_column d' col = true)
                    feature_columns).
  { apply filter_ext_in. intros col Hcol.
    unfold has_column. now rewrite (Hcols col Hcol). }
  rewrite Hav. set (available := filter _ feature_columns).
  f_equal. unfold select_dropna. rewrite Hn. f_equal. f_equal.
  apply map_ext. intros i. f_equal.
  apply map_ext_in. intros n Hin. apply list_elem_of_In in Hin.
  assert (Hf : n ∈ feature_columns)
    by (apply list_elem_of_filter in Hin; tauto).
  unfold cell, get_column. now rewrite (Hcols n Hf).
Qed.

Lemma label_columns_are_no_features (col : string) :
  col ∈ feature_columns ->
  col <> "Future_Price" /\ col <> "Price_Change" /\ col <> "Signal".
Proof.
  intros Hin.
  assert (H : ("Future_Price" ∉ feature_columns)
              /\ ("Price_Change" ∉ feature_columns)
              /\ ("Signal" ∉ feature_columns))
    by (repeat split; decide_closed).
  destruct H as (H1 & H2 & H3).
  repeat split; intros ->; contradiction.
Qed.

(** Labelling does not touch the features, and the rows without a
    known future stay in.  The feature matrix of the labelled frame is
    the feature matrix of the frame before labelling; every selected row
    has a label; and a selected row among the last [days_ahead] rows of
    the history carries the label 0. *)
Theorem unlabelled_future_rows_are_kept (data labelled : frame)
    (days_ahead : nat) :
  generate_labels data days_ahead = Some labelled ->
  prepare_features labelled = prepare_features data
  /\ exists close y,
       get_column data "Close" = Some close
       /\ labels_at labelled (fst (prepare_features data)) = Some y
       /\ length y = len (fst (prepare_features data))
       /\ forall j i r,
            rows (fst (prepare_features data)) !! j = Some (i, r) ->
            (length close - days_ahead <= i)%nat ->
            y !! j = Some 0%Z.
Proof.
  intros H.
  destruct (last_labels_are_hold data labelled days_ahead H)
    as (close & signal & Hclose & Hn & Hcols & Hsig & Hlast & Hls).
  assert (Hprep : prepare_features labelled = prepare_features data).
  { apply prepare_features_ext; [exact Hn|].
    intros col Hcol.
    destruct (label_columns_are_no_features col Hcol) as (H1 & H2 & H3).
    now apply Hcols. }
  split; [exact Hprep|].
  exists close. unfold labels_at. rewrite Hsig. eexists.
  split; [exact Hclose|]. split; [reflexivity|].
  split; [unfold len; now rewrite length_map|].
  intros j i r Hj Hi.
  change (@map (nat * list float64) Z)
    with (@fmap list _ (nat * list float64) Z).
  rewrite list_lookup_fmap, Hj. cbn. f_equal.
  destruct (Nat.lt_ge_cases i (length close)) as [Hlt|Hge].
  - apply nth_lookup_Some with (d := 0%Z). now apply Hlast.
  - apply nth_overflow. lia.
Qed.

(** Three bars, labelled one day ahead. *)
Lemma unlabelled_future_rows_are_kept_witness :
  prepare_features three_bars_labelled = prepare_features three_bars
  /\ exists close y,
       get_column three_bars "Close" = Some close
       /\ labels_at three_bars_labelled (fst (prepare_features three_bars))
          = Some y
       /\ length y = len (fst (prepare_features three_bars))
       /\ forall j i r,
            rows (fst (prepare_features three_bars)) !! j = Some (i, r) ->
            (length close - 1 <= i)%nat ->
            y !! j = Some 0%Z.
Proof.
  apply (unlabelled_future_rows_are_kept three_bars three_bars_labelled 1).
  vm_compute. reflexivity.
Defined.

End LabelRowFacts.

(** ** Feature selection and scaling *)

Section FeatureFacts.

Import Frame Indicators Labels Training Scenario Runs.

Context (sk : Sklearn).

(** What [prepare_features] selects.  The columns are those of the
    canonical list that the frame has, in the order of that list: a
    missing column is skipped, it does not raise.  The rows are those
    rows of the frame in which every selected column is defined, in the
    order of the frame, each with its position and its values in column
    order. *)
Theorem feature_rows (data : frame) :
  let X := fst (prepare_features data) in
  names X = snd (prepare_features data)
  /\ (forall col, col ∈ names X
                  <-> col ∈ feature_columns /\ has_column data col = true)
  /\ names X `sublist_of` feature_columns
  /\ map fst (rows X) `sublist_of` seq 0 (nrows data)
  /\ (forall i, (i < nrows data)%nat ->
        i ∈ map fst (rows X)
        <-> forall col, col ∈ names X -> cell data col i <> NaN)
  /\ (forall i r, (i, r) ∈ rows X ->
        r = map (fun col => cell data col i) (names X)).
Proof.
  unfold prepare_features. cbn [fst snd].
  set (available := filter _ feature_columns).
  unfold select_dropna. cbn [names rows].
  set (row := fun i : nat => (i, map (fun n => cell data n i) available)).
  set (complete := fun r : nat * list float64 =>
                     forallb (fun x => negb (isna x)) r.2 = true).
  split; [reflexivity|].
  split.
  { intros col. unfold available. rewrite list_elem_of_filter. tauto. }
  split; [apply sublist_filter|].
  split.
  { assert (E : fst <$> (row <$> seq 0 (nrows data)) = seq 0 (nrows data)).
    { apply list_eq. intros i. rewrite !list_lookup_fmap.
      now destruct (seq 0 (nrows data) !! i). }
    rewrite <- E at 2. apply fmap_sublist, sublist_filter. }
  assert (Hmem : forall i r,
            (i, r) ∈ filter complete (map row (seq 0 (nrows data)))
            <-> (i < nrows data)%nat
                /\ r = map (fun n => cell data n i) available
                /\ forall col, col ∈ available -> cell data col i <> NaN).
  { intros i r. rewrite list_elem_of_filter.
    change (map row) with (fmap (M := list) row).
    rewrite list_elem_of_fmap. unfold complete, row. cbn [snd].
    rewrite forallb_forall. split.
    - intros (Hall & i' & Heq & Hin). injection Heq as -> ->.
      apply elem_of_seq in Hin. split; [lia|]. split; [reflexivity|].
      intros col Hcol Hnan.
      assert (Hx : In NaN (map (fun n => cell data n i') available)).
      { apply in_map_iff. exists col. split; [exact Hnan|].
        now apply list_elem_of_In. }
      specialize (Hall NaN Hx). discriminate.
    - intros (Hi & -> & Hdef). split.
      + intros x Hx. apply in_map_iff in Hx as (col & <- & Hcol).
        apply list_elem_of_In in Hcol. specialize (Hdef col Hcol).
        destruct (cell data col i); [contradiction|..]; reflexivity.
      + exists i. split; [reflexivity|]. apply elem_of_seq. lia. }
  split.
  - intros i Hi.
    change (map fst) with (fmap (M := list) (@fst nat (list float64))).
    rewrite list_elem_of_fmap. split.
    + intros ([i' r] & -> & Hin). cbn [fst]. now apply Hmem in Hin.
    + intros Hdef. exists (row i). split; [reflexivity|].
      unfold row. apply Hmem. auto.
  - intros i r Hin. now apply Hmem in Hin.
Qed.

Lemma Qsum_centred (l : list Q) (m c : Q) :
  Qsum (map (fun x => (x - m) * c) l)
  == (Qsum l - inject_Z (Z.of_nat (length l)) * m) * c.
Proof.
  induction l as [|x l IH].
  - cbn. ring.
  - cbn [map Qsum fold_right length]. fold (Qsum (map (fun x => (x - m) * c) l)).
    fold (Qsum l). rewrite IH.
    rewrite Nat2Z.inj_succ. unfold Z.succ. rewrite inject_Z_plus.
    change (inject_Z 1) with 1. ring.
Qed.

(** A centred list has mean zero, whatever it is scaled by. *)
Lemma Qmean_centred (l : list Q) (sc : Q) :
  l <> [] ->
  Qmean (map (fun x => (x - Qmean l) / sc) l) == 0.
Proof.
  intros Hl. unfold Qmean at 1. rewrite length_map.
  unfold Qdiv at 2.
  rewrite (Qsum_centred l (Qmean l) (/ sc)).
  assert (Hn : ~ inject_Z (Z.of_nat (length l)) == 0).
  { destruct l as [|x l]; [contradiction|].
    cbn [length]. rewrite Nat2Z.inj_succ. unfold Z.succ.
    rewrite inject_Z_plus. change (inject_Z 1) with 1.
    assert (0 <= inject_Z (Z.of_nat (length l))).
    { change 0 with (inject_Z 0). rewrite <- Zle_Qle. lia. }
    lra. }
  assert (E : Qsum l - inject_Z (Z.of_nat (length l)) * Qmean l == 0)
    by (unfold Qmean; field; exact Hn).
  rewrite E. unfold Qdiv. ring.
Qed.

Lemma scale_row_lookup (s : StandardScaler) (r : list Q) (j : nat)
    (x m v : Q) :
  r !! j = Some x -> mean_ s !! j = Some m -> var_ s !! j = Some v ->
  nth j (scale_row sk s r) 0 = (x - m) / scale_of sk v.
Proof.
  intros Hx Hm Hv. apply nth_lookup_Some.
  unfold scale_row. rewrite lookup_zip_with, Hx. cbn [mbind option_bind].
  rewrite lookup_zip_with, Hm. cbn [mbind option_bind]. rewrite Hv.
  reflexivity.
Qed.

(** What [fit_transform] returns. *)
Lemma scaler_fit_transform_success (X : matrix) (s : StandardScaler)
    (X_scaled : list (list Q)) :
  scaler_fit_transform sk X = Some (s, X_scaled) ->
  exists raw,
    finite_rows X = Some raw
    /\ scaler_fit (names X) raw = Some s
    /\ X_scaled = map (scale_row sk s) raw.
Proof.
  unfold scaler_fit_transform.
  destruct (finite_rows X) as [raw|]; [|discriminate].
  cbn [mbind option_bind].
  destruct (scaler_fit (names X) raw) as [s'|] eqn:Hfit; [|discriminate].
  cbn [mbind option_bind]. intros H. injection H as <- <-.
  now exists raw.
Qed.

(** Scaling at training time and at prediction time.  The scaler that
    [fit_transform] fits on a matrix remembers the columns of the
    matrix, and its [transform] maps the matrix to the rows that
    [fit_transform] returned, one for each row of the matrix; on a
    matrix with other columns [transform] raises, and so it does while
    the scaler is not fitted. *)
Theorem transform_repeats_the_fit (X : matrix) (s : StandardScaler)
    (X_scaled : list (list Q)) :
  scaler_fit_transform sk X = Some (s, X_scaled) ->
  scaler_transform sk (Some s) X = Some X_scaled
  /\ feature_names_in_ s = names X
  /\ length X_scaled = len X
  /\ (forall X', names X' <> names X -> scaler_transform sk (Some s) X' = None)
  /\ (forall X', scaler_transform sk None X' = None).
Proof.
  intros H.
  destruct (scaler_fit_transform_success _ _ _ H) as (raw & Hraw & Hfit & ->).
  destruct (scaler_fit_parameters _ _ _ Hfit) as [Hnames _].
  unfold scaler_transform. cbn [mbind option_bind].
  split.
  { rewrite bool_decide_eq_true_2 by now rewrite Hnames.
    now rewrite Hraw. }
  split; [exact Hnames|].
  split.
  { rewrite length_map. symmetry. exact (length_mapM _ _ _ Hraw). }
  split; [|reflexivity].
  intros X' Hne. rewrite bool_decide_eq_false_2; [reflexivity|].
  now rewrite Hnames.
Qed.

(** Standardised features are centred on all the rows.  When
    [fit_transform] succeeds on a matrix whose rows have a value for
    every column, each column of the scaled matrix has mean zero over
    all its rows. *)
Theorem scaled_features_have_mean_zero (X : matrix) (s : StandardScaler)
    (X_scaled : list (list Q)) (j : nat) :
  scaler_fit_transform sk X = Some (s, X_scaled) ->
  Forall (fun r : nat * list float64 => length r.2 = length (names X))
         (rows X) ->
  (j < length (names X))%nat ->
  Qmean (column_values X_scaled j) == 0.
Proof.
  intros H Hwf Hj.
  destruct (scaler_fit_transform_success _ _ _ H) as (raw & Hraw & Hfit & ->).
  destruct (scaler_fit_parameters _ _ _ Hfit) as [_ Hpar].
  destruct (Hpar j Hj) as [Hm Hv].
  assert (Hlen : Forall (fun r : list Q => (j < length r)%nat) raw).
  { unfold finite_rows in Hraw. apply mapM_Some_1 in Hraw.
    apply Forall_forall. intros r Hr.
    apply list_elem_of_lookup_1 in Hr as [i Hi].
    destruct (Forall2_lookup_r _ _ _ _ _ Hraw Hi) as ([p vals] & Hp & Hvals).
    cbn [snd] in Hvals. apply length_mapM in Hvals.
    rewrite Forall_forall in Hwf.
    specialize (Hwf (p, vals) (list_elem_of_lookup_2 _ _ _ Hp)).
    cbn [snd] in Hwf. lia. }
  assert (Hne : raw <> []).
  { unfold scaler_fit in Hfit. intros ->. discriminate. }
  set (m := Qmean (column_values raw j)) in *.
  set (v := Qvariance (column_values raw j)) in *.
  assert (Hcol : column_values (map (scale_row sk s) raw) j
                 = map (fun x => (x - m) / scale_of sk v)
                       (column_values raw j)).
  { unfold column_values. rewrite !map_map.
    apply map_ext_in. intros r Hr. apply list_elem_of_In in Hr.
    rewrite Forall_forall in Hlen. specialize (Hlen r Hr).
    destruct (lookup_lt_is_Some_2 r j Hlen) as [x Hx].
    rewrite (scale_row_lookup s r j x m v Hx Hm Hv).
    now rewrite (nth_lookup_Some _ _ 0 _ Hx). }
  rewrite Hcol. unfold m. apply Qmean_centred.
  unfold column_values. destruct raw; [contradiction|discriminate].
Qed.

End FeatureFacts.

(** ** Scaling two rows *)

Section FeatureRuns.

Import Frame Indicators Labels Training Scenario Runs.

Lemma transform_repeats_the_fit_witness :
  scaler_transform majority_classifier (Some (fst two_rows_scaled)) two_rows
  = Some (snd two_rows_scaled)
  /\ feature_names_in_ (fst two_rows_scaled) = names two_rows
  /\ length (snd two_rows_scaled) = len two_rows
  /\ (forall X', names X' <> names two_rows ->
        scaler_transform majority_classifier (Some (fst two_rows_scaled)) X'
        = None)
  /\ (forall X', scaler_transform majority_classifier None X' = None).
Proof.
  apply (transform_repeats_the_fit majority_classifier two_rows
           (fst two_rows_scaled) (snd two_rows_scaled)).
  vm_compute. reflexivity.
Defined.

(** The scaled closes of the two rows. *)
Lemma scaled_features_have_mean_zero_witness :
  Qmean (column_values (snd two_rows_scaled) 0) == 0.
Proof.
  apply (scaled_features_have_mean_zero majority_classifier two_rows
           (fst two_rows_scaled) (snd two_rows_scaled) 0).
  - vm_compute. reflexivity.
  - repeat constructor.
  - cbn. lia.
Defined.

End FeatureRuns.

(** ** The predictor across a training *)

Section TrainingStateFacts.

Import Frame Indicators Labels Training Phases Scenario Runs.

Context (sk : Sklearn) (ta : TaLibrary).
Context (history : string -> string -> string -> option frame).

(** A training that fails returns a training message and leaves the
    flag. *)
Lemma train_model_failure (self self' : StockPredictor sk)
    (symbol : string) (e : error) :
  train_model sk ta history self symbol = (self', inr e) ->
  training_error e = true /\ is_trained self' = is_trained self.
Proof.
  unfold train_model, download_stock_data, prepare_features.
  destruct (history symbol "2y" "1d") as [data|];
    [|intros H; injection H as <- <-; now repeat split].
  destruct (Frame.empty data);
    [intros H; injection H as <- <-; now repeat split|].
  destruct (generate_labels _ 1) as [labelled|];
    [|intros H; injection H as <- <-; now repeat split].
  set (X := select_dropna labelled _).
  destruct (labels_at labelled X) as [y|];
    [|intros H; injection H as <- <-; now repeat split].
  destruct (Nat.ltb (len X) 50);
    [intros H; injection H as <- <-; now repeat split|].
  destruct (scaler_fit_transform sk X) as [[fitted X_scaled]|];
    [|intros H; injection H as <- <-; now repeat split].
  destruct (train_test_split sk X_scaled y) as [[[[X1 X2] y1] y2]|];
    [discriminate|intros H; injection H as <- <-; now repeat split].
Qed.

(** A training that succeeds does so from every predictor, with the same
    outcome. *)
Lemma train_model_from_any_state (self1 self2 self' : StockPredictor sk)
    (symbol : string) (rep : report) :
  train_model sk ta history self1 symbol = (self', inl rep) ->
  train_model sk ta history self2 symbol = (self', inl rep).
Proof.
  unfold train_model, download_stock_data, prepare_features.
  destruct (history symbol "2y" "1d") as [data|]; [|discriminate].
  destruct (Frame.empty data); [discriminate|].
  destruct (generate_labels _ 1) as [labelled|]; [|discriminate].
  set (X := select_dropna labelled _).
  destruct (labels_at labelled X) as [y|]; [|discriminate].
  destruct (Nat.ltb (len X) 50); [discriminate|].
  destruct (scaler_fit_transform sk X) as [[fitted X_scaled]|];
    [|discriminate].
  destruct (train_test_split sk X_scaled y) as [[[[X1 X2] y1] y2]|];
    [|discriminate].
  cbv beta iota zeta. cbn [model scaler is_trained self_feature_columns].
  intros H. exact H.
Qed.

(** What a failed training leaves behind.  The call returns one of the
    three training messages, and the flag [is_trained] is as before.
    After "Failed to download stock data" the predictor is untouched.
    After "Insufficient data for training" the model and the scaler are
    untouched, but the list of feature columns has been replaced by
    that of the rejected history. *)
Theorem failed_training_keeps_the_model (self self' : StockPredictor sk)
    (symbol : string) (e : error) :
  train_model sk ta history self symbol = (self', inr e) ->
  training_error e = true
  /\ is_trained self' = is_trained self
  /\ (e = DownloadFailed -> self' = self)
  /\ (e = InsufficientData ->
      model self' = model self
      /\ scaler self' = scaler self
      /\ exists data labelled,
           history symbol "2y" "1d" = Some data
           /\ generate_labels (calculate_technical_indicators ta data) 1
              = Some labelled
           /\ self_feature_columns self'
              = Some (snd (prepare_features labelled))
           /\ (len (fst (prepare_features labelled)) < 50)%nat).
Proof.
  intros H.
  destruct (train_model_failure _ _ _ _ H) as (He & Ht).
  split; [exact He|]. split; [exact Ht|].
  revert H.
  unfold train_model, download_stock_data, prepare_features.
  destruct (history symbol "2y" "1d") as [data|];
    [|intros H; injection H as <- <-; now split].
  destruct (Frame.empty data);
    [intros H; injection H as <- <-; now split|].
  destruct (generate_labels _ 1) as [labelled|] eqn:Hlab;
    [|intros H; injection H as <- <-; now split].
  set (X := select_dropna labelled _).
  destruct (labels_at labelled X) as [y|];
    [|intros H; injection H as <- <-; now split].
  destruct (Nat.ltb (len X) 50) eqn:Hlen.
  { intros H; injection H as <- <-. split; [discriminate|].
    intros _. split; [reflexivity|]. split; [reflexivity|].
    exists data, labelled. apply Nat.ltb_lt in Hlen.
    repeat split; auto. }
  destruct (scaler_fit_transform sk X) as [[fitted X_scaled]|];
    [|intros H; injection H as <- <-; now split].
  destruct (train_test_split sk X_scaled y) as [[[[X1 X2] y1] y2]|];
    [discriminate|intros H; injection H as <- <-; now split].
Qed.

(** A training overwrites the predictor.  What the call returns does
    not depend on the predictor it is called on, and after a successful
    call neither does the predictor: nothing of an earlier model, scaler
    or feature list is left. *)
Theorem training_replaces_the_state (self1 self2 : StockPredictor sk)
    (symbol : string) :
  snd (train_model sk ta history self1 symbol)
  = snd (train_model sk ta history self2 symbol)
  /\ (forall rep,
        snd (train_model sk ta history self1 symbol) = inl rep ->
        fst (train_model sk ta history self1 symbol)
        = fst (train_model sk ta history self2 symbol)).
Proof.
  unfold train_model, download_stock_data, prepare_features.
  destruct (history symbol "2y" "1d") as [data|];
    [|split; [reflexivity|discriminate]].
  destruct (Frame.empty data); [split; [reflexivity|discriminate]|].
  destruct (generate_labels _ 1) as [labelled|];
    [|split; [reflexivity|discriminate]].
  set (X := select_dropna labelled _).
  destruct (labels_at labelled X) as [y|];
    [|split; [reflexivity|discriminate]].
  destruct (Nat.ltb (len X) 50); [split; [reflexivity|discriminate]|].
  destruct (scaler_fit_transform sk X) as [[fitted X_scaled]|];
    [|split; [reflexivity|discriminate]].
  destruct (train_test_split sk X_scaled y) as [[[[X1 X2] y1] y2]|];
    [|split; [reflexivity|discriminate]].
  split; [reflexivity|]. intros rep _. reflexivity.
Qed.

End TrainingStateFacts.

(** ** Failed trainings on concrete histories *)

Section TrainingStateRuns.

Import Frame Indicators Labels Training Phases Scenario Runs.

(** Three bars of history are too few: the call fails, and leaves its
    feature list in the predictor. *)
Lemma failed_training_keeps_the_model_witness :
  training_error InsufficientData = true
  /\ is_trained (fst young_training)
     = is_trained (new_predictor majority_classifier)
  /\ (InsufficientData = DownloadFailed ->
      fst young_training = new_predictor majority_classifier)
  /\ (InsufficientData = InsufficientData ->
      model (fst young_training)
      = model (new_predictor majority_classifier)
      /\ scaler (fst young_training)
      = scaler (new_predictor majority_classifier)
      /\ exists data labelled,
           young_market "AAPL" "2y" "1d" = Some data
           /\ generate_labels
                (calculate_technical_indicators flat_indicators data) 1
              = Some labelled
           /\ self_feature_columns (fst young_training)
              = Some (snd (prepare_features labelled))
           /\ (len (fst (prepare_features labelled)) < 50)%nat).
Proof.
  apply (failed_training_keeps_the_model majority_classifier flat_indicators
           young_market (new_predictor majority_classifier)
           (fst young_training) "AAPL" InsufficientData).
  vm_compute. reflexivity.
Defined.

End TrainingStateRuns.

(** ** The outcome of a request *)

Section RequestFacts.

Import Fusion Frame Indicators Labels Training Forecast Server.
Import FusionRanges Phases Scenario Runs.

Context (env : Environment).

Lemma round_defined (x : float64) (ndigits : nat) :
  x <> NaN -> round x ndigits <> NaN.
Proof. destruct x; cbn; congruence. Qed.

(** From a frame of at most one row, [prepare_features] selects that
    row or none. *)
Lemma latest_row_selected (latest : frame) :
  (nrows latest <= 1)%nat ->
  matrix_empty (fst (prepare_features latest)) = false ->
  rows (fst (prepare_features latest))
  = [(0%nat, map (fun n => cell latest n 0)
               (snd (prepare_features latest)))]
  /\ forallb (fun x => negb (isna x))
       (map (fun n => cell latest n 0) (snd (prepare_features latest)))
     = true.
Proof.
  intros Hn. unfold prepare_features. cbn [fst snd].
  set (available := filter _ feature_columns).
  unfold matrix_empty, len, select_dropna. cbn [rows names].
  destruct (nrows latest) as [|[|n]]; [discriminate| |lia].
  cbn [seq map]. rewrite filter_cons, filter_nil. cbn [snd].
  destruct (decide (forallb _ _ = true)) as [Hall|Hno];
    [now split|discriminate].
Qed.

(** The one row that [prepare_features] selects from a frame of at most
    one row has no undefined feature. *)
Lemma latest_row_is_defined (latest : frame) (col : string) (v : float64) :
  (nrows latest <= 1)%nat ->
  matrix_empty (fst (prepare_features latest)) = false ->
  col ∈ feature_columns ->
  first_row latest !! col = Some v ->
  v <> NaN.
Proof.
  intros Hn Hne Hcol Hv.
  destruct (first_row_cell latest col v Hv) as [Hhas Hcell].
  destruct (latest_row_selected latest Hn Hne) as [_ Hall].
  unfold prepare_features in Hall. cbn [snd] in Hall.
  set (available := filter _ feature_columns) in Hall.
  assert (Hav : col ∈ available)
    by (apply list_elem_of_filter; split; [exact Hhas|exact Hcol]).
  rewrite forallb_forall in Hall.
  intros ->.
  assert (Hnan : In NaN (map (fun n => cell latest n 0) available)).
  { apply in_map_iff. exists col. split; [exact Hcell|].
    now apply list_elem_of_In. }
  specialize (Hall NaN Hnan). discriminate.
Qed.

(** When the scaler accepts that row, its features are finite. *)
Lemma latest_row_is_finite (latest : frame) (raw : list (list Q))
    (col : string) (v : float64) :
  (nrows latest <= 1)%nat ->
  matrix_empty (fst (prepare_features latest)) = false ->
  finite_rows (fst (prepare_features latest)) = Some raw ->
  col ∈ feature_columns ->
  first_row latest !! col = Some v ->
  exists q, v = Fin q.
Proof.
  intros Hn Hne Hraw Hcol Hv.
  destruct (first_row_cell latest col v Hv) as [Hhas Hcell].
  destruct (latest_row_selected latest Hn Hne) as [Hrows _].
  unfold finite_rows in Hraw. rewrite Hrows in Hraw.
  apply mapM_Some_1 in Hraw.
  apply Forall2_cons_inv_l in Hraw as (qs & raw' & Hqs & _ & _).
  cbn [snd] in Hqs. apply mapM_Some_1 in Hqs.
  unfold prepare_features in Hqs. cbn [snd] in Hqs.
  set (available := filter _ feature_columns) in Hqs.
  assert (Hav : col ∈ available)
    by (apply list_elem_of_filter; split; [exact Hhas|exact Hcol]).
  assert (Hin : v ∈ map (fun n => cell latest n 0) available).
  { apply list_elem_of_In, in_map_iff. exists col. split; [exact Hcell|].
    now apply list_elem_of_In. }
  apply list_elem_of_lookup_1 in Hin as [i Hi].
  destruct (Forall2_lookup_l _ _ _ _ _ Hqs Hi) as (q & _ & Hq).
  exists q. destruct v; cbn in Hq; congruence.
Qed.

(** With a close in the row, the fused signal is the decision of the
    rule, one of -1, 0 and 1. *)
Lemma enhanced_signal_range (r : row) (price : float64) (m : Z)
    (p : list Q) (f : Z) (c : Q) (d : option details) :
  r !! "Close" = Some price ->
  get_enhanced_signal r m p = Some (f, c, d) ->
  sub_score f.
Proof.
  intros Hclose.
  unfold get_enhanced_signal, enhanced_signal_body, extract_indicators.
  rewrite Hclose.
  set (i := Build_indicators _ _ _ _ _ _ _ _).
  unfold fused_confidence.
  destruct (np_max p) as [mx|]; [|discriminate].
  intros H. injection H as <- _ _.
  unfold combine, sub_score. cbn [final_signal].
  destruct (Qle_bool (1 # 2) _); [auto|].
  destruct (Qle_bool _ (- (1 # 2))); auto.
Qed.

(** The steps of a request that succeeds on a trained predictor. *)
Lemma predict_trained_success (self : StockPredictor (sk env))
    (g : generator (rt env)) (sym : string) (days : Z) (r : result) :
  predict_trained env self g sym days = inl r ->
  exists data m x f c d price,
    history env sym "6mo" "1d" = Some data
    /\ Frame.empty data = false
    /\ matrix_empty
         (fst (prepare_features
                 (tail1 (calculate_technical_indicators (ta env) data))))
       = false
    /\ is_Some
         (finite_rows
            (fst (prepare_features
                    (tail1 (calculate_technical_indicators (ta env)
                              data)))))
    /\ model self = Some m
    /\ get_enhanced_signal
         (first_row (tail1 (calculate_technical_indicators (ta env) data)))
         (forest_predict (sk env) m x) (forest_predict_proba (sk env) m x)
       = Some (f, c, d)
    /\ first_row (tail1 (calculate_technical_indicators (ta env) data))
         !! "Close" = Some price
    /\ r = {| symbol := sym;
              current_price := round price 2;
              signal := f;
              signal_confidence := Qround_digits c 3;
              forecast_points :=
                forecast (rt env) g sym (today env) f c price days;
              technical_indicators :=
                current_indicators
                  (tail1 (calculate_technical_indicators (ta env) data))
                  price |}.
Proof.
  unfold predict_trained, download_stock_data.
  destruct (history env sym "6mo" "1d") as [data|]; [|discriminate].
  destruct (Frame.empty data) eqn:Hempty; [discriminate|].
  set (latest := tail1 (calculate_technical_indicators (ta env) data)).
  destruct (prepare_features latest) as [X av] eqn:HX.
  destruct (matrix_empty X) eqn:Hne; [discriminate|].
  destruct (scaler_transform (sk env) (scaler self) X) as [Xs|] eqn:HXs;
    [|discriminate].
  assert (Hfin : is_Some (finite_rows X)).
  { unfold scaler_transform in HXs.
    destruct (scaler self) as [s|]; [|discriminate].
    cbn [mbind option_bind] in HXs.
    destruct (bool_decide _); [|discriminate].
    destruct (finite_rows X); [eauto|discriminate]. }
  cbn [mbind option_bind].
  destruct (model self) as [m|]; [|discriminate].
  cbn [mbind option_bind].
  destruct (head Xs) as [x|]; [|discriminate].
  cbn [mbind option_bind].
  destruct (get_enhanced_signal _ _ _) as [[[f c] d]|] eqn:Hf;
    [|discriminate].
  cbn [mbind option_bind].
  destruct (first_row latest !! "Close") as [price|] eqn:Hclose;
    [|discriminate].
  cbn [mbind option_bind].
  intros H. injection H as <-.
  exists data, m, x, f, c, d, price.
  fold latest. rewrite HX. cbn [fst].
  repeat split; auto.
Qed.

(** The errors of a request on a trained predictor are those of the
    prediction phase. *)
Lemma predict_trained_errors (self : StockPredictor (sk env))
    (g : generator (rt env)) (sym : string) (days : Z) (e : error) :
  predict_trained env self g sym days = inr e -> prediction_error e = true.
Proof.
  unfold predict_trained.
  destruct (download_stock_data _ _ _ _) as [data|];
    [|intros H; injection H as <-; reflexivity].
  destruct (Frame.empty data); [intros H; injection H as <-; reflexivity|].
  destruct (prepare_features _) as [X av].
  destruct (matrix_empty X); [intros H; injection H as <-; reflexivity|].
  match goal with |- match ?o with _ => _ end = _ -> _ => destruct o end;
    [discriminate|intros H; injection H as <-; reflexivity].
Qed.

(** A request that succeeds leaves a trained predictor, and its result
    is the one that predictor gives. *)
Lemma predict_success (self self' : StockPredictor (sk env))
    (g : generator (rt env)) (sym : string) (days : Z) (r : result) :
  predict env self g sym days = (self', inl r) ->
  is_trained self' = true
  /\ predict_trained env self' g sym days = inl r.
Proof.
  unfold predict. intros H.
  destruct (is_trained self) eqn:Ht.
  - injection H as <- H. now split.
  - destruct (train_model _ _ _ self sym) as [self1 [rep|e]] eqn:Htrain;
      [|discriminate].
    injection H as <- H. split; [|exact H].
    destruct (train_model_success _ _ _ _ _ _ _ Htrain)
      as (? & ? & ? & ? & ? & ? & ? & ? & _ & _ & _ & _ & _ & _ & _ & _
          & _ & ->).
    reflexivity.
Qed.

(** What a request that succeeds returns.  The predictor is trained
    afterwards; the result names the requested symbol; the signal is -1,
    0 or 1; the forecast has one point for each of the days 1 to [days],
    in that order; and nothing undefined is reported: the current price
    and every technical indicator of the result are numbers, the
    indicators being features of the one row that feature selection
    let through. *)
Theorem successful_request_is_defined (self self' : StockPredictor (sk env))
    (g : generator (rt env)) (sym : string) (days : Z) (r : result) :
  predict env self g sym days = (self', inl r) ->
  is_trained self' = true
  /\ symbol r = sym
  /\ sub_score (signal r)
  /\ map Forecast.day (forecast_points r) = day_range days
  /\ current_price r <> NaN
  /\ technical_indicators r !! "current_price" = Some (current_price r)
  /\ (forall key v, technical_indicators r !! key = Some v -> v <> NaN).
Proof.
  intros H.
  destruct (predict_success _ _ _ _ _ _ H) as [Htrained Hr].
  destruct (predict_trained_success _ _ _ _ _ Hr)
    as (data & m & x & f & c & d & price & Hdata & Hempty & Hne & _ & Hm
        & Hf & Hclose & ->).
  set (latest := tail1 (calculate_technical_indicators (ta env) data)) in *.
  assert (Hn : (nrows latest <= 1)%nat)
    by (unfold latest, tail1; cbn [nrows]; lia).
  assert (Hdef : forall col v, col ∈ feature_columns ->
                   first_row latest !! col = Some v -> v <> NaN)
    by (intros col v; now apply latest_row_is_defined).
  assert (Hprice : price <> NaN)
    by (apply (Hdef "Close"); [decide_closed|exact Hclose]).
  cbn [symbol current_price signal forecast_points technical_indicators].
  split; [exact Htrained|]. split; [reflexivity|].
  split; [exact (enhanced_signal_range _ _ _ _ _ _ _ Hclose Hf)|].
  split; [apply forecast_days_confidences|].
  split; [now apply round_defined|].
  unfold current_indicators.
  pose proof (Hdef "RSI") as Hrsi. pose proof (Hdef "MACD") as Hmacd.
  pose proof (Hdef "MACD_Signal") as Hsig.
  pose proof (Hdef "SMA_20") as H20. pose proof (Hdef "SMA_50") as H50.
  destruct (first_row latest !! "RSI") as [rsi|];
  destruct (first_row latest !! "MACD") as [macd|];
  destruct (first_row latest !! "MACD_Signal") as [macd_signal|];
  destruct (first_row latest !! "SMA_20") as [sma_20|];
  destruct (first_row latest !! "SMA_50") as [sma_50|].
  all: split; [reflexivity|].
  all: intros key v Hkv; apply elem_of_list_to_map_2 in Hkv.
  all: cbn [app] in Hkv.
  all: repeat (apply elem_of_cons in Hkv as [Hkv|Hkv];
               [injection Hkv as -> ->|]).
  all: try (now apply elem_of_nil in Hkv).
  all: try (now apply round_defined).
  all: try (apply Hrsi; [decide_closed|reflexivity]).
  all: try (apply Hmacd; [decide_closed|reflexivity]).
  all: try (apply Hsig; [decide_closed|reflexivity]).
  all: try (apply H20; [decide_closed|reflexivity]).
  all: try (apply H50; [decide_closed|reflexivity]).
Qed.

(** The phase in which a request failed, and the predictor it leaves.
    On a trained predictor a request that fails does so with one of the
    three prediction messages and changes nothing.  On an untrained one
    it either fails in training, with a training message, and the
    predictor is still untrained; or the training succeeded and the
    prediction failed: the caller gets an error, and the predictor
    stays trained on that request's symbol. *)
Theorem failed_request_by_phase (self self' : StockPredictor (sk env))
    (g : generator (rt env)) (sym : string) (days : Z) (e : error) :
  predict env self g sym days = (self', inr e) ->
  (is_trained self = true -> self' = self /\ prediction_error e = true)
  /\ (is_trained self = false ->
      (training_error e = true
       /\ is_trained self' = false
       /\ train_model (sk env) (ta env) (history env) self sym
          = (self', inr e))
      \/ (prediction_error e = true
          /\ is_trained self' = true
          /\ predict_trained env self' g sym days = inr e
          /\ exists rep,
               train_model (sk env) (ta env) (history env) self sym
               = (self', inl rep))).
Proof.
  unfold predict.
  destruct (is_trained self) eqn:Ht.
  - intros H. injection H as <- H. split; [|discriminate].
    intros _. split; [reflexivity|].
    exact (predict_trained_errors _ _ _ _ _ H).
  - destruct (train_model _ _ _ self sym) as [self1 [rep|e1]] eqn:Htrain.
    + intros H. injection H as <- H. split; [discriminate|].
      intros _. right.
      split; [exact (predict_trained_errors _ _ _ _ _ H)|].
      destruct (train_model_success _ _ _ _ _ _ _ Htrain)
        as (? & ? & ? & ? & ? & ? & ? & ? & _ & _ & _ & _ & _ & _ & _ & _
            & _ & Hself).
      split; [now rewrite Hself|]. split; [exact H|]. now exists rep.
    + intros H. injection H as <- <-. split; [discriminate|].
      intros _. left.
      destruct (train_model_failure _ _ _ _ _ _ _ Htrain) as (He & Hi).
      split; [exact He|]. split; [now rewrite Hi|]. reflexivity.
Qed.

(** The model of a process.  Served from the new predictor, the
    requests of a process fail with a training message up to the first
    one whose training succeeds.  If there is none, the predictor is
    still untrained and every request has failed.  Otherwise the
    predictor is trained, it is the one a training of the new predictor
    on that request's symbol gives, and that request and all the later
    ones are answered from it. *)
Theorem model_of_a_process (requests : list (request env))
    (self' : StockPredictor (sk env)) (results : list (result + error)) :
  serve env (predictor env) requests = (self', results) ->
  length results = length requests
  /\ (is_trained self' = false ->
      Forall (fun r => failed_in_training r = true) results)
  /\ (is_trained self' = true ->
      exists i g sym days rep,
        requests !! i = Some (g, sym, days)
        /\ train_model (sk env) (ta env) (history env) (predictor env) sym
           = (self', inl rep)
        /\ Forall (fun r => failed_in_training r = true) (take i results)
        /\ drop i results
           = map (fun q : request env =>
                    predict_trained env self' q.1.1 q.1.2 q.2)
               (drop i requests)).
Proof.
  assert (Hnew : is_trained (predictor env) = false) by reflexivity.
  revert Hnew. generalize (predictor env) at 1 2 as self.
  revert self' results.
  induction requests as [|[[g sym] days] rest IH];
    intros self' results self Ht H.
  - cbn in H. injection H as <- <-.
    split; [reflexivity|]. split; [constructor|]. congruence.
  - cbn [serve] in H. unfold predict in H. rewrite Ht in H.
    destruct (train_model _ _ _ self sym) as [self1 [rep|e]] eqn:Htrain.
    + destruct (train_model_success _ _ _ _ _ _ _ Htrain)
        as (? & ? & ? & ? & ? & ? & ? & ? & _ & _ & _ & _ & _ & _ & _ & _
            & _ & Hself).
      assert (Htrained : is_trained self1 = true) by now rewrite Hself.
      rewrite (serve_when_trained env self1 rest Htrained) in H.
      injection H as <- <-.
      split; [cbn; now rewrite length_map|].
      split; [congruence|]. intros _.
      exists 0%nat, g, sym, days, rep.
      split; [reflexivity|].
      split; [exact (train_model_from_any_state _ _ _ _ _ _ _ _ Htrain)|].
      split; [constructor|]. reflexivity.
    + destruct (train_model_failure _ _ _ _ _ _ _ Htrain) as (He & Hi).
      destruct (serve env self1 rest) as [self2 rs] eqn:Hserve.
      injection H as <- <-.
      assert (Hself1 : is_trained self1 = false) by congruence.
      destruct (IH self2 rs self1 Hself1 Hserve) as (Hlen & Hun & Htr).
      split; [cbn; now rewrite Hlen|].
      split.
      * intros Hu. constructor; [exact He|exact (Hun Hu)].
      * intros Hu.
        destruct (Htr Hu) as (i & g' & sym' & days' & rep & Hi' & Htm & Hall
                              & Hdrop).
        exists (S i), g', sym', days', rep.
        split; [exact Hi'|]. split; [exact Htm|].
        split; [cbn [take]; constructor; [exact He|exact Hall]|].
        exact Hdrop.
Qed.

End RequestFacts.

(** ** Requests in a concrete environment *)

Section RequestRuns.

Import Fusion Frame Indicators Labels Training Forecast Server.
Import FusionRanges Phases Scenario Runs.

(** The first request of a process, for AAPL. *)
Lemma successful_request_is_defined_witness :
  is_trained (fst first_request) = true
  /\ symbol first_result = "AAPL"
  /\ sub_score (signal first_result)
  /\ map Forecast.day (forecast_points first_result) = day_range 3
  /\ current_price first_result <> NaN
  /\ technical_indicators first_result !! "current_price"
     = Some (current_price first_result)
  /\ (forall key v,
        technical_indicators first_result !! key = Some v -> v <> NaN).
Proof.
  apply (successful_request_is_defined environment (predictor environment)
           (fst first_request) 0%Z "AAPL" 3 first_result).
  vm_compute. reflexivity.
Defined.

(** A first request for a symbol without history. *)
Lemma failed_request_by_phase_witness :
  (is_trained (predictor environment) = true ->
   fst unknown_first = predictor environment
   /\ prediction_error DownloadFailed = true)
  /\ (is_trained (predictor environment) = false ->
      (training_error DownloadFailed = true
       /\ is_trained (fst unknown_first) = false
       /\ train_model (sk environment) (ta environment)
            (history environment) (predictor environment) "NONE"
          = (fst unknown_first, inr DownloadFailed))
      \/ (prediction_error DownloadFailed = true
          /\ is_trained (fst unknown_first) = true
          /\ predict_trained environment (fst unknown_first) 0%Z "NONE" 3
             = inr DownloadFailed
          /\ exists rep,
               train_model (sk environment) (ta environment)
                 (history environment) (predictor environment) "NONE"
               = (fst unknown_first, inl rep))).
Proof.
  apply (failed_request_by_phase environment (predictor environment)
           (fst unknown_first) 0%Z "NONE" 3 DownloadFailed).
  vm_compute. reflexivity.
Defined.

(** A symbol without history, then AAPL, then MSFT. *)
Lemma model_of_a_process_witness :
  length (snd unknown_then_aapl) = 3%nat
  /\ (is_trained (fst unknown_then_aapl) = false ->
      Forall (fun r => failed_in_training r = true)
        (snd unknown_then_aapl))
  /\ (is_trained (fst unknown_then_aapl) = true ->
      exists i g sym days rep,
        [(0%Z, "NONE", 3%Z); (0%Z, "AAPL", 3%Z); (0%Z, "MSFT", 5%Z)] !! i
        = Some (g, sym, days)
        /\ train_model (sk environment) (ta environment)
             (history environment) (predictor environment) sym
           = (fst unknown_then_aapl, inl rep)
        /\ Forall (fun r => failed_in_training r = true)
             (take i (snd unknown_then_aapl))
        /\ drop i (snd unknown_then_aapl)
           = map (fun q : request environment =>
                    predict_trained environment (fst unknown_then_aapl)
                      q.1.1 q.1.2 q.2)
               (drop i
                  [(0%Z, "NONE", 3%Z); (0%Z, "AAPL", 3%Z);
                   (0%Z, "MSFT", 5%Z)])).
Proof.
  apply (model_of_a_process environment
           [(0%Z, "NONE", 3%Z); (0%Z, "AAPL", 3%Z); (0%Z, "MSFT", 5%Z)]
           (fst unknown_then_aapl) (snd unknown_then_aapl)).
  apply surjective_pairing.
Defined.

End RequestRuns.

(** ** The endpoints *)

Section EndpointFacts.

Import Fusion Frame Indicators Labels Training Forecast Server.
Import FusionRanges Phases Endpoints Scenario Runs.

Context (py : Python) (env : Environment).

(** The indicators keep the rows and the bars of the history. *)
Lemma indicators_keep_the_bars (ta : TaLibrary) (data : frame) :
  nrows (calculate_technical_indicators ta data) = nrows data
  /\ forall n, n ∉ map fst (indicator_steps ta) ->
       columns (calculate_technical_indicators ta data) !! n
       = columns data !! n.
Proof.
  assert (Hrun : calculate_technical_indicators ta data
                 = fold_left IndicatorsSpec.assign
                     (IndicatorsSpec.computed (indicator_steps ta) data)
                     data).
  { unfold calculate_technical_indicators.
    apply run_steps_computed;
      [apply steps_read_inputs|apply step_names_not_inputs
      |apply same_inputs_refl]. }
  destruct (computed_prefix (indicator_steps ta) data) as (Hpre & _ & _).
  rewrite Hrun. split; [apply fold_assign_nrows|].
  intros n Hn. apply fold_assign_other. rewrite Hpre.
  intros Hin. apply Hn. exact (subseteq_take _ _ _ Hin).
Qed.

(** Cutting the fraction of a non-negative number is rounding down. *)
Lemma float_int_floor (q : Q) : 0 <= q -> float_int (Fin q) = Some (Qfloor q).
Proof.
  intros Hq. destruct q as [n d]. cbn [float_int Qnum Qden Qfloor].
  f_equal. apply Z.quot_div_nonneg; [|lia].
  unfold Qle in Hq. cbn in Hq. lia.
Qed.

(** The lookup in a dictionary whose [None] values were removed. *)
Lemma remove_none_lookup (items : list (string * option json))
    (key : string) :
  NoDup (map fst items) ->
  remove_none items !! key
  = mjoin ((list_to_map items : gmap string (option json)) !! key).
Proof.
  unfold remove_none.
  induction items as [|[k [j|]] items IH]; intros Hnd; [reflexivity| |].
  - apply NoDup_cons in Hnd as [_ Hnd].
    cbn [omap list_omap fmap option_fmap option_map fst snd list_to_map
         foldr uncurry].
    destruct (decide (key = k)) as [->|Hne].
    + now rewrite !lookup_insert_eq.
    + rewrite !lookup_insert_ne by congruence. now apply IH.
  - apply NoDup_cons in Hnd as [Hk Hnd].
    cbn [omap list_omap fmap option_fmap option_map fst snd list_to_map
         foldr uncurry].
    destruct (decide (key = k)) as [->|Hne].
    + rewrite lookup_insert_eq. cbn.
      apply not_elem_of_list_to_map_1.
      intros Hin. apply Hk.
      apply list_elem_of_In. apply list_elem_of_In in Hin.
      apply in_map_iff in Hin as ([k' j'] & <- & Hin).
      apply list_elem_of_In, list_elem_of_omap in Hin
        as ([k2 [j2|]] & Hin & Heq); [|discriminate].
      cbn in Heq. injection Heq as <- <-.
      apply in_map_iff. exists (k2, Some j2). split; [reflexivity|].
      now apply list_elem_of_In.
    + rewrite lookup_insert_ne by congruence. now apply IH.
Qed.

Lemma optional_round_defined (latest : gmap string float64)
    (column : string) (ndigits : nat) (x : float64) :
  optional_round latest column ndigits = Some x -> x <> NaN.
Proof.
  unfold optional_round.
  destruct (latest !! column) as [v|]; [|discriminate].
  destruct v; cbn; congruence.
Qed.

(** The indicators of a prediction are the values of the latest row. *)
Lemma current_indicators_lookup (latest_data : frame) (price : float64) :
  current_indicators latest_data price !! "rsi"
  = first_row latest_data !! "RSI"
  /\ current_indicators latest_data price !! "macd"
     = first_row latest_data !! "MACD"
  /\ current_indicators latest_data price !! "macd_signal"
     = first_row latest_data !! "MACD_Signal"
  /\ current_indicators latest_data price !! "sma_20"
     = first_row latest_data !! "SMA_20"
  /\ current_indicators latest_data price !! "sma_50"
     = first_row latest_data !! "SMA_50".
Proof.
  unfold current_indicators.
  destruct (first_row latest_data !! "RSI");
  destruct (first_row latest_data !! "MACD");
  destruct (first_row latest_data !! "MACD_Signal");
  destruct (first_row latest_data !! "SMA_20");
  destruct (first_row latest_data !! "SMA_50").
  all: repeat split; reflexivity.
Qed.

(** The request behind a response of [predict_stock].  The horizon is
    checked before the predictor is used: a request that is answered by
    the predictor has a body that is an object, a symbol that is text
    and a horizon that [int] turns into a whole number from 1 to 30;
    the predictor is called with the symbol in upper case and that
    number of days, and the response carries its result, with as many
    forecast points as days, or its error.  A request that is refused
    (400) or that raises (500, "Server error") leaves the predictor of
    the process as it was: it is not trained by it. *)
Theorem horizon_is_checked_first (self self' : StockPredictor (sk env))
    (g : generator (rt env)) (body : option json) (resp : response) :
  predict_stock py env self g body = (self', resp) ->
  match resp with
  | Ok r model_type =>
      exists data s days,
        body = Some (JObject data)
        /\ dict_get data "symbol" (JString "AAPL") = JString s
        /\ py_int py (dict_get data "days" (JInt 7)) = Some days
        /\ (1 <= days <= 30)%Z
        /\ model_type = dict_get data "model_type" (JString "Random Forest")
        /\ predict env self g (str_upper py s) days = (self', inl r)
        /\ symbol r = str_upper py s
        /\ length (forecast_points r) = Z.to_nat days
  | Failed e =>
      exists data s days,
        body = Some (JObject data)
        /\ dict_get data "symbol" (JString "AAPL") = JString s
        /\ py_int py (dict_get data "days" (JInt 7)) = Some days
        /\ (1 <= days <= 30)%Z
        /\ predict env self g (str_upper py s) days = (self', inr e)
  | BadRequest | ServerError => self' = self
  end.
Proof.
  unfold predict_stock.
  destruct body as [[| | | | |items|data]|];
    try (intros H; injection H as <- <-; reflexivity).
  destruct (dict_get data "symbol" _) as [| | | |s| |] eqn:Hs;
    try (intros H; injection H as <- <-; reflexivity).
  destruct (py_int py _) as [days|] eqn:Hd;
    [|intros H; injection H as <- <-; reflexivity].
  destruct ((days <? 1)%Z || (30 <? days)%Z) eqn:Hb;
    [intros H; injection H as <- <-; reflexivity|].
  apply orb_false_iff in Hb as [H1 H30].
  apply Z.ltb_ge in H1, H30.
  destruct (predict env self g (str_upper py s) days) as [self1 [r|e]]
    eqn:Hp; intros H; injection H as <- <-.
  - exists data, s, days.
    destruct (predict_success _ _ _ _ _ _ _ Hp) as [_ Hr].
    destruct (predict_trained_success _ _ _ _ _ _ Hr)
      as (? & ? & ? & ? & ? & ? & ? & _ & _ & _ & _ & _ & _ & _ & ->).
    cbn [symbol forecast_points]. rewrite forecast_length.
    repeat split; auto; lia.
  - exists data, s, days. repeat split; auto; lia.
Qed.

(** A horizon with a fraction.  A non-negative horizon given as a
    fractional number is served as its whole part: 7.5 as 7, 30.9 as
    30, and 0.9 as 0, which is refused. *)
Theorem fractional_horizon_is_cut (self : StockPredictor (sk env))
    (g : generator (rt env)) (data : gmap string json) (q : Q) :
  0 <= q ->
  predict_stock py env self g
    (Some (JObject (<["days" := JFloat (Fin q)]> data)))
  = predict_stock py env self g
      (Some (JObject (<["days" := JInt (Qfloor q)]> data))).
Proof.
  intros Hq. unfold predict_stock, dict_get.
  rewrite !lookup_insert_eq, !lookup_insert_ne by discriminate.
  assert (E : py_int py (id (JFloat (Fin q)))
              = py_int py (id (JInt (Qfloor q))))
    by exact (float_int_floor q Hq).
  cbn [default from_option]. now rewrite E.
Qed.

(** The response of the indicator endpoint.  It names the symbol in
    upper case, the close of the latest row rounded to cents, and the
    volume.  An optional indicator is in the response exactly when its
    column exists and its latest value is defined, and is then that
    value, rounded; so the response holds no null, and no NaN apart
    from a current price that is itself undefined. *)
Theorem undefined_indicators_are_left_out (symbol : string)
    (body : gmap string json) :
  get_technical_indicators py env symbol = Indicators body ->
  exists data close volume,
    history env (str_upper py symbol) "6mo" "1d" = Some data
    /\ first_row (tail1 (calculate_technical_indicators (ta env) data))
         !! "Close" = Some close
    /\ first_row (tail1 (calculate_technical_indicators (ta env) data))
         !! "Volume" ≫= float_int = Some volume
    /\ body !! "symbol" = Some (JString (str_upper py symbol))
    /\ body !! "current_price" = Some (JFloat (round close 2))
    /\ body !! "volume" = Some (JInt volume)
    /\ Forall (fun e : string * string * nat =>
                 body !! e.1.1
                 = JFloat
                   <$> optional_round
                         (first_row
                            (tail1 (calculate_technical_indicators (ta env)
                                      data)))
                         e.1.2 e.2)
         optional_entries
    /\ (forall key j, body !! key = Some j ->
          j <> JNull /\ (j = JFloat NaN -> key = "current_price")).
Proof.
  unfold get_technical_indicators, download_stock_data.
  destruct (history env (str_upper py symbol) "6mo" "1d") as [data|];
    [|discriminate].
  destruct (Frame.empty data); [discriminate|].
  set (latest := first_row (tail1 (calculate_technical_indicators (ta env)
                                     data))).
  destruct (latest !! "Close") as [close|] eqn:Hclose; [|discriminate].
  destruct (latest !! "Volume" ≫= float_int) as [volume|] eqn:Hvol;
    [|discriminate].
  cbv zeta. intros H. injection H as <-.
  exists data, close, volume.
  split; [reflexivity|]. split; [exact Hclose|]. split; [exact Hvol|].
  set (items := cons _ _).
  assert (Hnd : NoDup (map fst items))
    by (apply (bool_decide_eq_true_1 _); reflexivity).
  assert (Hlk : forall key,
            remove_none items !! key
            = mjoin ((list_to_map items : gmap string (option json))
                       !! key))
    by (intros key; now apply remove_none_lookup).
  split; [rewrite Hlk; reflexivity|].
  split; [rewrite Hlk; reflexivity|].
  split; [rewrite Hlk; reflexivity|].
  split.
  { unfold optional_entries.
    repeat first [apply Forall_cons_2|apply Forall_nil_2].
    all: cbn [fst snd]; rewrite Hlk; reflexivity. }
  intros key j Hj. rewrite Hlk in Hj.
  destruct (list_to_map items !! key) as [oj|] eqn:Hoj; [|discriminate].
  cbn in Hj. subst oj.
  apply elem_of_list_to_map_2 in Hoj.
  unfold items in Hoj.
  repeat (apply elem_of_cons in Hoj as [Hoj|Hoj];
          [injection Hoj as -> Hoj|]).
  all: try (now apply elem_of_nil in Hoj).
  all: try (rewrite Hoj; split; [discriminate|]; intros Hn;
            try discriminate; reflexivity).
  all: match type of Hoj with
       | _ = JFloat <$> ?o =>
           destruct o as [x|] eqn:Hx; [|discriminate];
           cbn in Hoj; injection Hoj as ->;
           apply optional_round_defined in Hx;
           split; [discriminate|]; intros Hn; injection Hn as ->;
           contradiction
       end.
Qed.

(** The two views of the latest row agree on the indicators.  When a
    request for a symbol succeeds and the history has a volume column,
    the indicator endpoint succeeds for that symbol too, and it shows
    RSI, MACD, the MACD signal line and the two moving averages exactly
    when the prediction shows them: the value of the prediction, which
    is not rounded, rounded to 2 digits (MACD and its signal line: 4).
    (The two current prices are rounded by two different functions,
    numpy's in [predict] and Python's here, and are not compared.) *)
Theorem indicators_agree_with_prediction (self : StockPredictor (sk env))
    (g : generator (rt env)) (symbol : string) (days : Z) (r : result) :
  predict_trained env self g (str_upper py symbol) days = inl r ->
  (forall data, history env (str_upper py symbol) "6mo" "1d" = Some data ->
     exists volume,
       columns data !! "Volume" = Some volume
       /\ length (as_floats volume) = nrows data) ->
  exists body,
    get_technical_indicators py env symbol = Indicators body
    /\ Forall (fun e : string * nat =>
                 body !! e.1
                 = (fun v => JFloat (round v e.2))
                   <$> technical_indicators r !! e.1)
         [ ("rsi", 2%nat); ("macd", 4%nat); ("macd_signal", 4%nat);
           ("sma_20", 2%nat); ("sma_50", 2%nat) ].
Proof.
  intros Hr Hvolume.
  destruct (predict_trained_success _ _ _ _ _ _ Hr)
    as (data & m & x & f & c & d & price & Hdata & Hempty & Hne & [raw Hraw]
        & _ & _ & Hclose & ->).
  specialize (Hvolume data Hdata).
  unfold get_technical_indicators, download_stock_data.
  rewrite Hdata, Hempty.
  set (result := calculate_technical_indicators (ta env) data) in *.
  set (latest := first_row (tail1 result)) in *.
  assert (Hn : (nrows (tail1 result) <= 1)%nat)
    by (unfold tail1; cbn [nrows]; lia).
  assert (Hdef : forall col v, col ∈ feature_columns ->
                   latest !! col = Some v -> v <> NaN)
    by (intros col v; now apply latest_row_is_defined).
  assert (Hfin : forall col v, col ∈ feature_columns ->
                   latest !! col = Some v -> exists q, v = Fin q)
    by (intros col v; now apply (latest_row_is_finite _ raw)).
  rewrite Hclose.
  assert (Hvol : exists volume, latest !! "Volume" ≫= float_int
                                = Some volume).
  { destruct (indicators_keep_the_bars (ta env) data) as [Hrows Hcols].
    fold result in Hrows, Hcols.
    destruct Hvolume as (col & Hcol & Hlen).
    assert (Hsome : is_Some (latest !! "Volume")).
    { unfold latest, first_row, tail1. cbn [columns].
      rewrite lookup_omap, lookup_fmap, Hcols, Hcol by decide_closed.
      cbn [fmap option_fmap option_map mbind option_bind].
      assert (Hpos : (0 < nrows data)%nat).
      { unfold Frame.empty in Hempty. apply orb_false_iff in Hempty as [H0 _].
        apply Nat.eqb_neq in H0. lia. }
      destruct col as [v|v]; cbn [tail_column as_floats] in *.
      - apply head_is_Some. intros Hnil.
        apply (f_equal (@length float64)) in Hnil.
        rewrite length_drop in Hnil. cbn in Hnil. lia.
      - rewrite length_map in Hlen. apply head_is_Some. intros Hnil.
        apply (f_equal (@length float64)) in Hnil.
        rewrite length_map, length_drop in Hnil. cbn in Hnil. lia. }
    destruct Hsome as [v Hv].
    destruct (Hfin "Volume" v) as [q ->]; [decide_closed|exact Hv|].
    rewrite Hv. cbn. eauto. }
  destruct Hvol as [volume ->].
  cbv zeta. eexists. split; [reflexivity|].
  set (items := cons _ _).
  assert (Hnd : NoDup (map fst items))
    by (apply (bool_decide_eq_true_1 _); reflexivity).
  assert (Hlk : forall key,
            remove_none items !! key
            = mjoin ((list_to_map items : gmap string (option json))
                       !! key))
    by (intros key; now apply remove_none_lookup).
  cbn [technical_indicators].
  destruct (current_indicators_lookup (tail1 result) price)
    as (Ersi & Emacd & Esig & E20 & E50).
  fold latest in Ersi, Emacd, Esig, E20, E50.
  assert (Hopt : forall col nd, col ∈ feature_columns ->
            JFloat <$> optional_round latest col nd
            = (fun v => JFloat (round v nd)) <$> latest !! col).
  { intros col nd Hin. unfold optional_round.
    destruct (latest !! col) as [v|] eqn:Hv; [|reflexivity].
    pose proof (Hdef col v Hin Hv) as Hv'.
    destruct v; [contradiction|..]; reflexivity. }
  repeat first [apply Forall_cons_2|apply Forall_nil_2].
  all: cbn [fst snd]; rewrite Hlk.
  - rewrite Ersi, <- Hopt by decide_closed. reflexivity.
  - rewrite Emacd, <- Hopt by decide_closed. reflexivity.
  - rewrite Esig, <- Hopt by decide_closed. reflexivity.
  - rewrite E20, <- Hopt by decide_closed. reflexivity.
  - rewrite E50, <- Hopt by decide_closed. reflexivity.
Qed.

Lemma row_value_number (data : frame) (name : string) (i : nat)
    (v : float64) :
  row_value data name i = Some v -> row_number data name i = v.
Proof. unfold row_number. now intros ->. Qed.

(** An optional value of a bar is null exactly when the number is
    undefined, a missing column included. *)
Lemma optional_value_number (data : frame) (name : string)
    (i ndigits : nat) :
  optional_value data name i ndigits
  = if isna (row_number data name i) then None
    else Some (round (row_number data name i) ndigits).
Proof.
  unfold optional_value, row_number.
  destruct (row_value data name i) as [v|]; reflexivity.
Qed.

Lemma int_to_double_small (z : Z) :
  (Z.abs z < 2 ^ 53)%Z -> int_to_double z = z.
Proof.
  unfold int_to_double. intros H. apply Z.ltb_lt in H. now rewrite H.
Qed.

(** From 2^53 on, not every integer is a double. *)
Lemma int_to_double_rounds :
  int_to_double (2 ^ 53 + 1) = (2 ^ 53)%Z
  /\ int_to_double (2 ^ 53 + 2) = (2 ^ 53 + 2)%Z
  /\ int_to_double (2 ^ 53 + 3) = (2 ^ 53 + 4)%Z.
Proof. vm_compute. repeat split. Qed.

(** The bars of the history endpoint.  The symbol is passed on as it
    was given (it is not put in upper case), the period and the
    interval default to one year and one day.  The response has one bar
    for each row of the history, in order: date, the four prices
    rounded to cents, and the volume as a whole number.  The volume is
    read from a row of [iterrows]: when the frame has a float column,
    an integer volume has been converted to a double first, so it is
    exact below 2^53 and rounded to the nearest double above.  An
    indicator of a bar is null exactly when it is undefined in that row
    or its column is missing; the bar is not left out, and no NaN is
    shown for an indicator. *)
Theorem stock_data_rows (symbol : string) (period interval : option string)
    (s p i : string) (bars : list bar) :
  get_stock_data py env symbol period interval = StockData s p i bars ->
  s = symbol /\ p = default "1y" period /\ i = default "1d" interval
  /\ exists data,
       history env symbol p i = Some data
       /\ length bars = nrows data
       /\ forall k b, bars !! k = Some b ->
            bar_date b = index_strftime py symbol p i k (date_format i)
            /\ bar_open b
               = round (row_number
                          (calculate_technical_indicators (ta env) data)
                          "Open" k) 2
            /\ bar_high b
               = round (row_number
                          (calculate_technical_indicators (ta env) data)
                          "High" k) 2
            /\ bar_low b
               = round (row_number
                          (calculate_technical_indicators (ta env) data)
                          "Low" k) 2
            /\ bar_close b
               = round (row_number
                          (calculate_technical_indicators (ta env) data)
                          "Close" k) 2
            /\ row_int (calculate_technical_indicators (ta env) data)
                 "Volume" k
               = Some (bar_volume b)
            /\ (forall v z,
                  columns (calculate_technical_indicators (ta env) data)
                    !! "Volume" = Some (Ints v) ->
                  v !! k = Some z ->
                  bar_volume b
                  = (if float_rows
                          (calculate_technical_indicators (ta env) data)
                     then int_to_double z else z)
                  /\ ((Z.abs z < 2 ^ 53)%Z -> bar_volume b = z))
            /\ Forall
                 (fun e : option float64 * string * nat =>
                    e.1.1 <> Some NaN
                    /\ e.1.1
                       = if isna
                            (row_number
                               (calculate_technical_indicators (ta env)
                                  data) e.1.2 k)
                         then None
                         else Some
                                (round
                                   (row_number
                                      (calculate_technical_indicators
                                         (ta env) data) e.1.2 k) e.2))
                 [ (bar_rsi b, "RSI", 2%nat); (bar_macd b, "MACD", 4%nat);
                   (bar_sma_20 b, "SMA_20", 2%nat);
                   (bar_sma_50 b, "SMA_50", 2%nat) ].
Proof.
  unfold get_stock_data, download_stock_data.
  set (p' := default "1y" period). set (i' := default "1d" interval).
  destruct (history env symbol p' i') as [data|] eqn:Hdata; [|discriminate].
  destruct (Frame.empty data); [discriminate|].
  set (result := calculate_technical_indicators (ta env) data).
  destruct (mapM _ _) as [stock_data|] eqn:Hbars; [|discriminate].
  intros H. injection H as <- <- <- <-.
  split; [reflexivity|]. split; [reflexivity|]. split; [reflexivity|].
  exists data. split; [exact Hdata|].
  destruct (indicators_keep_the_bars (ta env) data) as [Hrows _].
  fold result in Hrows.
  apply mapM_Some_1 in Hbars.
  split.
  { apply Forall2_length in Hbars. rewrite length_seq in Hbars. lia. }
  intros k b Hb.
  destruct (Forall2_lookup_r _ _ _ _ _ Hbars Hb) as (k' & Hk & Hbar).
  apply lookup_seq in Hk as [-> _]. cbn [Nat.add] in Hbar.
  unfold stock_bar in Hbar.
  destruct (row_value result "Open" k) as [open|] eqn:Hopen;
    [|discriminate].
  destruct (row_value result "High" k) as [high|] eqn:Hhigh;
    [|discriminate].
  destruct (row_value result "Low" k) as [low|] eqn:Hlow; [|discriminate].
  destruct (row_value result "Close" k) as [close|] eqn:Hclose;
    [|discriminate].
  cbn [mbind option_bind] in Hbar.
  destruct (row_int result "Volume" k) as [volume|] eqn:Hvol;
    [|discriminate].
  cbn [mbind option_bind] in Hbar. injection Hbar as <-.
  cbn [bar_date bar_open bar_high bar_low bar_close bar_volume bar_rsi
       bar_macd bar_sma_20 bar_sma_50].
  fold result.
  rewrite (row_value_number _ _ _ _ Hopen), (row_value_number _ _ _ _ Hhigh),
    (row_value_number _ _ _ _ Hlow), (row_value_number _ _ _ _ Hclose).
  repeat (split; [reflexivity|]).
  split; [exact Hvol|].
  split.
  { intros v z Hcol Hz. unfold row_int in Hvol. rewrite Hcol in Hvol.
    cbn [mbind option_bind] in Hvol. rewrite Hz in Hvol.
    cbn [fmap option_fmap option_map] in Hvol. injection Hvol as <-.
    split; [reflexivity|]. intros Hsmall.
    destruct (float_rows result); [now apply int_to_double_small|].
    reflexivity. }
  repeat first [apply Forall_cons_2|apply Forall_nil_2].
  all: cbn [fst snd]; rewrite optional_value_number.
  all: split; [|reflexivity].
  all: match goal with
       | |- context [isna ?x] => destruct x; cbn; congruence
       end.
Qed.

End EndpointFacts.

(** ** The endpoints in a concrete environment *)

Section EndpointRuns.

Import Fusion Frame Indicators Labels Training Forecast Server.
Import FusionRanges Phases Endpoints Scenario Runs.

(** The first request of a process: AAPL in lower case, three days. *)
Lemma horizon_is_checked_first_witness :
  match snd aapl_response with
  | Ok r model_type =>
      exists data s days,
        Some aapl_body = Some (JObject data)
        /\ dict_get data "symbol" (JString "AAPL") = JString s
        /\ py_int ascii_python (dict_get data "days" (JInt 7)) = Some days
        /\ (1 <= days <= 30)%Z
        /\ model_type = dict_get data "model_type" (JString "Random Forest")
        /\ predict environment (predictor environment) 0%Z
             (str_upper ascii_python s) days
           = (fst aapl_response, inl r)
        /\ symbol r = str_upper ascii_python s
        /\ length (forecast_points r) = Z.to_nat days
  | Failed e =>
      exists data s days,
        Some aapl_body = Some (JObject data)
        /\ dict_get data "symbol" (JString "AAPL") = JString s
        /\ py_int ascii_python (dict_get data "days" (JInt 7)) = Some days
        /\ (1 <= days <= 30)%Z
        /\ predict environment (predictor environment) 0%Z
             (str_upper ascii_python s) days
           = (fst aapl_response, inr e)
  | BadRequest | ServerError => fst aapl_response = predictor environment
  end.
Proof.
  apply (horizon_is_checked_first ascii_python environment
           (predictor environment) (fst aapl_response) 0%Z (Some aapl_body)
           (snd aapl_response)).
  apply surjective_pairing.
Defined.

(** Seven and a half days. *)
Lemma fractional_horizon_is_cut_witness :
  predict_stock ascii_python environment (predictor environment) 0%Z
    (Some (JObject (<["days" := JFloat (Fin (15 # 2))]> ∅)))
  = predict_stock ascii_python environment (predictor environment) 0%Z
      (Some (JObject (<["days" := JInt (Qfloor (15 # 2))]> ∅))).
Proof.
  apply (fractional_horizon_is_cut ascii_python environment
           (predictor environment) 0%Z ∅ (15 # 2)).
  unfold Qle. simpl. lia.
Defined.

(** The indicators of AAPL. *)
Lemma undefined_indicators_are_left_out_witness :
  exists data close volume,
    history environment (str_upper ascii_python "aapl") "6mo" "1d"
    = Some data
    /\ first_row
         (tail1 (calculate_technical_indicators (ta environment) data))
         !! "Close" = Some close
    /\ first_row
         (tail1 (calculate_technical_indicators (ta environment) data))
         !! "Volume" ≫= float_int = Some volume
    /\ aapl_indicators !! "symbol"
       = Some (JString (str_upper ascii_python "aapl"))
    /\ aapl_indicators !! "current_price" = Some (JFloat (round close 2))
    /\ aapl_indicators !! "volume" = Some (JInt volume)
    /\ Forall (fun e : string * string * nat =>
                 aapl_indicators !! e.1.1
                 = JFloat
                   <$> optional_round
                         (first_row
                            (tail1
                               (calculate_technical_indicators
                                  (ta environment) data)))
                         e.1.2 e.2)
         optional_entries
    /\ (forall key j, aapl_indicators !! key = Some j ->
          j <> JNull /\ (j = JFloat NaN -> key = "current_price")).
Proof.
  apply (undefined_indicators_are_left_out ascii_python environment "aapl"
           aapl_indicators).
  vm_compute. reflexivity.
Defined.

(** The prediction and the indicators of AAPL. *)
Lemma indicators_agree_with_prediction_witness :
  exists body,
    get_technical_indicators ascii_python environment "aapl"
    = Indicators body
    /\ Forall (fun e : string * nat =>
                 body !! e.1
                 = (fun v => JFloat (round v e.2))
                   <$> technical_indicators aapl_result !! e.1)
         [ ("rsi", 2%nat); ("macd", 4%nat); ("macd_signal", 4%nat);
           ("sma_20", 2%nat); ("sma_50", 2%nat) ].
Proof.
  apply (indicators_agree_with_prediction ascii_python environment
           aapl_predictor 0%Z "aapl" 3 aapl_result).
  - vm_compute. reflexivity.
  - intros data H. vm_compute in H. injection H as <-.
    eexists. split; reflexivity.
Defined.

(** The history of AAPL with the default period and interval. *)
Lemma stock_data_rows_witness :
  "AAPL" = "AAPL" /\ "1y" = default "1y" None /\ "1d" = default "1d" None
  /\ exists data,
       history environment "AAPL" "1y" "1d" = Some data
       /\ length aapl_bars = nrows data
       /\ forall k b, aapl_bars !! k = Some b ->
            bar_date b
            = index_strftime ascii_python "AAPL" "1y" "1d" k
                (date_format "1d")
            /\ bar_open b
               = round (row_number
                          (calculate_technical_indicators (ta environment)
                             data) "Open" k) 2
            /\ bar_high b
               = round (row_number
                          (calculate_technical_indicators (ta environment)
                             data) "High" k) 2
            /\ bar_low b
               = round (row_number
                          (calculate_technical_indicators (ta environment)
                             data) "Low" k) 2
            /\ bar_close b
               = round (row_number
                          (calculate_technical_indicators (ta environment)
                             data) "Close" k) 2
            /\ row_int (calculate_technical_indicators (ta environment)
                          data) "Volume" k
               = Some (bar_volume b)
            /\ (forall v z,
                  columns (calculate_technical_indicators (ta environment)
                             data) !! "Volume" = Some (Ints v) ->
                  v !! k = Some z ->
                  bar_volume b
                  = (if float_rows
                          (calculate_technical_indicators (ta environment)
                             data)
                     then int_to_double z else z)
                  /\ ((Z.abs z < 2 ^ 53)%Z -> bar_volume b = z))
            /\ Forall
                 (fun e : option float64 * string * nat =>
                    e.1.1 <> Some NaN
                    /\ e.1.1
                       = if isna
                            (row_number
                               (calculate_technical_indicators
                                  (ta environment) data) e.1.2 k)
                         then None
                         else Some
                                (round
                                   (row_number
                                      (calculate_technical_indicators
                                         (ta environment) data) e.1.2 k)
                                   e.2))
                 [ (bar_rsi b, "RSI", 2%nat); (bar_macd b, "MACD", 4%nat);
                   (bar_sma_20 b, "SMA_20", 2%nat);
                   (bar_sma_50 b, "SMA_50", 2%nat) ].
Proof.
  apply (stock_data_rows ascii_python environment "AAPL" None None
           "AAPL" "1y" "1d" aapl_bars).
  vm_compute. reflexivity.
Defined.

End EndpointRuns.

(** ** The path of a forecast *)

Section PathFacts.

Import Forecast ForecastSpec.

Lemma loop_body_step (rt : Runtime) (symbol today : string)
    (trend vol conf : Q) (st : loop_state rt) (d : Z) :
  base_price rt (loop_body rt symbol today trend vol conf st d)
  = mul (base_price rt st)
      (Fin (1 + total_change rt symbol today trend vol d))
  /\ predictions rt (loop_body rt symbol today trend vol conf st d)
     = (predictions rt st
        ++ [ {| day := d;
                predicted_price :=
                  round (mul (base_price rt st)
                           (Fin (1 + total_change rt symbol today trend vol
                                       d))) 2;
                confidence := Qround_digits (day_confidence conf d) 3 |}
        ])%list.
Proof.
  unfold loop_body, total_change, seed. cbn [np_random base_price predictions].
  destruct (np_random_normal rt _ 0 vol) as [v h]. now split.
Qed.

(** The loop, entered after [k] days, appends the points of the next
    [n] days. *)
Lemma loop_closed_form (rt : Runtime) (symbol today : string) (signal : Z)
    (conf : Q) (price : float64) (n k : nat) (st : loop_state rt) :
  base_price rt st
  = price_after rt symbol today (trend_and_volatility signal).1
      (trend_and_volatility signal).2 price k ->
  predictions rt
    (fold_left
       (loop_body rt symbol today (trend_and_volatility signal).1
          (trend_and_volatility signal).2 conf)
       (map Z.of_nat (seq (S k) n)) st)
  = (predictions rt st
     ++ map (point_of_day rt symbol today signal conf price)
          (map Z.of_nat (seq (S k) n)))%list.
Proof.
  revert k st. induction n as [|n IH]; intros k st Hst.
  - cbn. now rewrite app_nil_r.
  - cbn [seq map fold_left].
    destruct (loop_body_step rt symbol today (trend_and_volatility signal).1
                (trend_and_volatility signal).2 conf st (Z.of_nat (S k)))
      as [Hb Hp].
    rewrite (IH (S k)); [|rewrite Hb, Hst; reflexivity].
    rewrite Hp, <- app_assoc. f_equal. cbn [app]. f_equal.
    unfold point_of_day. rewrite Nat2Z.id. cbn [price_after].
    now rewrite Hst.
Qed.

(** The forecast is the list of the points of the days 1 to [days]. *)
Lemma forecast_closed_form (rt : Runtime) (g : generator rt)
    (symbol today : string) (signal : Z) (conf : Q) (price : float64)
    (days : Z) :
  forecast rt g symbol today signal conf price days
  = map (point_of_day rt symbol today signal conf price) (day_range days).
Proof.
  unfold forecast, simulate, seed. cbn [base_price predictions].
  rewrite (surjective_pairing (trend_and_volatility signal)).
  unfold day_range.
  now rewrite (loop_closed_form rt symbol today signal conf price
                 (Z.to_nat days) 0).
Qed.

(** The hash reaches the price of a day through the seeds of the days
    up to it. *)
Lemma price_after_seeds (rt : Runtime) (hash' : string -> Z)
    (symbol today today' : string) (trend vol : Q) (price : float64)
    (n : nat) :
  (forall d, (1 <= d <= Z.of_nat n)%Z ->
     random_seed (with_hash rt hash') symbol today' d
     = random_seed rt symbol today d) ->
  price_after (with_hash rt hash') symbol today' trend vol price n
  = price_after rt symbol today trend vol price n.
Proof.
  induction n as [|n IH]; intros Hseeds; [reflexivity|].
  cbn [price_after]. rewrite IH by (intros d Hd; apply Hseeds; lia).
  unfold total_change. cbn [np_sin np_random_normal np_random_seed with_hash].
  rewrite (Hseeds (Z.of_nat (S n))) by lia. reflexivity.
Qed.

Lemma point_of_day_seeds (rt : Runtime) (hash' : string -> Z)
    (symbol today today' : string) (signal : Z) (conf : Q)
    (price : float64) (d : Z) :
  (forall d', (1 <= d' <= d)%Z ->
     random_seed (with_hash rt hash') symbol today' d'
     = random_seed rt symbol today d') ->
  point_of_day (with_hash rt hash') symbol today' signal conf price d
  = point_of_day rt symbol today signal conf price d.
Proof.
  intros Hseeds. unfold point_of_day. f_equal. f_equal.
  apply price_after_seeds. intros d' Hd'. apply Hseeds. lia.
Qed.


(** With equal seeds for the days of the shorter horizon, the forecast
    of the longer horizon starts with the forecast of the shorter one,
    which has a point for each of its days. *)
Lemma prefix_stable_for_equal_seeds (rt : Runtime) (hash' : string -> Z)
    (g g' : generator rt) (symbol today : string) (signal : Z) (conf : Q)
    (price : float64) (N M : Z) :
  (N <= M)%Z ->
  (forall d, (1 <= d <= N)%Z ->
     random_seed (with_hash rt hash') symbol today d
     = random_seed rt symbol today d) ->
  take (Z.to_nat N)
    (forecast (with_hash rt hash') g' symbol today signal conf price M)
  = forecast rt g symbol today signal conf price N
  /\ length (forecast rt g symbol today signal conf price N) = Z.to_nat N.
Proof.
  intros HNM Hseeds. split; [|apply forecast_length].
  rewrite (forecast_closed_form rt g),
    (forecast_closed_form (with_hash rt hash') g').
  change (@map Z point) with (@fmap list _ Z point).
  rewrite <- fmap_take.
  assert (Htake : take (Z.to_nat N) (day_range M) = day_range N).
  { unfold day_range.
    change (@map nat Z) with (@fmap list _ nat Z).
    rewrite <- fmap_take, take_seq. do 2 f_equal. lia. }
  rewrite Htake. apply map_ext_in. intros d Hd.
  apply day_range_bounds in Hd.
  apply point_of_day_seeds. intros d' Hd'. apply Hseeds. lia.
Qed.

End PathFacts.

(** ** The same request in two processes *)

Section PathRuns.

Import Forecast ForecastSpec Scenario Processes.


(** C10 at two processes.  The same symbol, date, fused signal, base
    confidence and starting price, asked for one day in a process with
    one hash salt and for two days in a process with another: the seeds
    of day 1 differ, and the two-day forecast does not start with the
    one-day forecast.  In one process it does. *)
Lemma C10_prefix_differs_between_processes :
  random_seed (salted 7) "AAPL" "2024-01-02" 1
  <> random_seed (salted 8) "AAPL" "2024-01-02" 1
  /\ take 1
       (forecast (salted 8) 0%Z "AAPL" "2024-01-02" 1 (95 # 100) (Fin 100) 2)
     <> forecast (salted 7) 0%Z "AAPL" "2024-01-02" 1 (95 # 100) (Fin 100) 1
  /\ take 1
       (forecast (salted 7) 0%Z "AAPL" "2024-01-02" 1 (95 # 100) (Fin 100) 2)
     = forecast (salted 7) 0%Z "AAPL" "2024-01-02" 1 (95 # 100) (Fin 100) 1
  /\ map predicted_price
       (forecast (salted 7) 0%Z "AAPL" "2024-01-02" 1 (95 # 100) (Fin 100) 1)
     <> map predicted_price
          (take 1
             (forecast (salted 8) 0%Z "AAPL" "2024-01-02" 1 (95 # 100)
                (Fin 100) 2)).
Proof.
  split; [vm_compute; discriminate|].
  split; [vm_compute; discriminate|].
  split; [vm_compute; reflexivity|].
  vm_compute; discriminate.
Qed.

End PathRuns.
